(** * fate_shift: the time-lord period engine of [backend/advanced_timing.py]

    A shallow embedding of [AdvancedTimingTechniques] (and of the parts of
    [AstrologicalCalculator] it calls) together with the properties the
    specification states about it.

    Conventions of the embedding.
    - Python [float] values are exact rationals ([Q]); Python [int] values
      are [Z].  Binary64 rounding is not modelled.  A statement whose truth
      could turn on the last bits of a float therefore carries a margin (a
      lot a millionth of a degree inside the circle, a mahadasha of at
      least a day) or is restricted to inputs on which the float
      operations of the code are exact ([on_binary_grid]).
    - A [datetime] is a rational number of days since 0001-01-01 00:00; the
      calendar ends before day 3652059.  A parsed ["%Y-%m-%d"] date is the
      integer day number of its midnight, a [timedelta] is a rational
      number of days and [timedelta.days] is its floor.
    - In the Vimshottari timeline [datetime + timedelta] is
      [Py.datetime_add], which raises [OverflowError] outside the
      calendar.  The antardasha loop, whose durations are fractions of a
      float, rounds them to whole microseconds as [timedelta(days=...)]
      does ([Py.timedelta_days]); the mahadashas keep their exact
      durations (whole years are whole microseconds, and the first
      mahadasha is within half a microsecond of its rounded self).
      Elsewhere dates are taken to stay inside the calendar.
    - Planet and sign names (Python strings) are constructors of [Body] and
      [Sign].
    - A Python exception is the [Raise] branch of [result]; [None] is
      [None]; a [while] loop takes fuel, computed from its arguments.
    - [datetime.now()] and the Swiss Ephemeris are explicit arguments
      ([WallClock], [Ephemeris]). *)

From Stdlib Require Import ZArith QArith Qround Qabs List Bool Lia Lqa.
From Stdlib Require Import Sorted Permutation.
Import ListNotations.

Local Open Scope Z_scope.

(** ** Python primitives *)

Module Py.

Inductive exn : Set :=
| IndexError | KeyError | TypeError | ValueError | StopIteration
| OverflowError.

(** The outcome of a call: a value, an exception, or [OutOfFuel] when a
    [while] loop of the model used up its fuel (no run of the program
    ends so; the loops below are shown never to). *)
Inductive result (A : Type) : Type :=
| Ok (a : A)
| Raise (e : exn)
| OutOfFuel.
Arguments Ok {A} a.
Arguments Raise {A} e.
Arguments OutOfFuel {A}.

Definition bind {A B} (m : result A) (k : A -> result B) : result B :=
  match m with
  | Ok a => k a
  | Raise e => Raise e
  | OutOfFuel => OutOfFuel
  end.

Definition fmap {A B} (f : A -> B) (m : result A) : result B :=
  bind m (fun a => Ok (f a)).

(** [int(x)] on a float: truncation toward zero. *)
Definition int (x : Q) : Z := Z.quot (Qnum x) (Zpos (Qden x)).

(** [x % y] on floats, for a positive [y]: the remainder of the floored
    quotient. *)
Definition fmod (x y : Q) : Q := (x - inject_Z (Qfloor (x / y)) * y)%Q.

(** [x < y] and [x <= y] on floats. *)
Definition ltb (x y : Q) : bool := negb (Qle_bool y x).
Definition leb (x y : Q) : bool := Qle_bool x y.

(** The calendar of [datetime]: instants are counted in days from
    0001-01-01 00:00, and the calendar ends just before day 3652059, the
    first instant of the year 10000. *)
Definition datetime_max : Q := 3652059.

(** [t + delta] for a datetime [t] and a timedelta [delta]:
    [OverflowError] when the sum leaves the calendar. *)
Definition datetime_add (t delta : Q) : result Q :=
  let r := (t + delta)%Q in
  if ltb r 0 || leb datetime_max r then Raise OverflowError else Ok r.

(** One microsecond, the resolution of [timedelta], in days. *)
Definition microsecond : Q := 1 # 86400000000.

(** Rounding to the nearest whole number, a tie going to the even one. *)
Definition round_half_even (x : Q) : Z :=
  let f := Qfloor x in
  let d := (x - inject_Z f)%Q in
  if ltb d (1 # 2) then f
  else if ltb (1 # 2) d then f + 1
  else if Z.even f then f else f + 1.

(** [timedelta(days=x)] for a float [x]: the whole number of microseconds
    nearest to [x] days. *)
Definition timedelta_days (x : Q) : Q :=
  (inject_Z (round_half_even (x / microsecond)) * microsecond)%Q.

(** [l[i]]: a negative index counts from the end, an index out of range
    raises [IndexError]. *)
Definition getitem {A} (l : list A) (i : Z) : result A :=
  let n := Z.of_nat (length l) in
  let j := if i <? 0 then i + n else i in
  if (j <? 0) || (n <=? j) then Raise IndexError
  else match nth_error l (Z.to_nat j) with
       | Some a => Ok a
       | None => Raise IndexError
       end.

(** [l.index(x)]: position of the first occurrence, [ValueError] when
    there is none. *)
Fixpoint index {A} (eqb : A -> A -> bool) (x : A) (l : list A) : result Z :=
  match l with
  | [] => Raise ValueError
  | y :: l' =>
      if eqb y x then Ok 0
      else bind (index eqb x l') (fun i => Ok (i + 1))
  end.

(** [l.remove(x)]: drops the first occurrence (the callers test
    membership first). *)
Fixpoint remove {A} (eqb : A -> A -> bool) (x : A) (l : list A) : list A :=
  match l with
  | [] => []
  | y :: l' => if eqb y x then l' else y :: remove eqb x l'
  end.

(** [x in l]. *)
Definition contains {A} (eqb : A -> A -> bool) (x : A) (l : list A) : bool :=
  existsb (fun y => eqb y x) l.

End Py.

Import Py.

Notation "x <- m ;; k" := (Py.bind m (fun x => k))
  (at level 61, m at next level, right associativity).

(** ** Names *)

Inductive Body : Set :=
| sun | moon | mercury | venus | mars | jupiter | saturn
| uranus | neptune | pluto | north_node | chiron
| south_node | ketu | rahu.

Definition Body_eq_dec (a b : Body) : {a = b} + {a <> b}.
Proof. decide equality. Defined.

Definition body_eqb (a b : Body) : bool :=
  if Body_eq_dec a b then true else false.

Inductive Sign : Set :=
| Aries | Taurus | Gemini | Cancer | Leo | Virgo
| Libra | Scorpio | Sagittarius | Capricorn | Aquarius | Pisces.

Definition Sign_eq_dec (a b : Sign) : {a = b} + {a <> b}.
Proof. decide equality. Defined.

Definition sign_eqb (a b : Sign) : bool :=
  if Sign_eq_dec a b then true else false.

(** The list [signs] that [get_zodiac_sign], [_get_next_sign],
    [_get_next_zr_sign] and [_get_angular_signs_from_fortune] each spell
    out. *)
Definition signs : list Sign :=
  [Aries; Taurus; Gemini; Cancer; Leo; Virgo;
   Libra; Scorpio; Sagittarius; Capricorn; Aquarius; Pisces].

(** [signs.index(s)], total on [Sign]. *)
Definition sign_index (s : Sign) : Z :=
  match s with
  | Aries => 0 | Taurus => 1 | Gemini => 2 | Cancer => 3
  | Leo => 4 | Virgo => 5 | Libra => 6 | Scorpio => 7
  | Sagittarius => 8 | Capricorn => 9 | Aquarius => 10 | Pisces => 11
  end.

(** [signs[i]] for an index already reduced modulo 12. *)
Definition sign_at (i : Z) : Sign := nth (Z.to_nat i) signs Aries.

(** ** The natal snapshot and the external collaborators *)

(** What [__init__] caches: [calc.birth_datetime], the longitudes of
    [calc.calculate_planets()] in dictionary order, and the angles and cusps
    of [calc.calculate_houses()]. *)
Record NatalContext : Type := {
  birth_datetime : Q;
  natal_planets : list (Body * Q);
  asc : Q;
  mc : Q;
  cusps : list Q
}.

(** [natal_planets[name]['longitude']]. *)
Fixpoint longitude_of (name : Body) (ps : list (Body * Q)) : result Q :=
  match ps with
  | [] => Raise KeyError
  | (b, l) :: ps' => if body_eqb b name then Ok l else longitude_of name ps'
  end.

(** ** Registry tables *)

(** [sign_periods] of [calculate_zodiacal_releasing]. *)
Definition sign_periods (s : Sign) : Z :=
  match s with
  | Aries => 15 | Taurus => 8 | Gemini => 20 | Cancer => 25
  | Leo => 19 | Virgo => 20 | Libra => 8 | Scorpio => 15
  | Sagittarius => 12 | Capricorn => 27 | Aquarius => 30 | Pisces => 12
  end.

(** [dasha_sequence] of [calculate_vimshottari_dasha]. *)
Definition dasha_sequence : list (Body * Z) :=
  [(ketu, 7); (venus, 20); (sun, 6); (moon, 10);
   (mars, 7); (rahu, 18); (jupiter, 16); (saturn, 19);
   (mercury, 17)].

(** The day and night [sequence] of [calculate_firdaria]. *)
Definition firdaria_sequence (is_day_birth : bool) : list (Body * Z) :=
  if is_day_birth then
    [(sun, 10); (venus, 8); (mercury, 13); (moon, 9);
     (saturn, 11); (jupiter, 12); (mars, 7);
     (north_node, 3); (south_node, 2)]
  else
    [(moon, 9); (saturn, 11); (jupiter, 12); (mars, 7);
     (sun, 10); (venus, 8); (mercury, 13);
     (north_node, 3); (south_node, 2)].

(** The years of one pass through a sequence. *)
Definition cycle_years (seq : list (Body * Z)) : Z :=
  fold_right (fun p acc => snd p + acc) 0 seq.

(** The years of one pass through the twelve signs. *)
Definition releasing_cycle_years : Z :=
  fold_right (fun s acc => sign_periods s + acc) 0 signs.

(** [_get_sign_ruler]. *)
Definition _get_sign_ruler (s : Sign) : Body :=
  match s with
  | Aries => mars | Taurus => venus | Gemini => mercury
  | Cancer => moon | Leo => sun | Virgo => mercury
  | Libra => venus | Scorpio => mars | Sagittarius => jupiter
  | Capricorn => saturn | Aquarius => saturn | Pisces => jupiter
  end.

(** ** Day or night birth *)

(** The test of [calculate_firdaria] (lines 321-322). *)
Definition firdaria_is_day_birth (ctx : NatalContext) : result bool :=
  s <- longitude_of sun (natal_planets ctx) ;;
  Ok (Py.ltb (asc ctx) s || Py.ltb s (asc ctx - 180)%Q).

(** The test of [_calculate_lot_of_spirit] (lines 93-94). *)
Definition spirit_is_day_birth (ctx : NatalContext) : result bool :=
  s <- longitude_of sun (natal_planets ctx) ;;
  Ok (Py.ltb (asc ctx) s || Py.ltb s (asc ctx - 180)%Q).

(** ** Zodiac helpers *)

(** [AstrologicalCalculator.get_zodiac_sign]: [signs[int(longitude / 30)]]. *)
Definition get_zodiac_sign (longitude : Q) : result Sign :=
  Py.getitem signs (Py.int (longitude / 30)).

(** [_get_next_sign]: the next sign in zodiacal order. *)
Definition _get_next_sign (current_sign : Sign) : Sign :=
  sign_at ((sign_index current_sign + 1) mod 12).

(** [_get_next_zr_sign]: eleven signs forward. *)
Definition _get_next_zr_sign (current_sign : Sign) : Sign :=
  sign_at ((sign_index current_sign + 11) mod 12).

(** The wrap [if x < 0: x += 360 elif x > 360: x -= 360] shared by the two
    lots, on exact rationals.  In binary64 a negative sum closer to 0 than
    2^-45 wraps to 360.0 itself; the statements about the lots keep a
    margin from the ends of the circle or stay on [on_binary_grid]. *)
Definition wrap_lot (x : Q) : Q :=
  if Py.ltb x 0 then (x + 360)%Q
  else if Py.ltb 360 x then (x - 360)%Q
  else x.

(** [AstrologicalCalculator.calculate_arabic_parts]: the Lot of Fortune and
    its sign (the ['degree'] entry is not used by the engine). *)
Definition calculate_arabic_parts (ctx : NatalContext) : result (Q * Sign) :=
  s <- longitude_of sun (natal_planets ctx) ;;
  m <- longitude_of moon (natal_planets ctx) ;;
  let is_day_birth := Py.ltb (asc ctx) s || Py.ltb s (asc ctx - 180)%Q in
  let pof := wrap_lot (if is_day_birth then asc ctx + m - s
                       else asc ctx + s - m)%Q in
  sg <- get_zodiac_sign pof ;;
  Ok (pof, sg).

(** [_calculate_lot_of_spirit]. *)
Definition _calculate_lot_of_spirit (ctx : NatalContext) : result Q :=
  is_day_birth <- spirit_is_day_birth ctx ;;
  s <- longitude_of sun (natal_planets ctx) ;;
  m <- longitude_of moon (natal_planets ctx) ;;
  Ok (wrap_lot (if is_day_birth then asc ctx + s - m
                else asc ctx + m - s)%Q).

(** [_get_angular_signs_from_fortune]: 1st, 4th, 7th and 10th sign from the
    sign of the Lot of Fortune. *)
Definition _get_angular_signs_from_fortune (ctx : NatalContext)
  : result (list Sign) :=
  lots <- calculate_arabic_parts ctx ;;
  fortune_sign <- get_zodiac_sign (fst lots) ;;
  let fortune_index := sign_index fortune_sign in
  Ok (map sign_at [fortune_index; (fortune_index + 3) mod 12;
                   (fortune_index + 6) mod 12; (fortune_index + 9) mod 12]).

(** [_is_peak_period], given the angular signs. *)
Definition _is_peak_period (angular_signs : list Sign) (sign : Sign) : bool :=
  Py.contains sign_eqb sign angular_signs.

(** [_check_loosening_bond]. *)
Definition _check_loosening_bond (sign : Sign) (level : Z) : bool :=
  let ruler := _get_sign_ruler sign in
  Py.contains body_eqb ruler [mars; saturn] && (2 <=? level).

(** ** Zodiacal Releasing *)

Record ZRPeriod : Type := {
  zr_level : Z;
  zr_sign : Sign;
  zr_ruler : Body;
  start_days : Z;
  end_days : Z;
  peak : bool;
  loosening : bool
}.

(** The span in days of the period of [current_sign] at [level]
    (lines 57-65). *)
Definition period_days (level : Z) (current_sign : Sign) : Z :=
  let period_years := sign_periods current_sign in
  if level =? 2 then period_years * 30
  else if level =? 3 then period_years * 7
  else if level =? 4 then period_years
  else period_years * 360.

(** The mutable variables of the walk. *)
Record ZRState : Type := {
  current_days : Z;
  current_sign : Sign;
  level : Z
}.

(** The dictionary appended at lines 67-75. *)
Definition zr_entry (angular_signs : list Sign) (st : ZRState) : ZRPeriod :=
  {| zr_level := level st;
     zr_sign := current_sign st;
     zr_ruler := _get_sign_ruler (current_sign st);
     start_days := current_days st;
     end_days := current_days st + period_days (level st) (current_sign st);
     peak := _is_peak_period angular_signs (current_sign st);
     loosening := _check_loosening_bond (current_sign st) (level st) |}.

(** The [if]/[else] that ends the loop body (lines 77-84). *)
Definition zr_step (days_elapsed : Z) (st : ZRState) : ZRState :=
  let pd := period_days (level st) (current_sign st) in
  if days_elapsed <? current_days st + pd then
    let level' := level st + 1 in
    {| current_days := current_days st;
       current_sign := if level' <=? 4
                       then _get_next_zr_sign (current_sign st)
                       else current_sign st;
       level := level' |}
  else
    {| current_days := current_days st + pd;
       current_sign := _get_next_sign (current_sign st);
       level := level st |}.

(** The loop condition (line 56). *)
Definition zr_continue (days_elapsed : Z) (st : ZRState) : bool :=
  (current_days st <? days_elapsed) && (level st <=? 4).

(** The [while] loop (lines 56-84). *)
Fixpoint zr_loop (fuel : nat) (angular_signs : list Sign) (days_elapsed : Z)
    (st : ZRState) : result (list ZRPeriod) :=
  if zr_continue days_elapsed st then
    match fuel with
    | O => OutOfFuel
    | S fuel' =>
        Py.fmap (cons (zr_entry angular_signs st))
          (zr_loop fuel' angular_signs days_elapsed
             (zr_step days_elapsed st))
    end
  else Ok [].

(** Iterations the walk can take: every iteration but the (at most four)
    descents advances the cursor by at least a day. *)
Definition zr_fuel (days_elapsed : Z) : nat := Z.to_nat days_elapsed + 4.

(** The walk from a starting sign: the loop of
    [calculate_zodiacal_releasing] with its initial state. *)
Definition zr_walk (angular_signs : list Sign) (sign : Sign)
    (days_elapsed : Z) : result (list ZRPeriod) :=
  zr_loop (zr_fuel days_elapsed) angular_signs days_elapsed
    {| current_days := 0; current_sign := sign; level := 1 |}.

Inductive Lot : Set := fortune | spirit.

(** The reading of [datetime.now()]: the instant and its [.month]. *)
Record WallClock : Type := {
  now : Q;
  now_month : Z
}.

(** A date argument: [None] selects [datetime.now()], a string parses to
    the midnight of its day. *)
Definition resolve_date (clock : WallClock) (date : option Z) : Q :=
  match date with
  | None => now clock
  | Some d => inject_Z d
  end.

(** [calculate_zodiacal_releasing]. *)
Definition calculate_zodiacal_releasing (clock : WallClock)
    (ctx : NatalContext) (starting_lot : Lot) (target_date : option Z)
  : result (list ZRPeriod) :=
  lots <- calculate_arabic_parts ctx ;;
  starting_point <- match starting_lot with
                    | fortune => Ok (fst lots)
                    | spirit => _calculate_lot_of_spirit ctx
                    end ;;
  sign <- get_zodiac_sign starting_point ;;
  let target := resolve_date clock target_date in
  let days_elapsed := Qfloor (target - birth_datetime ctx) in
  angular <- (if 0 <? days_elapsed
              then _get_angular_signs_from_fortune ctx else Ok []) ;;
  zr_walk angular sign days_elapsed.

(** ** Vimshottari Dasha *)

(** The constants of [calculate_vimshottari_dasha]: the ayanamsa, the width
    of a nakshatra as the code writes it, and the days of a year. *)
Definition ayanamsa : Q := 24.12.
Definition nakshatra_width : Q := 13.333333.
Definition days_per_year : Q := 365.25.

(** [nakshatra_rulers]: the nine rulers, three times over. *)
Definition vimshottari_rulers : list Body :=
  [ketu; venus; sun; moon; mars; rahu; jupiter; saturn; mercury].

Definition nakshatra_rulers : list Body :=
  vimshottari_rulers ++ vimshottari_rulers ++ vimshottari_rulers.

Record Dasha : Type := {
  mahadasha : Body;
  dasha_start : Q;
  dasha_end : Q;
  dasha_years : Q
}.

Record Antardasha : Type := {
  planet : Body;
  antar_start : Q;
  antar_end : Q;
  antar_years : Q
}.

(** Lines 176-180: the sidereal longitude of the natal Moon. *)
Definition moon_sidereal (moon_tropical : Q) : Q :=
  let s := (moon_tropical - ayanamsa)%Q in
  if Py.ltb s 0 then (s + 360)%Q else s.

(** Lines 183-184. *)
Definition nakshatra (moon_tropical : Q) : Z :=
  Py.int (moon_sidereal moon_tropical / nakshatra_width).

Definition nakshatra_degree (moon_tropical : Q) : Q :=
  Py.fmod (moon_sidereal moon_tropical) nakshatra_width.

(** Lines 199-200: [next(i for i, (ruler, _) in enumerate(dasha_sequence)
    if ruler == starting_ruler)]. *)
Fixpoint first_index_of (starting_ruler : Body) (seq : list (Body * Z))
  : result Z :=
  match seq with
  | [] => Raise StopIteration
  | (ruler, _) :: seq' =>
      if body_eqb ruler starting_ruler then Ok 0
      else i <- first_index_of starting_ruler seq' ;; Ok (i + 1)
  end.

(** Lines 196-214: the first Mahadasha, with the index of its ruler in
    [dasha_sequence].  Its end is the exact [remaining_years * 365.25]
    days after the birth; [timedelta] would move it by at most half a
    microsecond. *)
Definition first_dasha (ctx : NatalContext) : result (Z * Dasha) :=
  moon_tropical <- longitude_of moon (natal_planets ctx) ;;
  starting_ruler <- Py.getitem nakshatra_rulers (nakshatra moon_tropical) ;;
  first_dasha_index <- first_index_of starting_ruler dasha_sequence ;;
  entry <- Py.getitem dasha_sequence first_dasha_index ;;
  let first_dasha_years := snd entry in
  let elapsed_portion := (nakshatra_degree moon_tropical / nakshatra_width)%Q in
  let remaining_years :=
    (inject_Z first_dasha_years * (1 - elapsed_portion))%Q in
  current_dasha_end <-
    Py.datetime_add (birth_datetime ctx) (remaining_years * days_per_year) ;;
  Ok (first_dasha_index,
      {| mahadasha := starting_ruler;
         dasha_start := birth_datetime ctx;
         dasha_end := current_dasha_end;
         dasha_years := remaining_years |}).

(** [dasha_sequence[dasha_index]] for an index already reduced modulo 9. *)
Definition dasha_entry (dasha_index : Z) : Body * Z :=
  nth (Z.to_nat dasha_index) dasha_sequence (ketu, 7).

(** Lines 217-229: the subsequent dashas, up to ten years past the
    query.  A whole number of years times 365.25 days is a whole number
    of microseconds, so [timedelta] does not round here; the addition
    raises [OverflowError] past the end of the calendar. *)
Fixpoint dasha_loop (fuel : nat) (limit : Q) (dasha_index : Z)
    (current_dasha_end : Q) : result (list Dasha) :=
  if Py.ltb current_dasha_end limit then
    match fuel with
    | O => OutOfFuel
    | S fuel' =>
        let '(ruler, years) := dasha_entry dasha_index in
        let start := current_dasha_end in
        end_ <- Py.datetime_add start (inject_Z years * days_per_year) ;;
        Py.fmap
          (cons {| mahadasha := ruler; dasha_start := start;
                   dasha_end := end_; dasha_years := inject_Z years |})
          (dasha_loop fuel' limit ((dasha_index + 1) mod 9) end_)
    end
  else Ok [].

(** Every dasha lasts more than a day, so the days left to the limit bound
    the iterations. *)
Definition dasha_fuel (limit current_dasha_end : Q) : nat :=
  Z.to_nat (Qceiling (limit - current_dasha_end)).

(** Lines 232-236: the first dasha containing the query instant. *)
Fixpoint find_current_dasha (dashas : list Dasha) (current_date : Q)
  : option Dasha :=
  match dashas with
  | [] => None
  | dasha :: rest =>
      if Py.leb (dasha_start dasha) current_date
         && Py.ltb current_date (dasha_end dasha)
      then Some dasha
      else find_current_dasha rest current_date
  end.

(** [dasha_years] of [_calculate_antardasha]. *)
Definition antardasha_years (p : Body) : result Z :=
  match p with
  | ketu => Ok 7 | venus => Ok 20 | sun => Ok 6 | moon => Ok 10
  | mars => Ok 7 | rahu => Ok 18 | jupiter => Ok 16 | saturn => Ok 19
  | mercury => Ok 17
  | _ => Raise KeyError
  end.

(** Lines 265-283: the [for] loop with its [break]; the accumulator pair is
    [antardashas] and [current_antardasha].  Each duration is rounded to
    whole microseconds by [timedelta], so the ends can pass the end of the
    mahadasha and the [break] can be taken. *)
Fixpoint antardasha_loop (maha : Dasha) (current_date : Q)
    (antardasha_sequence : list Body) (current_start : Q)
    (antardashas : list Antardasha) (current_antardasha : option Antardasha)
  : result (list Antardasha * option Antardasha) :=
  match antardasha_sequence with
  | [] => Ok (antardashas, current_antardasha)
  | p :: rest =>
      y <- antardasha_years p ;;
      let years := (inject_Z y * dasha_years maha / 120)%Q in
      end_ <- Py.datetime_add current_start
                (Py.timedelta_days (years * days_per_year)) ;;
      let antardasha_data :=
        {| planet := p; antar_start := current_start;
           antar_end := end_; antar_years := years |} in
      let antardashas' := antardashas ++ [antardasha_data] in
      let current' :=
        if Py.leb current_start current_date && Py.ltb current_date end_
        then Some antardasha_data else current_antardasha in
      if Py.ltb (dasha_end maha) end_ then Ok (antardashas', current')
      else antardasha_loop maha current_date rest end_ antardashas' current'
  end.

(** Lines 256-263 and the loop: the sibling list [antardashas] of a
    mahadasha with the active one. *)
Definition antardasha_list (maha : Dasha) (current_date : Q)
  : result (list Antardasha * option Antardasha) :=
  start_index <- Py.index body_eqb (mahadasha maha) vimshottari_rulers ;;
  let antardasha_sequence :=
    skipn (Z.to_nat start_index) vimshottari_rulers
    ++ firstn (Z.to_nat start_index) vimshottari_rulers in
  antardasha_loop maha current_date antardasha_sequence (dasha_start maha)
    [] None.

Record AntardashaResult : Type := {
  current : option Antardasha;
  upcoming : list Antardasha
}.

(** [_calculate_antardasha]; subscripting [None] raises [TypeError]. *)
Definition _calculate_antardasha (maha : option Dasha) (current_date : Q)
  : result AntardashaResult :=
  match maha with
  | None => Raise TypeError
  | Some m =>
      r <- antardasha_list m current_date ;;
      Ok {| current := snd r;
            upcoming :=
              firstn 3 (filter (fun a => Py.ltb current_date (antar_start a))
                          (fst r)) |}
  end.

Record VimshottariResult : Type := {
  current_mahadasha : option Dasha;
  current_antardasha : option Antardasha;
  next_antardashas : list Antardasha;
  all_dashas : list Dasha
}.

(** Lines 205-229: the timeline [dashas]; the horizon of line 218 is
    formed once, as the loop condition forms it at every test. *)
Definition dasha_timeline (ctx : NatalContext) (current_date : Q)
  : result (list Dasha) :=
  fd <- first_dasha ctx ;;
  let '(first_dasha_index, d0) := fd in
  limit <- Py.datetime_add current_date (inject_Z (365 * 10)) ;;
  Py.fmap (cons d0)
    (dasha_loop (dasha_fuel limit (dasha_end d0)) limit
       ((first_dasha_index + 1) mod 9) (dasha_end d0)).

(** [calculate_vimshottari_dasha]. *)
Definition calculate_vimshottari_dasha (clock : WallClock)
    (ctx : NatalContext) (current_date : option Z)
  : result VimshottariResult :=
  let date := resolve_date clock current_date in
  dashas <- dasha_timeline ctx date ;;
  let current_dasha := find_current_dasha dashas date in
  antardashas <- _calculate_antardasha current_dasha date ;;
  Ok {| current_mahadasha := current_dasha;
        current_antardasha := current antardashas;
        next_antardashas := upcoming antardashas;
        all_dashas := dashas |}.

(** ** Firdaria *)

Record SubPeriod : Type := {
  sub_ruler : Body;
  sub_years : Q;
  position : Z
}.

(** The list [planets] of [_calculate_firdaria_subperiod]. *)
Definition firdaria_planets : list Body :=
  [sun; venus; mercury; moon; saturn; jupiter; mars].

(** Lines 370-372: the major ruler is removed and inserted at position 0. *)
Definition subperiod_order (major_planet : Body) : list Body :=
  if Py.contains body_eqb major_planet firdaria_planets
  then major_planet :: Py.remove body_eqb major_planet firdaria_planets
  else firdaria_planets.

(** [_calculate_firdaria_subperiod]; [total_years] is never 0 at the call
    site, so the division by zero of line 375 is not modelled. *)
Definition _calculate_firdaria_subperiod (major_planet : Body)
    (total_years : Z) (years_in : Q) : result (option SubPeriod) :=
  let planets := subperiod_order major_planet in
  let sub_years := (inject_Z total_years / 7)%Q in
  let current_sub := Py.int (years_in / sub_years) in
  if current_sub <? Z.of_nat (length planets) then
    r <- Py.getitem planets current_sub ;;
    Ok (Some {| sub_ruler := r; sub_years := sub_years;
                position := current_sub + 1 |})
  else Ok None.

Record FirdariaResult : Type := {
  major_period : Body;
  years_in : Q;
  years_remaining : Q;
  sub_period : option SubPeriod;
  period_years : Z;
  sequence : list (Body * Z)
}.

(** Lines 341-363: the scan of the sequence for the period containing
    [years_elapsed]; [rest] is the part of [sequence] still to visit. *)
Fixpoint firdaria_loop (sequence : list (Body * Z)) (years_elapsed : Q)
    (current_years : Z) (rest : list (Body * Z))
  : result (option FirdariaResult) :=
  match rest with
  | [] => Ok None
  | (p, years) :: rest' =>
      if Py.leb (inject_Z current_years) years_elapsed
         && Py.ltb years_elapsed (inject_Z (current_years + years))
      then
        let years_into_period := (years_elapsed - inject_Z current_years)%Q in
        let years_remaining := (inject_Z years - years_into_period)%Q in
        sub <- _calculate_firdaria_subperiod p years years_into_period ;;
        Ok (Some {| major_period := p;
                    years_in := years_into_period;
                    years_remaining := years_remaining;
                    sub_period := sub;
                    period_years := years;
                    sequence := sequence |})
      else firdaria_loop sequence years_elapsed (current_years + years) rest'
  end.

(** The scan for a given day/night birth and elapsed years. *)
Definition firdaria_at (is_day_birth : bool) (years_elapsed : Q)
  : result (option FirdariaResult) :=
  let sequence := firdaria_sequence is_day_birth in
  firdaria_loop sequence years_elapsed 0 sequence.

(** [calculate_firdaria]. *)
Definition calculate_firdaria (clock : WallClock) (ctx : NatalContext)
    (current_date : option Z) : result (option FirdariaResult) :=
  let date := resolve_date clock current_date in
  is_day_birth <- firdaria_is_day_birth ctx ;;
  let days_elapsed := Qfloor (date - birth_datetime ctx) in
  let years_elapsed := (inject_Z days_elapsed / days_per_year)%Q in
  firdaria_at is_day_birth years_elapsed.

(** ** The ephemeris *)

(** The Swiss Ephemeris calls of the engine ([swe.calc_ut], with its
    Moshier fallback), by what is asked of them:
    - [transit_positions d]: the longitudes of the ten [planet_ids] of
      [calculate_transits] at noon of day [d], in dictionary order;
    - [progressed_positions t]: the longitudes of the five planets of
      [calculate_progressions] at the progressed instant [t];
    - [sun_longitude d], [node_longitude d]: the Sun and the true node at
      the midnight of day [d], as [calculate_eclipse_sensitivity] reads
      them. *)
Record Ephemeris : Type := {
  transit_positions : Z -> list (Body * Q);
  progressed_positions : Q -> list (Body * Q);
  sun_longitude : Z -> Q;
  node_longitude : Z -> Q
}.

(** ** Transits *)

Inductive Aspect : Set :=
| conjunction | opposition | square | trine | sextile.

Definition Aspect_eq_dec (a b : Aspect) : {a = b} + {a <> b}.
Proof. decide equality. Defined.

Definition aspect_eqb (a b : Aspect) : bool :=
  if Aspect_eq_dec a b then true else false.

Record Transit : Type := {
  transiting : Body;
  natal : Body;
  aspect : Aspect;
  orb : Q;
  transit_date : Z
}.

(** [aspect_orbs] of [calculate_transits], in dictionary order. *)
Definition aspect_orbs : list (Aspect * Q) :=
  [(conjunction, 8%Q); (opposition, 8%Q); (square, 8%Q);
   (trine, 8%Q); (sextile, 6%Q)].

Definition aspect_angle (a : Aspect) : Q :=
  match a with
  | conjunction => 0 | opposition => 180 | square => 90
  | trine => 120 | sextile => 60
  end.

(** The separation of two longitudes, folded into [0, 180]
    (lines 160-162). *)
Definition separation (p q : Q) : Q :=
  let diff := Qabs (p - q) in
  if Py.ltb 180 diff then (360 - diff)%Q else diff.

(** [AstrologicalCalculator.calculate_transits]: the three nested [for]
    loops, each appending in order. *)
Definition calculate_transits (eph : Ephemeris) (ctx : NatalContext)
    (target_date : Z) : list Transit :=
  flat_map (fun tp : Body * Q =>
    flat_map (fun np : Body * Q =>
      let diff := separation (snd tp) (snd np) in
      flat_map (fun ao : Aspect * Q =>
        let d := Qabs (diff - aspect_angle (fst ao)) in
        if Py.leb d (snd ao)
        then [{| transiting := fst tp; natal := fst np; aspect := fst ao;
                 orb := d; transit_date := target_date |}]
        else [])
        aspect_orbs)
      (natal_planets ctx))
    (transit_positions eph target_date).

(** ** Progressed angles *)

(** [AstrologicalCalculator.calculate_progressions]: the progressed
    instant is the birth plus one day per elapsed year. *)
Definition calculate_progressions (eph : Ephemeris) (ctx : NatalContext)
    (target_date : Z) : list (Body * Q) :=
  let years_elapsed :=
    (inject_Z (Qfloor (inject_Z target_date - birth_datetime ctx))
     / days_per_year)%Q in
  progressed_positions eph (birth_datetime ctx + years_elapsed)%Q.

(** The angles of [aspects] in [calculate_progressed_angles]. *)
Definition progressed_angles : list Q := [0; 60; 90; 120; 180]%Q.

(** [calculate_progressed_angles], as the number of aspects it finds (the
    composite analysis takes only [len] of its result). *)
Definition calculate_progressed_angles (eph : Ephemeris)
    (ctx : NatalContext) (target_date : Z) : Z :=
  Z.of_nat (length
    (flat_map (fun pp : Body * Q =>
       flat_map (fun np : Body * Q =>
         let diff := separation (snd pp) (snd np) in
         filter (fun angle => Py.ltb (Qabs (diff - angle)) 1)
           progressed_angles)
         (natal_planets ctx))
       (calculate_progressions eph ctx target_date))).

(** ** Eclipse sensitivity *)

Inductive CheckPoint : Set := point_sun | point_moon | point_asc | point_mc.

Record EclipseHit : Type := {
  eclipse_date : Q;
  eclipse_degree : Q;
  natal_point : CheckPoint;
  natal_degree : Q;
  eclipse_orb : Q
}.

(** [range(0, years_range * 365, 173)] for the default [years_range = 2]. *)
Definition eclipse_offsets : list Z := [0; 173; 346; 519; 692].

(** [calculate_eclipse_sensitivity()], with [datetime.now()] read from the
    clock. *)
Definition calculate_eclipse_sensitivity (clock : WallClock)
    (eph : Ephemeris) (ctx : NatalContext) : result (list EclipseHit) :=
  s <- longitude_of sun (natal_planets ctx) ;;
  m <- longitude_of moon (natal_planets ctx) ;;
  let check_points :=
    [(point_sun, s); (point_moon, m);
     (point_asc, asc ctx); (point_mc, mc ctx)] in
  _ <- longitude_of north_node (natal_planets ctx) ;;
  let current_date := now clock in
  Ok (flat_map (fun days : Z =>
        let check_date := (current_date + inject_Z days)%Q in
        let jd := Qfloor check_date in
        let sun_pos := sun_longitude eph jd in
        let node_pos := node_longitude eph jd in
        if Py.ltb (Qabs (sun_pos - node_pos)) 18 then
          flat_map (fun cp : CheckPoint * Q =>
            let d := Qabs (sun_pos - snd cp) in
            if Py.ltb d 5
            then [{| eclipse_date := check_date; eclipse_degree := sun_pos;
                     natal_point := fst cp; natal_degree := snd cp;
                     eclipse_orb := d |}]
            else [])
            check_points
        else [])
        eclipse_offsets).

(** ** Annual profections *)

(** The entries of the result of [calculate_annual_profections] that depend
    on the age or on the clock (['lord_condition'] and ['activated_topics']
    are functions of [time_lord], of [profected_house] and of the natal
    chart alone, and are left out). *)
Record Profection : Type := {
  year_age : Z;
  profected_house : Z;
  profected_sign : Sign;
  time_lord : Body;
  monthly_profection : Z
}.

(** [calculate_annual_profections]. *)
Definition calculate_annual_profections (clock : WallClock)
    (ctx : NatalContext) (current_age : option Q) : result Profection :=
  let age :=
    match current_age with
    | None => (inject_Z (Qfloor (now clock - birth_datetime ctx))
               / days_per_year)%Q
    | Some a => a
    end in
  let current_age := Py.int age in
  let profected_house := current_age mod 12 + 1 in
  house_cusp <- Py.getitem (cusps ctx) (profected_house - 1) ;;
  profected_sign <- get_zodiac_sign house_cusp ;;
  let time_lord := _get_sign_ruler profected_sign in
  _ <- longitude_of time_lord (natal_planets ctx) ;;
  let current_month := now_month clock in
  let monthly_profection :=
    (profected_house - 1 + current_month - 1) mod 12 + 1 in
  Ok {| year_age := current_age;
        profected_house := profected_house;
        profected_sign := profected_sign;
        time_lord := time_lord;
        monthly_profection := monthly_profection |}.

(** ** Composite timing analysis *)

Record Factors : Type := {
  date : Z;
  transits : Z;
  profection_activated : Profection;
  progressions : Z;
  dasha : Body;
  firdaria : option Body;
  intensity_score : Z
}.

(** Line 651: [t['aspect'] in ['square', 'opposition']]. *)
Definition is_hard (t : Transit) : bool :=
  Py.contains aspect_eqb (aspect t) [square; opposition].

(** Line 655. *)
Definition malefic_dasha (d : Body) : bool :=
  Py.contains body_eqb d [mars; saturn; rahu; ketu].

(** Line 658; [None] is in no list. *)
Definition malefic_firdaria (f : option Body) : bool :=
  match f with
  | Some b => Py.contains body_eqb b [mars; saturn; south_node]
  | None => false
  end.

(** Line 664: [abs((eclipse['date'] - current).days) < 30]. *)
Definition eclipse_near (current : Z) (e : EclipseHit) : bool :=
  Z.abs (Qfloor (eclipse_date e - inject_Z current)) <? 30.

(** Lines 646-665: the score, accumulated in the order of the code. *)
Definition composite_score (ts : list Transit) (dasha : Body)
    (firdaria : option Body) (eclipses : list EclipseHit) (current : Z) : Z :=
  let score := 0 in
  let hard_transits := filter is_hard ts in
  let score := score + Z.of_nat (length hard_transits) * 3 in
  let score := if malefic_dasha dasha then score + 5 else score in
  let score := if malefic_firdaria firdaria then score + 4 else score in
  fold_left (fun score e => if eclipse_near current e then score + 10
                            else score)
    eclipses score.

(** Lines 634-668: one iteration of the loop over the dates. *)
Definition composite_factors (clock : WallClock) (eph : Ephemeris)
    (ctx : NatalContext) (current : Z) : result Factors :=
  let n_transits := Z.of_nat (length (calculate_transits eph ctx current)) in
  prof <- calculate_annual_profections clock ctx None ;;
  let n_prog := calculate_progressed_angles eph ctx current in
  v <- calculate_vimshottari_dasha clock ctx (Some current) ;;
  d <- match current_mahadasha v with
       | Some m => Ok (mahadasha m)
       | None => Raise TypeError
       end ;;
  f <- calculate_firdaria clock ctx (Some current) ;;
  let fird := option_map major_period f in
  eclipses <- calculate_eclipse_sensitivity clock eph ctx ;;
  Ok {| date := current;
        transits := n_transits;
        profection_activated := prof;
        progressions := n_prog;
        dasha := d;
        firdaria := fird;
        intensity_score :=
          composite_score (calculate_transits eph ctx current) d fird
            eclipses current |}.

(** The dates [start, start + 1, ..., end] the [while] loop visits. *)
Definition date_range (date_range_start date_range_end : Z) : list Z :=
  map (fun k => date_range_start + Z.of_nat k)
    (seq 0 (Z.to_nat (date_range_end - date_range_start + 1))).

Fixpoint composite_loop (clock : WallClock) (eph : Ephemeris)
    (ctx : NatalContext) (dates : list Z) : result (list Factors) :=
  match dates with
  | [] => Ok []
  | current :: rest =>
      f <- composite_factors clock eph ctx current ;;
      fs <- composite_loop clock eph ctx rest ;;
      Ok (f :: fs)
  end.

(** [analysis.sort(key=..., reverse=True)]: descending by score, entries of
    equal score keeping their order. *)
Fixpoint insert_by_score (x : Factors) (l : list Factors) : list Factors :=
  match l with
  | [] => [x]
  | y :: l' =>
      if intensity_score x <? intensity_score y
      then y :: insert_by_score x l'
      else x :: l
  end.

Definition sort_by_score (l : list Factors) : list Factors :=
  fold_right insert_by_score [] l.

Record CompositeResult : Type := {
  peak_intensity_dates : list Factors;
  full_analysis : list Factors
}.

(** [composite_timing_analysis]. *)
Definition composite_timing_analysis (clock : WallClock) (eph : Ephemeris)
    (ctx : NatalContext) (date_range_start date_range_end : Z)
  : result CompositeResult :=
  analysis <- composite_loop clock eph ctx
                (date_range date_range_start date_range_end) ;;
  let analysis := sort_by_score analysis in
  Ok {| peak_intensity_dates := firstn 10 analysis;
        full_analysis := analysis |}.

(** ** Shapes of the generated lists *)

(** Every entry of a list and its successor are related by [R]. *)
Inductive adjacent {A : Type} (R : A -> A -> Prop) : list A -> Prop :=
| adjacent_nil : adjacent R []
| adjacent_one : forall a, adjacent R [a]
| adjacent_cons : forall a b l,
    R a b -> adjacent R (b :: l) -> adjacent R (a :: b :: l).

(** How an entry of the Releasing walk follows the one before it: the next
    sign at the same level, from where the previous entry ended; or one
    level down at the sign eleven forward, from where the previous entry
    began. *)
Definition zr_follows (days_elapsed : Z) (p q : ZRPeriod) : Prop :=
  (end_days p <= days_elapsed
   /\ zr_level q = zr_level p
   /\ zr_sign q = sign_at ((sign_index (zr_sign p) + 1) mod 12)
   /\ start_days q = end_days p)
  \/
  (days_elapsed < end_days p
   /\ zr_level q = zr_level p + 1
   /\ zr_sign q = sign_at ((sign_index (zr_sign p) + 11) mod 12)
   /\ zr_sign q = sign_at ((sign_index (zr_sign p) - 1) mod 12)
   /\ zr_sign q <> zr_sign p
   /\ start_days q = start_days p).

(** A list of periods, each with a start and an end, tiles the span from
    [s] to [e]: the first starts at [s], each next starts where the one
    before ends, the last ends at [e], and none is empty. *)
Fixpoint chain {A : Type} (st en : A -> Q) (s : Q) (l : list A) (e : Q)
  : Prop :=
  match l with
  | [] => s = e
  | a :: l' => st a = s /\ (st a < en a)%Q /\ chain st en (en a) l' e
  end.

(** The sum of a rational-valued measure over a list. *)
Definition total {A : Type} (f : A -> Q) (l : list A) : Q :=
  fold_right (fun a acc => (f a + acc)%Q) 0%Q l.

(** The table [dasha_years] of [_calculate_antardasha], on the nine
    rulers. *)
Definition ruler_years (p : Body) : Z :=
  match antardasha_years p with
  | Ok y => y
  | _ => 0
  end.

Definition sequence_years (ps : list Body) : Z :=
  fold_right (fun p acc => ruler_years p + acc) 0 ps.

(** A mahadasha as the timeline builds it: one of the nine rulers, of
    positive length, ending [years x 365.25] days after its start. *)
Definition dasha_wf (d : Dasha) : Prop :=
  In (mahadasha d) vimshottari_rulers
  /\ (0 < dasha_years d)%Q
  /\ dasha_end d = (dasha_start d + dasha_years d * days_per_year)%Q.

(** What a sibling records: its share of the parent's years, and an end
    that many years, to the microsecond, after its start. *)
Definition antar_wf (maha : Dasha) (a : Antardasha) : Prop :=
  antar_years a
  = (inject_Z (ruler_years (planet a)) * dasha_years maha / 120)%Q
  /\ antar_end a
     = (antar_start a + Py.timedelta_days (antar_years a * days_per_year))%Q.

(** A list of periods laid end to end from [s] to [e]: the first starts at
    [s], each next starts where the one before ends, the last ends at [e];
    a period may be empty. *)
Fixpoint contiguous {A : Type} (st en : A -> Q) (s : Q) (l : list A) (e : Q)
  : Prop :=
  match l with
  | [] => s = e
  | a :: l' => st a = s /\ (st a <= en a)%Q /\ contiguous st en (en a) l' e
  end.

(** The test [current_start <= current_date < end] of the antardasha
    loop, and what repeated assignment under it leaves in
    [current_antardasha]: the last sibling that passes it. *)
Definition contains_date (current_date : Q) (a : Antardasha) : bool :=
  Py.leb (antar_start a) current_date && Py.ltb current_date (antar_end a).

Definition last_containing (current_date : Q) (l : list Antardasha)
    (current : option Antardasha) : option Antardasha :=
  fold_left (fun c a => if contains_date current_date a then Some a else c)
    l current.

(** ** The wording of the specification, for comparison *)

(** The order of sub-periods as the specification words it: the seven-body
    list rotated to begin at the major ruler. *)
Definition spec_rotation (major_planet : Body) : list Body :=
  match Py.index body_eqb major_planet firdaria_planets with
  | Ok i => skipn (Z.to_nat i) firdaria_planets
            ++ firstn (Z.to_nat i) firdaria_planets
  | _ => firdaria_planets
  end.

(** The nakshatra index as the specification words it: bands of exactly
    360/27 degrees. *)
Definition spec_nakshatra (moon_tropical : Q) : Z :=
  Qfloor (moon_sidereal moon_tropical / (360 # 27)).

(** ** A worked chart *)

Definition chart_planets : list (Body * Q) :=
  [(sun, 100%Q); (moon, 69.4533322%Q); (mercury, 110%Q); (venus, 80%Q);
   (mars, 200%Q); (jupiter, 250%Q); (saturn, 300%Q); (uranus, 10%Q);
   (neptune, 20%Q); (pluto, 30%Q); (north_node, 40%Q); (chiron, 50%Q)].

(** Born half a day into day 0, Sun above an Ascendant of 40 degrees, the
    Moon 40 per cent through the fourth nakshatra. *)
Definition chart : NatalContext :=
  {| birth_datetime := 0.5;
     natal_planets := chart_planets;
     asc := 40;
     mc := 310;
     cusps := [40; 70; 100; 130; 160; 190; 220; 250; 280; 310; 340; 10]%Q |}.

(** An ephemeris that stands still: every body keeps its natal longitude
    and the node sits on the natal Sun. *)
Definition still_ephemeris : Ephemeris :=
  {| transit_positions := fun _ =>
       [(sun, 100%Q); (moon, 69.4533322%Q); (mercury, 110%Q); (venus, 80%Q);
        (mars, 200%Q); (jupiter, 250%Q); (saturn, 300%Q); (uranus, 10%Q);
        (neptune, 20%Q); (pluto, 30%Q)];
     progressed_positions := fun _ =>
       [(sun, 100%Q); (moon, 69.4533322%Q); (mercury, 110%Q); (venus, 80%Q);
        (mars, 200%Q)];
     sun_longitude := fun _ => 100%Q;
     node_longitude := fun _ => 100%Q |}.

(** The worked chart with the Moon at 24.119995 degrees, five millionths
    of a degree short of the ayanamsa. *)
Definition sliver_chart : NatalContext :=
  {| birth_datetime := 0.5;
     natal_planets :=
       [(sun, 100%Q); (moon, 24.119995%Q); (north_node, 40%Q)];
     asc := 40;
     mc := 310;
     cusps := [40; 70; 100; 130; 160; 190; 220; 250; 280; 310; 340; 10]%Q |}.

(** Born at the midnight of 2000-01-01 (day 730119) with the Moon at the
    binary64 number 130.78666399999977, the eighth below the end of the
    eighth nakshatra: the first mahadasha, of Saturn, lasts ten
    microseconds. *)
Definition short_chart : NatalContext :=
  {| birth_datetime := 730119;
     natal_planets :=
       [(sun, 100%Q); (moon, (4601646650433041 # 35184372088832)%Q);
        (north_node, 40%Q)];
     asc := 40;
     mc := 310;
     cusps := [40; 70; 100; 130; 160; 190; 220; 250; 280; 310; 340; 10]%Q |}.

Definition clock_at (t : Q) (month : Z) : WallClock :=
  {| now := t; now_month := month |}.

(** A chart whose Lot of Spirit is exactly 360: a day birth with the
    Ascendant at 100, the Sun at 300 and the Moon at 40 degrees. *)
Definition full_turn_chart : NatalContext :=
  {| birth_datetime := 0.5;
     natal_planets := [(sun, 300%Q); (moon, 40%Q); (north_node, 40%Q)];
     asc := 100;
     mc := 10;
     cusps := [100; 130; 160; 190; 220; 250; 280; 310; 340; 10; 40; 70]%Q |}.

(** How a mahadasha of the timeline follows the one before it: its ruler is
    the next entry of [dasha_sequence], cyclically, and it lasts the years
    of that entry. *)
Definition dasha_follows (a b : Dasha) : Prop :=
  exists i y,
    0 <= i < 9
    /\ fst (dasha_entry i) = mahadasha a
    /\ dasha_entry ((i + 1) mod 9) = (mahadasha b, y)
    /\ dasha_years b = inject_Z y.

(** The order [analysis.sort(key=..., reverse=True)] leaves between an
    entry and a later one: a lower score, or the same score and a later
    date. *)
Definition ranks_before (a b : Factors) : Prop :=
  intensity_score b < intensity_score a
  \/ (intensity_score a = intensity_score b /\ date a < date b).

(** ** Houses of the planets *)

(** The test of [_get_planet_house] (lines 538-543): a house whose end is
    below its start crosses 0 degrees Aries. *)
Definition in_house (house_start house_end planet_lon : Q) : bool :=
  if Py.ltb house_end house_start
  then Py.leb house_start planet_lon || Py.ltb planet_lon house_end
  else Py.leb house_start planet_lon && Py.ltb planet_lon house_end.

(** The [for i in range(12)] loop of [_get_planet_house], with its
    default after the loop. *)
Fixpoint planet_house_loop (houses : list Q) (planet_lon : Q)
    (indices : list Z) : result Z :=
  match indices with
  | [] => Ok 1
  | i :: rest =>
      house_start <- Py.getitem houses i ;;
      house_end <- Py.getitem houses ((i + 1) mod 12) ;;
      if in_house house_start house_end planet_lon then Ok (i + 1)
      else planet_house_loop houses planet_lon rest
  end.

(** [_get_planet_house]. *)
Definition _get_planet_house (ctx : NatalContext) (planet : Body)
  : result Z :=
  planet_lon <- longitude_of planet (natal_planets ctx) ;;
  planet_house_loop (cusps ctx) planet_lon (map Z.of_nat (seq 0 12)).

(** ** Planetary returns *)





(** ** The calculator's own simplified techniques *)

Module Calculator.

(** The result of [AstrologicalCalculator.calculate_planetary_periods]
    (['dasha_sequence'] is the constant table). *)
Record PlanetaryPeriods : Type := {
  birth_nakshatra : Z;
  birth_dasha_lord : Body;
  dasha_period_years : Z;
  moon_position : Q
}.

(** [AstrologicalCalculator.calculate_planetary_periods]: the nakshatra of
    the tropical Moon, its ruler found by position modulo the length of
    [dasha_sequence]. *)
Definition calculate_planetary_periods (ctx : NatalContext)
  : result PlanetaryPeriods :=
  moon_pos <- longitude_of moon (natal_planets ctx) ;;
  let nakshatra_num := Py.int (moon_pos / 13.333333) in
  let birth_ruler_index :=
    nakshatra_num mod Z.of_nat (length dasha_sequence) in
  entry <- Py.getitem dasha_sequence birth_ruler_index ;;
  Ok {| birth_nakshatra := nakshatra_num + 1;
        birth_dasha_lord := fst entry;
        dasha_period_years := snd entry;
        moon_position := moon_pos |}.

End Calculator.

(** ** Critical degrees *)

Module Critical.

Inductive Modality : Set := cardinal | fixed | mutable.

(** [critical_degrees] of [critical_degree_analysis]. *)
Definition critical_degrees (m : Modality) : list Q :=
  match m with
  | cardinal => [0; 13; 26]%Q
  | fixed => [8; 9; 21; 22]%Q
  | mutable => [4; 17]%Q
  end.

(** The [if]/[elif]/[else] on the sign (lines 277-282). *)
Definition modality_of (s : Sign) : Modality :=
  match s with
  | Aries | Cancer | Libra | Capricorn => cardinal
  | Taurus | Leo | Scorpio | Aquarius => fixed
  | _ => mutable
  end.

(** One entry of [critical_planets]. *)
Record Entry : Type := {
  planet : Body;
  degree : Q;
  sign : Sign;
  critical_degree : Q
}.

(** The inner loop over the critical degrees of one body, whose
    ['sign'] and ['degree'] are those [calculate_planets] records:
    [get_zodiac_sign(longitude)] and [longitude % 30]. *)
Definition critical_hits (name : Body) (longitude : Q)
  : result (list Entry) :=
  s <- get_zodiac_sign longitude ;;
  let degree_in_sign := Py.fmod longitude 30 in
  Ok (flat_map (fun crit_deg : Q =>
        if Py.ltb (Qabs (degree_in_sign - crit_deg)) 1
        then [{| planet := name; degree := degree_in_sign; sign := s;
                 critical_degree := crit_deg |}]
        else [])
        (critical_degrees (modality_of s))).

(** The outer loop over [planets.items()]. *)
Fixpoint critical_loop (planets : list (Body * Q)) : result (list Entry) :=
  match planets with
  | [] => Ok []
  | (name, longitude) :: rest =>
      hits <- critical_hits name longitude ;;
      more <- critical_loop rest ;;
      Ok (hits ++ more)
  end.

(** [AstrologicalCalculator.critical_degree_analysis]. *)
Definition critical_degree_analysis (ctx : NatalContext)
  : result (list Entry) :=
  critical_loop (natal_planets ctx).

End Critical.

(** ** Chara dasha *)

(** The [if]/[elif] chain of [_calculate_jaimini_strength]: what one body
    adds to the strength of the sign it is in. *)
Definition jaimini_points (planet : Body) : Z :=
  if Py.contains body_eqb planet [jupiter; mercury] then 2
  else if Py.contains body_eqb planet [sun; venus] then 1
  else if Py.contains body_eqb planet [mars; saturn] then -1
  else 0.

(** The loop of [_calculate_jaimini_strength] over
    [natal_planets.items()]; the ['sign'] of a body is the one
    [calculate_planets] recorded, [get_zodiac_sign(longitude)]. *)
Fixpoint jaimini_loop (sign : Sign) (planets : list (Body * Q))
    (strength : Z) : result Z :=
  match planets with
  | [] => Ok strength
  | (planet, longitude) :: rest =>
      s <- get_zodiac_sign longitude ;;
      jaimini_loop sign rest
        (if sign_eqb s sign then strength + jaimini_points planet
         else strength)
  end.

(** [_calculate_jaimini_strength]. *)
Definition _calculate_jaimini_strength (ctx : NatalContext) (sign : Sign)
  : result Z :=
  jaimini_loop sign (natal_planets ctx) 0.

(** The loop of [calculate_chara_dasha] over [range(12)]; the dictionary
    [signs_strength] as the list of its assignments in order. *)
Fixpoint chara_loop (ctx : NatalContext) (indices : list Z)
  : result (list (Sign * Z)) :=
  match indices with
  | [] => Ok []
  | i :: rest =>
      let sign_degree := i * 30 in
      sign <- get_zodiac_sign (inject_Z sign_degree) ;;
      strength <- _calculate_jaimini_strength ctx sign ;;
      more <- chara_loop ctx rest ;;
      Ok ((sign, strength) :: more)
  end.

(** [calculate_chara_dasha]. *)
Definition calculate_chara_dasha (ctx : NatalContext)
  : result (list (Sign * Z)) :=
  chara_loop ctx (map Z.of_nat (seq 0 12)).

(** ** The calculator's annual profections *)

Module Simplified.

(** The result of [AstrologicalCalculator.calculate_annual_profections];
    ['ruler_position'] as the ruler's longitude, [None] for the empty
    dictionary that [planets.get(house_ruler, {})] falls back to. *)
Record Profection : Type := {
  profected_house : Z;
  house_sign : Sign;
  house_ruler : Body;
  ruler_position : option Q;
  current_age : Z
}.

(** [AstrologicalCalculator.calculate_annual_profections]; its table
    [rulers] is the table of [_get_sign_ruler], and the default of
    [rulers.get] is never used, every sign being a key. *)
Definition calculate_annual_profections (ctx : NatalContext)
    (current_age : Z) : result Profection :=
  let profected_house := current_age mod 12 + 1 in
  house_cusp <- Py.getitem (cusps ctx) (profected_house - 1) ;;
  house_sign <- get_zodiac_sign house_cusp ;;
  let house_ruler := _get_sign_ruler house_sign in
  Ok {| profected_house := profected_house;
        house_sign := house_sign;
        house_ruler := house_ruler;
        ruler_position :=
          match longitude_of house_ruler (natal_planets ctx) with
          | Ok l => Some l
          | _ => None
          end;
        current_age := current_age |}.

End Simplified.

(** The intensity score as the specification words it: 10 for each
    detected eclipse (a check date with the Sun in the eclipse zone
    around the node) within 30 days of the date. *)
Definition spec_eclipse_dates (clock : WallClock) (eph : Ephemeris)
  : list Q :=
  flat_map (fun days : Z =>
    let check_date := (now clock + inject_Z days)%Q in
    let jd := Qfloor check_date in
    if Py.ltb (Qabs (sun_longitude eph jd - node_longitude eph jd)) 18
    then [check_date] else [])
    eclipse_offsets.

Definition spec_intensity_score (ts : list Transit) (dasha : Body)
    (firdaria : option Body) (eclipse_dates : list Q) (current : Z) : Z :=
  3 * Z.of_nat (length (filter is_hard ts))
  + (if malefic_dasha dasha then 5 else 0)
  + (if malefic_firdaria firdaria then 4 else 0)
  + 10 * Z.of_nat
           (length
              (filter (fun e => Py.ltb (Qabs (e - inject_Z current)) 30)
                 eclipse_dates)).

(** The worked chart born at a new moon: the Moon two degrees past the
    Sun. *)
Definition new_moon_chart : NatalContext :=
  {| birth_datetime := 0.5;
     natal_planets :=
       [(sun, 100%Q); (moon, 102%Q); (mercury, 110%Q); (venus, 80%Q);
        (mars, 200%Q); (jupiter, 250%Q); (saturn, 300%Q); (uranus, 10%Q);
        (neptune, 20%Q); (pluto, 30%Q); (north_node, 40%Q); (chiron, 50%Q)];
     asc := 40;
     mc := 310;
     cusps := [40; 70; 100; 130; 160; 190; 220; 250; 280; 310; 340; 10]%Q |}.

(** A longitude on which the binary64 arithmetic of the code is exact: a
    whole multiple of 2^-40 degree.  Below 1024 such numbers, their sums
    and their differences are binary64 numbers, so the code computes on
    them what the rational model computes. *)
Definition on_binary_grid (x : Q) : Prop :=
  exists n : Z, (x == inject_Z n / 1099511627776)%Q.

(** * Properties *)

(** ** Comparisons and truncation *)

Lemma ltb_lt (x y : Q) : Py.ltb x y = true <-> (x < y)%Q.
Proof.
  unfold Py.ltb. rewrite negb_true_iff.
  split; intro H.
  - apply Qnot_le_lt. intro Hle. apply Qle_bool_iff in Hle. congruence.
  - destruct (Qle_bool y x) eqn:E; [|reflexivity].
    apply Qle_bool_iff in E. exfalso. apply (Qlt_not_le _ _ H E).
Qed.

Lemma ltb_ge (x y : Q) : Py.ltb x y = false <-> (y <= x)%Q.
Proof.
  unfold Py.ltb. rewrite negb_false_iff. apply Qle_bool_iff.
Qed.

Lemma leb_le (x y : Q) : Py.leb x y = true <-> (x <= y)%Q.
Proof. apply Qle_bool_iff. Qed.

Lemma leb_gt (x y : Q) : Py.leb x y = false <-> (y < x)%Q.
Proof.
  unfold Py.leb. split; intro H.
  - apply Qnot_le_lt. intro Hle. apply Qle_bool_iff in Hle. congruence.
  - destruct (Qle_bool x y) eqn:E; [|reflexivity].
    apply Qle_bool_iff in E. exfalso. apply (Qlt_not_le _ _ H E).
Qed.

Lemma body_eqb_eq (a b : Body) : body_eqb a b = true <-> a = b.
Proof. unfold body_eqb. destruct (Body_eq_dec a b); split; congruence. Qed.


Lemma int_nonneg_floor (x : Q) : (0 <= x)%Q -> Py.int x = Qfloor x.
Proof.
  intros Hx. unfold Py.int, Qfloor. destruct x as [n d]. simpl.
  apply Z.quot_div_nonneg; [|lia].
  unfold Qle in Hx. simpl in Hx. lia.
Qed.

Lemma getitem_in_range {A : Type} (l : list A) (i : Z) (d : A) :
  0 <= i < Z.of_nat (length l) ->
  Py.getitem l i = Ok (nth (Z.to_nat i) l d).
Proof.
  intros Hi. unfold Py.getitem.
  destruct (Z.ltb_spec i 0); [lia|].
  destruct (Z.ltb_spec i 0); [lia|].
  destruct (Z.leb_spec (Z.of_nat (length l)) i); [lia|]. simpl.
  destruct (nth_error l (Z.to_nat i)) as [a|] eqn:E.
  - rewrite (nth_error_nth _ _ d E). reflexivity.
  - apply nth_error_None in E. lia.
Qed.

(** ** Instants and durations *)

Lemma datetime_add_ok (t delta r : Q) :
  Py.datetime_add t delta = Ok r ->
  r = (t + delta)%Q /\ (0 <= r)%Q /\ (r < Py.datetime_max)%Q.
Proof.
  unfold Py.datetime_add.
  destruct (Py.ltb (t + delta) 0) eqn:E0; cbn [orb]; [discriminate|].
  destruct (Py.leb Py.datetime_max (t + delta)) eqn:E1; [discriminate|].
  apply ltb_ge in E0. apply leb_gt in E1.
  intros H; injection H as <-. auto.
Qed.

Lemma datetime_add_raise (t delta : Q) (e : Py.exn) :
  Py.datetime_add t delta = Raise e ->
  e = OverflowError
  /\ ((t + delta < 0)%Q \/ (Py.datetime_max <= t + delta)%Q).
Proof.
  unfold Py.datetime_add.
  destruct (Py.ltb (t + delta) 0) eqn:E0; cbn [orb].
  - apply ltb_lt in E0. intros H; injection H as <-. auto.
  - destruct (Py.leb Py.datetime_max (t + delta)) eqn:E1; [|discriminate].
    apply leb_le in E1. intros H; injection H as <-. auto.
Qed.

Lemma datetime_add_fuel (t delta : Q) :
  Py.datetime_add t delta <> OutOfFuel.
Proof.
  unfold Py.datetime_add. destruct (_ || _); discriminate.
Qed.

Lemma datetime_add_in (t delta : Q) :
  (0 <= t + delta)%Q -> (t + delta < Py.datetime_max)%Q ->
  Py.datetime_add t delta = Ok (t + delta)%Q.
Proof.
  intros H0 H1. unfold Py.datetime_add.
  assert (E0 : Py.ltb (t + delta) 0 = false) by (apply ltb_ge; exact H0).
  assert (E1 : Py.leb Py.datetime_max (t + delta) = false)
    by (apply leb_gt; exact H1).
  rewrite E0, E1. reflexivity.
Qed.

(** Rounding moves a number by at most a half. *)
Lemma round_half_even_error (x : Q) :
  (x - (1 # 2) <= inject_Z (Py.round_half_even x))%Q
  /\ (inject_Z (Py.round_half_even x) <= x + (1 # 2))%Q.
Proof.
  unfold Py.round_half_even.
  pose proof (Qfloor_le x) as Hlo. pose proof (Qlt_floor x) as Hhi.
  rewrite inject_Z_plus in Hhi. change (inject_Z 1) with 1%Q in Hhi.
  destruct (Py.ltb (x - inject_Z (Qfloor x)) (1 # 2)) eqn:E1.
  - apply ltb_lt in E1. split; lra.
  - apply ltb_ge in E1.
    destruct (Py.ltb (1 # 2) (x - inject_Z (Qfloor x))) eqn:E2.
    + rewrite inject_Z_plus. change (inject_Z 1) with 1%Q. split; lra.
    + apply ltb_ge in E2. destruct (Z.even (Qfloor x)).
      * split; lra.
      * rewrite inject_Z_plus. change (inject_Z 1) with 1%Q. split; lra.
Qed.

Lemma round_half_even_nonneg (x : Q) :
  (0 <= x)%Q -> 0 <= Py.round_half_even x.
Proof.
  intros Hx. unfold Py.round_half_even.
  assert (H0 : 0 <= Qfloor x)
    by (change 0 with (Qfloor 0); apply Qfloor_resp_le; exact Hx).
  destruct (Py.ltb _ _); [exact H0|].
  destruct (Py.ltb _ _); [lia|].
  destruct (Z.even _); lia.
Qed.

(** A timedelta differs from the float it is built from by at most half
    a microsecond, and is not negative when the float is not. *)
Lemma timedelta_error (x : Q) :
  (x - (1 # 2) * Py.microsecond <= Py.timedelta_days x)%Q
  /\ (Py.timedelta_days x <= x + (1 # 2) * Py.microsecond)%Q.
Proof.
  unfold Py.timedelta_days.
  destruct (round_half_even_error (x / Py.microsecond)) as [Hlo Hhi].
  assert (Hu : (0 < Py.microsecond)%Q) by reflexivity.
  assert (Hx : (x / Py.microsecond * Py.microsecond == x)%Q)
    by (field; intros H; rewrite H in Hu; lra).
  set (n := inject_Z (Py.round_half_even (x / Py.microsecond))) in *.
  assert (H1 : ((x / Py.microsecond - (1 # 2)) * Py.microsecond
                <= n * Py.microsecond)%Q)
    by (apply Qmult_le_compat_r; lra).
  assert (H2 : (n * Py.microsecond
                <= (x / Py.microsecond + (1 # 2)) * Py.microsecond)%Q)
    by (apply Qmult_le_compat_r; lra).
  set (q := (x / Py.microsecond)%Q) in *. clearbody q n.
  unfold Py.microsecond in *. split; lra.
Qed.

Lemma timedelta_nonneg (x : Q) :
  (0 <= x)%Q -> (0 <= Py.timedelta_days x)%Q.
Proof.
  intros Hx. unfold Py.timedelta_days.
  assert (Hu : (0 < Py.microsecond)%Q) by reflexivity.
  assert (Hq : (0 <= x / Py.microsecond)%Q)
    by (apply Qle_shift_div_l; [exact Hu | lra]).
  pose proof (round_half_even_nonneg _ Hq) as Hn.
  rewrite Zle_Qle in Hn. change (inject_Z 0) with 0%Q in Hn.
  apply Qmult_le_0_compat; lra.
Qed.

(** ** Signs and lots *)

Lemma sign_index_at (k : Z) : 0 <= k < 12 -> sign_index (sign_at k) = k.
Proof.
  intros Hk.
  assert (H : exists n : nat, (n < 12)%nat /\ k = Z.of_nat n)
    by (exists (Z.to_nat k); lia).
  destruct H as (n & Hn & ->).
  do 12 (destruct n as [|n]; [reflexivity|]). lia.
Qed.

Lemma sign_at_index (s : Sign) : sign_at (sign_index s) = s.
Proof. destruct s; reflexivity. Qed.

Lemma sign_index_range (s : Sign) : 0 <= sign_index s < 12.
Proof. destruct s; simpl; lia. Qed.

Lemma zodiac_index_range (longitude : Q) :
  (0 <= longitude)%Q -> (longitude < 360)%Q ->
  Py.int (longitude / 30) = Qfloor (longitude / 30)
  /\ 0 <= Qfloor (longitude / 30) < 12.
Proof.
  intros H0 H1.
  assert (Hq0 : (0 <= longitude / 30)%Q)
    by (apply Qle_shift_div_l; [reflexivity | lra]).
  assert (Hq1 : (longitude / 30 < 12)%Q)
    by (apply Qlt_shift_div_r; [reflexivity | lra]).
  split; [apply int_nonneg_floor; exact Hq0|]. split.
  - change 0 with (Qfloor 0). apply Qfloor_resp_le. exact Hq0.
  - pose proof (Qfloor_le (longitude / 30)) as Hf.
    assert (Hlt : (inject_Z (Qfloor (longitude / 30)) < inject_Z 12)%Q)
      by (eapply Qle_lt_trans; [exact Hf | exact Hq1]).
    rewrite <- Zlt_Qlt in Hlt. exact Hlt.
Qed.

Lemma get_zodiac_sign_inside (longitude : Q) :
  (0 <= longitude)%Q -> (longitude < 360)%Q ->
  get_zodiac_sign longitude = Ok (sign_at (Qfloor (longitude / 30))).
Proof.
  intros H0 H1. destruct (zodiac_index_range _ H0 H1) as [Hi Hr].
  unfold get_zodiac_sign. rewrite Hi.
  rewrite (getitem_in_range signs _ Aries)
    by (change (Z.of_nat (length signs)) with 12; lia).
  reflexivity.
Qed.

Lemma get_zodiac_sign_outside (longitude : Q) :
  (360 <= longitude)%Q -> get_zodiac_sign longitude = Raise IndexError.
Proof.
  intros H.
  assert (Hq : (12 <= longitude / 30)%Q)
    by (apply Qle_shift_div_l; [reflexivity | lra]).
  unfold get_zodiac_sign. rewrite int_nonneg_floor by lra.
  assert (H12 : 12 <= Qfloor (longitude / 30)).
  { change 12 with (Qfloor (inject_Z 12)) at 1. apply Qfloor_resp_le.
    exact Hq. }
  unfold Py.getitem.
  destruct (Z.ltb_spec (Qfloor (longitude / 30)) 0); [lia|].
  destruct (Z.ltb_spec (Qfloor (longitude / 30)) 0); [lia|].
  change (Z.of_nat (length signs)) with 12.
  destruct (Z.leb_spec 12 (Qfloor (longitude / 30))); [reflexivity | lia].
Qed.

Lemma wrap_lot_range (x : Q) :
  (-360 < x)%Q -> (x < 720)%Q ->
  (0 <= wrap_lot x)%Q /\ (wrap_lot x <= 360)%Q
  /\ (wrap_lot x == 360 <-> x == 360)%Q
  /\ exists e : Z, -1 <= e <= 1 /\ (wrap_lot x == x + 360 * inject_Z e)%Q.
Proof.
  intros Hlo Hhi. unfold wrap_lot.
  destruct (Py.ltb x 0) eqn:E0.
  - apply ltb_lt in E0. repeat split; try lra.
    exists 1. split; [lia|]. change (inject_Z 1) with 1%Q. ring.
  - apply ltb_ge in E0. destruct (Py.ltb 360 x) eqn:E1.
    + apply ltb_lt in E1. repeat split; try lra.
      exists (-1). split; [lia|]. change (inject_Z (-1)) with (-1)%Q. ring.
    + apply ltb_ge in E1. repeat split; try lra.
      exists 0. split; [lia|]. change (inject_Z 0) with 0%Q. ring.
Qed.

(** The sum, before wrapping, that each lot takes: Fortune and Spirit
    exchange the Sun and the Moon. *)
Lemma lots_raw (ctx : NatalContext) (s m : Q) :
  longitude_of sun (natal_planets ctx) = Ok s ->
  longitude_of moon (natal_planets ctx) = Ok m ->
  let day := Py.ltb (asc ctx) s || Py.ltb s (asc ctx - 180)%Q in
  _calculate_lot_of_spirit ctx
  = Ok (wrap_lot (if day then asc ctx + s - m else asc ctx + m - s)%Q)
  /\ calculate_arabic_parts ctx
     = (sg <- get_zodiac_sign
                (wrap_lot (if day then asc ctx + m - s
                           else asc ctx + s - m)%Q) ;;
        Ok (wrap_lot (if day then asc ctx + m - s
                      else asc ctx + s - m)%Q, sg)).
Proof.
  intros Hs Hm day. split.
  - unfold _calculate_lot_of_spirit, spirit_is_day_birth.
    rewrite Hs. cbn [Py.bind]. rewrite Hm. reflexivity.
  - unfold calculate_arabic_parts. rewrite Hs. cbn [Py.bind].
    rewrite Hm. reflexivity.
Qed.

(** ** Registry sums (C2) *)

(** C2, as stated, fails: the twelve sign-years do not sum to 231. *)
Lemma C2_releasing_sum_is_not_231 :
  ~ (cycle_years dasha_sequence = 120
     /\ cycle_years (firdaria_sequence true) = 75
     /\ cycle_years (firdaria_sequence false) = 75
     /\ map sign_periods signs = [15; 8; 20; 25; 19; 20; 8; 15; 12; 27; 30; 12]
     /\ releasing_cycle_years = 231).
Proof.
  intros (_ & _ & _ & _ & H). vm_compute in H. discriminate H.
Qed.

(** C2 (amended): the nine Vimshottari ruler-years sum to 120, the nine
    Firdaria ruler-years sum to 75 in the day and in the night sequence, and
    the twelve Releasing sign-years, 15, 8, 20, 25, 19, 20, 8, 15, 12, 27,
    30, 12 from Aries to Pisces, sum to 211. *)
Theorem C2_registry_sums :
  length dasha_sequence = 9%nat
  /\ cycle_years dasha_sequence = 120
  /\ length (firdaria_sequence true) = 9%nat
  /\ length (firdaria_sequence false) = 9%nat
  /\ cycle_years (firdaria_sequence true) = 75
  /\ cycle_years (firdaria_sequence false) = 75
  /\ map sign_periods signs = [15; 8; 20; 25; 19; 20; 8; 15; 12; 27; 30; 12]
  /\ releasing_cycle_years = 211.
Proof. repeat split. Qed.

(** ** Releasing units (C4) *)

(** C4, as stated, fails: nineteen level-2 "months" are exactly 19 x 30
    days. *)
Lemma C4_level2_is_thirty_day_months :
  ~ (period_days 1 Leo = 19 * 360 /\ period_days 2 Leo <> 19 * 30).
Proof. intros [_ H]. apply H. reflexivity. Qed.

(** C4 (amended): a sign valued n spans n x 360 days at level 1, n x 30 days
    at level 2, n x 7 days at level 3 and n days at level 4, and every entry
    of the walk ends that many days after its start; in particular Leo spans
    19 x 360 days at level 1 and 19 x 30 days at level 2. *)
Theorem C4_period_days_by_level :
  (forall s : Sign,
      period_days 1 s = sign_periods s * 360
      /\ period_days 2 s = sign_periods s * 30
      /\ period_days 3 s = sign_periods s * 7
      /\ period_days 4 s = sign_periods s)
  /\ (forall angular st,
        end_days (zr_entry angular st) - start_days (zr_entry angular st)
        = period_days (level st) (current_sign st))
  /\ period_days 1 Leo = 19 * 360
  /\ period_days 2 Leo = 19 * 30.
Proof.
  split; [|split; [|split; reflexivity]].
  - intros s. repeat split.
  - intros angular st. simpl. lia.
Qed.

(** ** The Releasing walk (C5) *)

Lemma next_zr_sign_backward (s : Sign) :
  _get_next_zr_sign s = sign_at ((sign_index s - 1) mod 12)
  /\ _get_next_zr_sign s <> s.
Proof. destruct s; split; (reflexivity || discriminate). Qed.

Lemma zr_step_advance (days_elapsed : Z) (st : ZRState) :
  current_days st + period_days (level st) (current_sign st) <= days_elapsed ->
  zr_step days_elapsed st =
  {| current_days := current_days st
                     + period_days (level st) (current_sign st);
     current_sign := _get_next_sign (current_sign st);
     level := level st |}.
Proof.
  intros H. unfold zr_step.
  destruct (Z.ltb_spec days_elapsed
              (current_days st + period_days (level st) (current_sign st)));
    [lia | reflexivity].
Qed.

Lemma zr_step_descend (days_elapsed : Z) (st : ZRState) :
  days_elapsed < current_days st + period_days (level st) (current_sign st) ->
  zr_step days_elapsed st =
  {| current_days := current_days st;
     current_sign := if level st + 1 <=? 4
                     then _get_next_zr_sign (current_sign st)
                     else current_sign st;
     level := level st + 1 |}.
Proof.
  intros H. unfold zr_step.
  destruct (Z.ltb_spec days_elapsed
              (current_days st + period_days (level st) (current_sign st)));
    [reflexivity | lia].
Qed.

Lemma zr_loop_head (fuel : nat) angular (days_elapsed : Z) (st : ZRState)
    (p : ZRPeriod) (l : list ZRPeriod) :
  zr_loop fuel angular days_elapsed st = Ok (p :: l) ->
  p = zr_entry angular st /\ zr_continue days_elapsed st = true.
Proof.
  destruct fuel as [|fuel]; simpl;
    destruct (zr_continue days_elapsed st); try discriminate.
  destruct (zr_loop fuel angular days_elapsed (zr_step days_elapsed st));
    simpl; try discriminate.
  intros H. injection H as H _. auto.
Qed.

Lemma zr_step_follows angular (days_elapsed : Z) (st : ZRState) :
  level (zr_step days_elapsed st) <= 4 ->
  zr_follows days_elapsed (zr_entry angular st)
    (zr_entry angular (zr_step days_elapsed st)).
Proof.
  intros Hlev.
  destruct (Z.lt_ge_cases days_elapsed
              (current_days st + period_days (level st) (current_sign st)))
    as [Hd | Ha].
  - right. rewrite (zr_step_descend _ _ Hd) in *. simpl in *.
    destruct (Z.leb_spec (level st + 1) 4); [|lia].
    destruct (next_zr_sign_backward (current_sign st)) as [Hb Hne].
    repeat split; auto.
  - left. rewrite (zr_step_advance _ _ Ha). simpl. repeat split; auto.
Qed.

Lemma zr_loop_adjacent (fuel : nat) angular (days_elapsed : Z) :
  forall (st : ZRState) (l : list ZRPeriod),
    zr_loop fuel angular days_elapsed st = Ok l ->
    adjacent (zr_follows days_elapsed) l.
Proof.
  induction fuel as [|fuel IH]; intros st l; simpl.
  - destruct (zr_continue days_elapsed st); [discriminate|].
    intros H; injection H as <-. constructor.
  - destruct (zr_continue days_elapsed st); cycle 1.
    { intros H; injection H as <-. constructor. }
    destruct (zr_loop fuel angular days_elapsed (zr_step days_elapsed st))
      as [l'| |] eqn:E; simpl; try discriminate.
    intros H; injection H as <-.
    specialize (IH _ _ E).
    destruct l' as [|q l']; constructor; auto.
    destruct (zr_loop_head _ _ _ _ _ _ E) as [-> Hc].
    apply zr_step_follows.
    unfold zr_continue in Hc. apply andb_true_iff in Hc. lia.
Qed.

(** The fuel of [zr_walk] is enough. *)
Lemma zr_loop_total (fuel : nat) angular (days_elapsed : Z) :
  forall st : ZRState,
    1 <= level st ->
    0 <= current_days st ->
    (Z.max 0 (days_elapsed - current_days st) + Z.max 0 (5 - level st)
     <= Z.of_nat fuel) ->
    exists l, zr_loop fuel angular days_elapsed st = Ok l.
Proof.
  induction fuel as [|fuel IH]; intros st Hl Hc Hf.
  - simpl. destruct (zr_continue days_elapsed st) eqn:E; [|eauto].
    unfold zr_continue in E. apply andb_true_iff in E. simpl in Hf. lia.
  - rewrite Nat2Z.inj_succ in Hf. simpl.
    destruct (zr_continue days_elapsed st) eqn:E; [|eauto].
    unfold zr_continue in E. apply andb_true_iff in E.
    assert (Hpd : 1 <= period_days (level st) (current_sign st)).
    { unfold period_days.
      destruct (level st =? 2), (level st =? 3), (level st =? 4);
        destruct (current_sign st); simpl; lia. }
    destruct (IH (zr_step days_elapsed st)) as [l Hl'].
    + unfold zr_step.
      destruct (days_elapsed <? _); cbn [level]; lia.
    + unfold zr_step.
      destruct (days_elapsed <? _); cbn [current_days]; lia.
    + unfold zr_step.
      destruct (Z.ltb_spec days_elapsed
        (current_days st + period_days (level st) (current_sign st)));
        cbn [current_days level]; lia.
    + rewrite Hl'. simpl. eauto.
Qed.

Lemma zr_walk_total angular (sign : Sign) (days_elapsed : Z) :
  exists l, zr_walk angular sign days_elapsed = Ok l.
Proof.
  apply zr_loop_total; simpl; unfold zr_fuel; lia.
Qed.

Lemma period_days_positive (lv : Z) (s : Sign) : 1 <= period_days lv s.
Proof.
  unfold period_days.
  destruct (lv =? 2), (lv =? 3), (lv =? 4); destruct s; simpl; lia.
Qed.

Lemma zr_loop_nil (fuel : nat) angular (days_elapsed : Z) (st : ZRState) :
  zr_loop fuel angular days_elapsed st = Ok [] ->
  zr_continue days_elapsed st = false.
Proof.
  destruct fuel as [|fuel]; simpl;
    destruct (zr_continue days_elapsed st); try discriminate; auto.
  destruct (zr_loop fuel angular days_elapsed (zr_step days_elapsed st));
    simpl; discriminate.
Qed.

Lemma zr_step_bounds (days_elapsed : Z) (st : ZRState) :
  level st <= level (zr_step days_elapsed st)
  /\ current_days st <= current_days (zr_step days_elapsed st).
Proof.
  pose proof (period_days_positive (level st) (current_sign st)) as Hp.
  unfold zr_step. destruct (days_elapsed <? _); cbn [level current_days]; lia.
Qed.

Lemma zr_loop_entries (fuel : nat) angular (days_elapsed : Z) :
  forall (st : ZRState) (l : list ZRPeriod),
    zr_loop fuel angular days_elapsed st = Ok l ->
    Forall (fun p =>
              level st <= zr_level p <= 4
              /\ current_days st <= start_days p < days_elapsed
              /\ start_days p < end_days p
              /\ zr_ruler p = _get_sign_ruler (zr_sign p)) l
    /\ (forall l' p, l = l' ++ [p] -> days_elapsed <= end_days p).
Proof.
  induction fuel as [|fuel IH]; intros st l; cbn [zr_loop].
  - destruct (zr_continue days_elapsed st); [discriminate|].
    intros H; injection H as <-. split; [constructor|].
    intros l' p H. destruct l'; discriminate H.
  - destruct (zr_continue days_elapsed st) eqn:Hc; cycle 1.
    { intros H; injection H as <-. split; [constructor|].
      intros l' p H. destruct l'; discriminate H. }
    destruct (zr_loop fuel angular days_elapsed (zr_step days_elapsed st))
      as [l2| |] eqn:E; cbn [Py.fmap Py.bind]; try discriminate.
    intros H; injection H as <-.
    destruct (IH _ _ E) as [Hall Hlast].
    unfold zr_continue in Hc. apply andb_true_iff in Hc.
    destruct Hc as [Hcd Hlv]. apply Z.ltb_lt in Hcd. apply Z.leb_le in Hlv.
    pose proof (period_days_positive (level st) (current_sign st)) as Hp.
    destruct (zr_step_bounds days_elapsed st) as [Hb1 Hb2].
    split.
    + constructor.
      * cbn [zr_entry zr_level start_days end_days zr_ruler zr_sign].
        repeat split; lia.
      * eapply Forall_impl; [|exact Hall]. cbn beta.
        intros p (H1 & H2 & H3 & H4). repeat split; try lia. exact H4.
    + intros l' p Heq. destruct l' as [|q l'].
      * cbn [app] in Heq. injection Heq as <- Hl2. subst l2.
        apply zr_loop_nil in E. unfold zr_continue in E.
        cbn [zr_entry end_days].
        destruct (Z.lt_ge_cases days_elapsed
                    (current_days st
                     + period_days (level st) (current_sign st)))
          as [Hd | Ha]; [lia|].
        rewrite (zr_step_advance _ _ Ha) in E. cbn [current_days level] in E.
        apply andb_false_iff in E. destruct E as [E | E].
        -- apply Z.ltb_ge in E. lia.
        -- apply Z.leb_gt in E. lia.
      * cbn [app] in Heq. injection Heq as _ Hl2.
        exact (Hlast _ _ Hl2).
Qed.

Lemma zr_walk_empty angular (sign : Sign) (days_elapsed : Z)
    (l : list ZRPeriod) :
  zr_walk angular sign days_elapsed = Ok l ->
  (l = [] <-> days_elapsed <= 0).
Proof.
  unfold zr_walk, zr_fuel.
  replace (Z.to_nat days_elapsed + 4)%nat
    with (S (Z.to_nat days_elapsed + 3)) by lia.
  cbn [zr_loop]. unfold zr_continue. cbn [current_days level].
  destruct (Z.ltb_spec 0 days_elapsed) as [Hpos | Hneg].
  - change (1 <=? 4) with true. cbn [andb].
    destruct (zr_loop _ _ _ _) as [l'| |]; cbn [Py.fmap Py.bind];
      try discriminate.
    intros H; injection H as <-. split; [discriminate | lia].
  - cbn [andb]. intros H; injection H as <-. split; [lia | reflexivity].
Qed.

(** The walk stops only at the bottom level or exactly on the query day. *)
Lemma zr_loop_last (fuel : nat) angular (days_elapsed : Z) :
  forall (st : ZRState) (l l' : list ZRPeriod) (p : ZRPeriod),
    zr_loop fuel angular days_elapsed st = Ok l ->
    l = l' ++ [p] ->
    (zr_level p = 4 /\ days_elapsed < end_days p)
    \/ end_days p = days_elapsed.
Proof.
  induction fuel as [|fuel IH]; intros st l l' p; cbn [zr_loop].
  - destruct (zr_continue days_elapsed st); [discriminate|].
    intros H; injection H as <-. intros H. destruct l'; discriminate H.
  - destruct (zr_continue days_elapsed st) eqn:Hc; cycle 1.
    { intros H; injection H as <-. intros H. destruct l'; discriminate H. }
    destruct (zr_loop fuel angular days_elapsed (zr_step days_elapsed st))
      as [l2| |] eqn:E; cbn [Py.fmap Py.bind]; try discriminate.
    intros H; injection H as <-. intros Heq.
    unfold zr_continue in Hc. apply andb_true_iff in Hc.
    destruct Hc as [Hcd Hlv]. apply Z.ltb_lt in Hcd. apply Z.leb_le in Hlv.
    destruct l' as [|q l'].
    + cbn [app] in Heq. injection Heq as <- Hl2. subst l2.
      apply zr_loop_nil in E. unfold zr_continue in E.
      cbn [zr_entry end_days zr_level].
      destruct (Z.lt_ge_cases days_elapsed
                  (current_days st
                   + period_days (level st) (current_sign st)))
        as [Hd | Ha].
      * left. rewrite (zr_step_descend _ _ Hd) in E.
        cbn [current_days level] in E.
        apply andb_false_iff in E. destruct E as [E | E].
        -- apply Z.ltb_ge in E. lia.
        -- apply Z.leb_gt in E. lia.
      * right. rewrite (zr_step_advance _ _ Ha) in E.
        cbn [current_days level] in E.
        apply andb_false_iff in E. destruct E as [E | E].
        -- apply Z.ltb_ge in E. lia.
        -- apply Z.leb_gt in E. lia.
    + cbn [app] in Heq. injection Heq as _ Hl2.
      exact (IH _ _ _ _ E Hl2).
Qed.

(** C5: the Releasing walk always returns.  For a query on a later day
    than the birth it begins with the starting sign at level 1 from day 0,
    and every entry is followed in one of two ways.  When the entry ends on
    or before the query day, the next entry is at the same level, at the
    next sign in zodiacal order (Pisces wrapping to Aries), from the day the
    entry ended.  When the span of the entry carries past the query day,
    the next entry is exactly one level down, from the day the entry began,
    at the sign eleven positions forward, that is one position backward,
    never the sign of its parent.  The walk goes on until an entry ends
    exactly on the query day or an entry of level 4 carries past it; with
    no whole day elapsed it is empty. *)
Theorem C5_releasing_walk_steps angular (sign : Sign) (days_elapsed : Z) :
  exists l,
    zr_walk angular sign days_elapsed = Ok l
    /\ (days_elapsed <= 0 -> l = [])
    /\ (0 < days_elapsed ->
        exists p rest,
          l = p :: rest
          /\ zr_level p = 1 /\ zr_sign p = sign /\ start_days p = 0
          /\ end_days p = sign_periods sign * 360)
    /\ adjacent (zr_follows days_elapsed) l
    /\ (forall l' p,
          l = l' ++ [p] ->
          (zr_level p = 4 /\ days_elapsed < end_days p)
          \/ end_days p = days_elapsed)
    /\ _get_next_sign Pisces = Aries.
Proof.
  destruct (zr_walk_total angular sign days_elapsed) as [l Hl].
  exists l. split; [exact Hl|].
  pose proof (zr_walk_empty _ _ _ _ Hl) as Hempty.
  split; [intros H; apply Hempty; exact H|].
  split.
  { intros Hpos. destruct l as [|p rest].
    - exfalso. assert (days_elapsed <= 0) by (apply Hempty; reflexivity). lia.
    - exists p, rest. split; [reflexivity|].
      unfold zr_walk in Hl.
      destruct (zr_loop_head _ _ _ _ _ _ Hl) as [-> _].
      cbn [zr_entry zr_level zr_sign start_days end_days current_days
           current_sign level].
      repeat split. }
  split; [exact (zr_loop_adjacent _ _ _ _ _ Hl)|].
  split; [|reflexivity].
  intros l' p Heq. unfold zr_walk in Hl.
  exact (zr_loop_last _ _ _ _ _ _ _ Hl Heq).
Qed.

Lemma C5_releasing_walk_steps_witness :
  exists p q rest,
    zr_walk [] Aries 100 = Ok (p :: q :: rest)
    /\ (zr_level p = 1 /\ zr_sign p = Aries /\ start_days p = 0
        /\ end_days p = 5400)
    /\ (zr_level q = 2 /\ zr_sign q = Pisces /\ start_days q = 0).
Proof.
  destruct (C5_releasing_walk_steps [] Aries 100)
    as (l & Hl & _ & Hhead & Hadj & _).
  destruct Hhead as (p & rest & -> & H1 & H2 & H3 & H4); [lia|].
  destruct rest as [|q rest].
  { vm_compute in Hl. discriminate Hl. }
  exists p, q, rest. split; [exact Hl|].
  split; [repeat split; assumption|].
  inversion Hadj as [| |a b l0 Hf _]; subst.
  destruct Hf as [(Hle & _) | (_ & Hlv & Hsg & _ & _ & Hst)].
  - rewrite H4 in Hle. vm_compute in Hle. exfalso. apply Hle. reflexivity.
  - rewrite H1 in Hlv. rewrite H2 in Hsg. rewrite H3 in Hst.
    split; [exact Hlv|]. split; [exact Hsg | exact Hst].
Defined.

(** ** Day and night births (C10) *)

(** C10: the day-birth test that selects the Firdaria sequence and the one
    that selects the formula of the Lot of Spirit agree on every chart: both
    hold exactly when the natal Sun's longitude is greater than the
    Ascendant's or less than the Ascendant's minus 180 degrees; the Firdaria
    scan then runs on the sequence, and the Lot of Spirit on the formula,
    of that one verdict. *)
Theorem C10_day_birth_tests_agree (ctx : NatalContext) (s : Q)
    (Hs : longitude_of sun (natal_planets ctx) = Ok s) :
  exists b : bool,
    firdaria_is_day_birth ctx = Ok b
    /\ spirit_is_day_birth ctx = Ok b
    /\ (b = true <-> (asc ctx < s \/ s < asc ctx - 180)%Q)
    /\ (forall clock d,
          calculate_firdaria clock ctx d
          = firdaria_at b
              (inject_Z (Qfloor (resolve_date clock d - birth_datetime ctx))
               / days_per_year)%Q)
    /\ (forall m, longitude_of moon (natal_planets ctx) = Ok m ->
          _calculate_lot_of_spirit ctx
          = Ok (wrap_lot (if b then asc ctx + s - m
                          else asc ctx + m - s)%Q)).
Proof.
  exists (Py.ltb (asc ctx) s || Py.ltb s (asc ctx - 180)%Q).
  split; [|split; [|split; [|split]]].
  - unfold firdaria_is_day_birth. rewrite Hs. reflexivity.
  - unfold spirit_is_day_birth. rewrite Hs. reflexivity.
  - rewrite orb_true_iff, !ltb_lt. reflexivity.
  - intros clock d. unfold calculate_firdaria, firdaria_is_day_birth.
    rewrite Hs. reflexivity.
  - intros m Hm. unfold _calculate_lot_of_spirit, spirit_is_day_birth.
    rewrite Hs. simpl. rewrite Hm. reflexivity.
Qed.

Lemma C10_day_birth_tests_agree_witness :
  exists b : bool,
    firdaria_is_day_birth chart = Ok b
    /\ spirit_is_day_birth chart = Ok b
    /\ (b = true <-> (asc chart < 100 \/ 100 < asc chart - 180)%Q)
    /\ (forall clock d,
          calculate_firdaria clock chart d
          = firdaria_at b
              (inject_Z (Qfloor (resolve_date clock d - birth_datetime chart))
               / days_per_year)%Q)
    /\ (forall m, longitude_of moon (natal_planets chart) = Ok m ->
          _calculate_lot_of_spirit chart
          = Ok (wrap_lot (if b then asc chart + 100 - m
                          else asc chart + m - 100)%Q)).
Proof. apply (C10_day_birth_tests_agree chart 100%Q). reflexivity. Defined.

(** ** The intensity score (C8) *)

Lemma eclipse_fold (current : Z) (es : list EclipseHit) :
  forall score : Z,
    fold_left (fun score e => if eclipse_near current e then score + 10
                              else score) es score
    = score + 10 * Z.of_nat (length (filter (eclipse_near current) es)).
Proof.
  induction es as [|e es IH]; intros score; cbn [fold_left filter].
  - cbn [length]. lia.
  - rewrite IH. destruct (eclipse_near current e); cbn [length];
      rewrite ?Nat2Z.inj_succ; lia.
Qed.

Lemma composite_score_closed (ts : list Transit) (d : Body)
    (f : option Body) (es : list EclipseHit) (current : Z) :
  composite_score ts d f es current
  = 3 * Z.of_nat (length (filter is_hard ts))
    + (if malefic_dasha d then 5 else 0)
    + (if malefic_firdaria f then 4 else 0)
    + 10 * Z.of_nat (length (filter (eclipse_near current) es)).
Proof.
  unfold composite_score. rewrite eclipse_fold.
  destruct (malefic_dasha d), (malefic_firdaria f); lia.
Qed.

Lemma insert_by_score_In (x y : Factors) (l : list Factors) :
  In y (insert_by_score x l) <-> y = x \/ In y l.
Proof.
  induction l as [|z l IH]; simpl.
  - intuition.
  - destruct (intensity_score x <? intensity_score z); simpl;
      rewrite ?IH; intuition.
Qed.

Lemma sort_by_score_In (y : Factors) (l : list Factors) :
  In y (sort_by_score l) <-> In y l.
Proof.
  induction l as [|x l IH]; simpl; [reflexivity|].
  rewrite insert_by_score_In, IH. intuition.
Qed.

Lemma composite_loop_In clock eph ctx (dates : list Z) :
  forall fs fac,
    composite_loop clock eph ctx dates = Ok fs -> In fac fs ->
    exists current, In current dates
                    /\ composite_factors clock eph ctx current = Ok fac.
Proof.
  induction dates as [|current rest IH]; intros fs fac; simpl.
  - intros H; injection H as <-. intros [].
  - destruct (composite_factors clock eph ctx current) as [f| |] eqn:Ef;
      simpl; try discriminate.
    destruct (composite_loop clock eph ctx rest) as [fs'| |] eqn:El;
      simpl; try discriminate.
    intros H; injection H as <-. intros [<- | Hin].
    + exists current. auto.
    + destruct (IH _ _ eq_refl Hin) as (c & Hc & Hf). exists c. auto.
Qed.

Lemma composite_factors_score clock eph ctx (current : Z) (fac : Factors) :
  composite_factors clock eph ctx current = Ok fac ->
  date fac = current
  /\ exists es, calculate_eclipse_sensitivity clock eph ctx = Ok es
     /\ intensity_score fac
        = composite_score (calculate_transits eph ctx current)
            (dasha fac) (firdaria fac) es current.
Proof.
  unfold composite_factors.
  destruct (calculate_annual_profections clock ctx None); simpl;
    try discriminate.
  destruct (calculate_vimshottari_dasha clock ctx (Some current)) as [v| |];
    simpl; try discriminate.
  destruct (current_mahadasha v); simpl; try discriminate.
  destruct (calculate_firdaria clock ctx (Some current)); simpl;
    try discriminate.
  destruct (calculate_eclipse_sensitivity clock eph ctx) as [es| |];
    simpl; try discriminate.
  intros H; injection H as <-. simpl. split; [reflexivity|].
  exists es. auto.
Qed.

(** What the analysis returns: the per-date entries, sorted. *)
Lemma composite_result_shape_early clock eph ctx (s e : Z)
    (r : CompositeResult) :
  composite_timing_analysis clock eph ctx s e = Ok r ->
  exists fs,
    composite_loop clock eph ctx (date_range s e) = Ok fs
    /\ full_analysis r = sort_by_score fs.
Proof.
  unfold composite_timing_analysis.
  destruct (composite_loop clock eph ctx (date_range s e))
    as [fs| |]; cbn [Py.bind]; try discriminate.
  intros H; injection H as <-. exists fs. split; reflexivity.
Qed.

(** The rulers a composite entry records are the active ones. *)
Lemma composite_factors_rulers clock eph ctx (current : Z) (fac : Factors) :
  composite_factors clock eph ctx current = Ok fac ->
  exists v m f,
    calculate_vimshottari_dasha clock ctx (Some current) = Ok v
    /\ current_mahadasha v = Some m
    /\ dasha fac = mahadasha m
    /\ calculate_firdaria clock ctx (Some current) = Ok f
    /\ firdaria fac = option_map major_period f.
Proof.
  unfold composite_factors.
  destruct (calculate_annual_profections clock ctx None); cbn [Py.bind];
    try discriminate.
  destruct (calculate_vimshottari_dasha clock ctx (Some current)) as [v| |];
    cbn [Py.bind]; try discriminate.
  destruct (current_mahadasha v) as [m|] eqn:Hm; cbn [Py.bind];
    try discriminate.
  destruct (calculate_firdaria clock ctx (Some current)) as [f| |];
    cbn [Py.bind]; try discriminate.
  destruct (calculate_eclipse_sensitivity clock eph ctx) as [es| |];
    cbn [Py.bind]; try discriminate.
  intros H; injection H as <-. cbn [dasha firdaria].
  exists v, m, f. repeat split; assumption.
Qed.

(** What the four tests of the score accept. *)
Lemma is_hard_iff (t : Transit) :
  is_hard t = true <-> aspect t = square \/ aspect t = opposition.
Proof.
  unfold is_hard, Py.contains. cbn [existsb]. unfold aspect_eqb.
  destruct (aspect t); cbn; split; intros H;
    try discriminate; try reflexivity; auto;
    destruct H as [H | H]; discriminate H.
Qed.

Lemma malefic_dasha_iff (d : Body) :
  malefic_dasha d = true
  <-> d = mars \/ d = saturn \/ d = rahu \/ d = ketu.
Proof.
  unfold malefic_dasha, Py.contains. cbn [existsb]. unfold body_eqb.
  destruct d; cbn; split; intros H;
    try discriminate; try reflexivity; auto;
    repeat (destruct H as [H | H]; [discriminate H|]); discriminate H.
Qed.

Lemma malefic_firdaria_iff (f : option Body) :
  malefic_firdaria f = true
  <-> f = Some mars \/ f = Some saturn \/ f = Some south_node.
Proof.
  unfold malefic_firdaria, Py.contains.
  destruct f as [b|]; cbn [existsb].
  - unfold body_eqb. destruct b; cbn; split; intros H;
      try discriminate; try reflexivity; auto;
      repeat (destruct H as [H | H]; [discriminate H|]); discriminate H.
  - split; [discriminate|].
    intros [H | [H | H]]; discriminate H.
Qed.

(** [abs((eclipse['date'] - current).days) < 30]: the whole days between
    the two instants, rounded down, number fewer than 30 either way; the
    hit lies from 29 days before the date to just short of 30 days after
    it. *)
Lemma eclipse_near_iff (current : Z) (e : EclipseHit) :
  eclipse_near current e = true
  <-> (inject_Z current - 29 <= eclipse_date e)%Q
      /\ (eclipse_date e < inject_Z current + 30)%Q.
Proof.
  unfold eclipse_near. rewrite Z.ltb_lt.
  set (x := (eclipse_date e - inject_Z current)%Q).
  pose proof (Qfloor_le x) as Hlo. pose proof (Qlt_floor x) as Hhi.
  rewrite inject_Z_plus in Hhi. change (inject_Z 1) with 1%Q in Hhi.
  split.
  - intros H.
    assert (H1 : -29 <= Qfloor x <= 29) by lia.
    destruct H1 as [H1 H2]. rewrite Zle_Qle in H1, H2.
    change (inject_Z (-29)) with (-29)%Q in H1.
    change (inject_Z 29) with 29%Q in H2.
    unfold x in *. split; lra.
  - intros [H1 H2].
    assert (Ha : (inject_Z (Qfloor x) < inject_Z 30)%Q)
      by (change (inject_Z 30) with 30%Q; unfold x in *; lra).
    assert (Hb : (inject_Z (-29) <= x)%Q)
      by (change (inject_Z (-29)) with (-29)%Q; unfold x in *; lra).
    apply Qfloor_resp_le in Hb. rewrite Qfloor_Z in Hb.
    rewrite <- Zlt_Qlt in Ha. lia.
Qed.

(** Every entry of [calculate_eclipse_sensitivity] pairs a check date on
    which the Sun is within 18 degrees of the node with a natal point
    within 5 degrees of the Sun of that date. *)
Lemma eclipse_hits_sound clock eph ctx (es : list EclipseHit) :
  calculate_eclipse_sensitivity clock eph ctx = Ok es ->
  exists s m,
    longitude_of sun (natal_planets ctx) = Ok s
    /\ longitude_of moon (natal_planets ctx) = Ok m
    /\ forall e, In e es ->
         (exists days, In days eclipse_offsets
                       /\ eclipse_date e = (now clock + inject_Z days)%Q)
         /\ eclipse_degree e = sun_longitude eph (Qfloor (eclipse_date e))
         /\ (Qabs (eclipse_degree e
                   - node_longitude eph (Qfloor (eclipse_date e))) < 18)%Q
         /\ In (natal_point e, natal_degree e)
              [(point_sun, s); (point_moon, m);
               (point_asc, asc ctx); (point_mc, mc ctx)]
         /\ (Qabs (eclipse_degree e - natal_degree e) < 5)%Q.
Proof.
  unfold calculate_eclipse_sensitivity.
  destruct (longitude_of sun (natal_planets ctx)) as [s| |];
    cbn [Py.bind]; try discriminate.
  destruct (longitude_of moon (natal_planets ctx)) as [m| |];
    cbn [Py.bind]; try discriminate.
  destruct (longitude_of north_node (natal_planets ctx)) as [n| |];
    cbn [Py.bind]; try discriminate.
  intros H.
  apply (f_equal (fun r : result (list EclipseHit) =>
                    match r with Ok x => x | _ => [] end)) in H.
  cbv beta iota in H. subst es. exists s, m.
  split; [reflexivity|]. split; [reflexivity|].
  intros e He. apply in_flat_map in He. destruct He as (days & Hd & He).
  cbv zeta in He.
  destruct (Py.ltb (Qabs (_ - _)) 18) eqn:Ezone; [|destruct He].
  apply ltb_lt in Ezone.
  apply in_flat_map in He. destruct He as (cp & Hcp & He).
  cbv zeta in He.
  destruct (Py.ltb (Qabs (_ - snd cp)) 5) eqn:Eorb; [|destruct He].
  apply ltb_lt in Eorb. destruct He as [<- | []].
  cbn [eclipse_date eclipse_degree natal_point natal_degree].
  split; [exists days; split; [exact Hd | reflexivity]|].
  split; [reflexivity|]. split; [exact Ezone|].
  split; [rewrite <- surjective_pairing; exact Hcp | exact Eorb].
Qed.

(** C8, as stated, fails: for the chart born at a new moon one eclipse,
    on the day of the clock, lies within 5 degrees of both the natal Sun
    and the natal Moon, and ten days later it adds 20 to the score, not
    10. *)
Lemma C8_eclipse_points_are_per_hit :
  ~ (forall clock eph ctx date_range_start date_range_end r fac,
        composite_timing_analysis clock eph ctx
          date_range_start date_range_end = Ok r ->
        In fac (full_analysis r) ->
        intensity_score fac
        = spec_intensity_score (calculate_transits eph ctx (date fac))
            (dasha fac) (firdaria fac) (spec_eclipse_dates clock eph)
            (date fac)).
Proof.
  intros H.
  destruct (composite_timing_analysis (clock_at 0 1) still_ephemeris
              new_moon_chart 10 10) as [r| |] eqn:E;
    [| vm_compute in E; discriminate E | vm_compute in E; discriminate E].
  destruct (full_analysis r) as [|fac l] eqn:F.
  { vm_compute in E. injection E as <-. discriminate F. }
  assert (Hin : In fac (full_analysis r)) by (rewrite F; left; reflexivity).
  specialize (H _ _ _ _ _ r fac E Hin).
  vm_compute in E. injection E as <-.
  cbn [full_analysis] in F. injection F as <- _.
  vm_compute in H. discriminate H.
Qed.

(** C8 (amended): on every date of a composite analysis the intensity
    score is 3 times the number of hard transits (square or opposition),
    plus 5 when the ruler of the active Vimshottari mahadasha is Mars,
    Saturn, Rahu or Ketu, plus 4 when the ruler of the active Firdaria
    major period is Mars, Saturn or the south node, plus 10 for every
    entry that [calculate_eclipse_sensitivity] reports (an eclipse check
    date paired with a natal point within 5 degrees of it) whose date
    lies from 29 days before the date to less than 30 days after it; so
    two hard transits under a malefic mahadasha, with no malefic Firdaria
    ruler and no such entry, score 2 x 3 + 5 = 11. *)
Theorem C8_intensity_score clock eph ctx (date_range_start date_range_end : Z)
    (r : CompositeResult) (fac : Factors) :
  composite_timing_analysis clock eph ctx date_range_start date_range_end
  = Ok r ->
  In fac (full_analysis r) ->
  exists v m f es,
    calculate_vimshottari_dasha clock ctx (Some (date fac)) = Ok v
    /\ current_mahadasha v = Some m
    /\ calculate_firdaria clock ctx (Some (date fac)) = Ok f
    /\ calculate_eclipse_sensitivity clock eph ctx = Ok es
    /\ intensity_score fac
       = 3 * Z.of_nat (length (filter is_hard
                                 (calculate_transits eph ctx (date fac))))
         + (if malefic_dasha (mahadasha m) then 5 else 0)
         + (if malefic_firdaria (option_map major_period f) then 4 else 0)
         + 10 * Z.of_nat (length (filter (eclipse_near (date fac)) es))
    /\ (forall t, is_hard t = true
                  <-> aspect t = square \/ aspect t = opposition)
    /\ (malefic_dasha (mahadasha m) = true
        <-> mahadasha m = mars \/ mahadasha m = saturn
            \/ mahadasha m = rahu \/ mahadasha m = ketu)
    /\ (malefic_firdaria (option_map major_period f) = true
        <-> exists p, f = Some p
                      /\ (major_period p = mars \/ major_period p = saturn
                          \/ major_period p = south_node))
    /\ (forall e, In e es ->
          (eclipse_near (date fac) e = true
           <-> (inject_Z (date fac) - 29 <= eclipse_date e)%Q
               /\ (eclipse_date e < inject_Z (date fac) + 30)%Q)
          /\ (exists days, In days eclipse_offsets
                           /\ eclipse_date e = (now clock + inject_Z days)%Q)
          /\ (Qabs (eclipse_degree e - natal_degree e) < 5)%Q)
    /\ (length (filter is_hard (calculate_transits eph ctx (date fac)))
        = 2%nat ->
        malefic_dasha (mahadasha m) = true ->
        malefic_firdaria (option_map major_period f) = false ->
        filter (eclipse_near (date fac)) es = [] ->
        intensity_score fac = 11).
Proof.
  intros Hr Hin.
  destruct (composite_result_shape_early _ _ _ _ _ _ Hr) as (fs & El & Hfull).
  rewrite Hfull in Hin. apply (proj1 (sort_by_score_In _ _)) in Hin.
  destruct (composite_loop_In _ _ _ _ _ _ El Hin) as (c & _ & Hf).
  destruct (composite_factors_score _ _ _ _ _ Hf) as (Hd & es & He & Hs).
  destruct (composite_factors_rulers _ _ _ _ _ Hf)
    as (v & m & f & Hv & Hm & Hdm & Hfi & Hff).
  destruct (eclipse_hits_sound _ _ _ _ He) as (s0 & m0 & _ & _ & Hhits).
  rewrite Hd. exists v, m, f, es.
  assert (Hscore : intensity_score fac
                   = 3 * Z.of_nat (length (filter is_hard
                                     (calculate_transits eph ctx c)))
                     + (if malefic_dasha (mahadasha m) then 5 else 0)
                     + (if malefic_firdaria (option_map major_period f)
                        then 4 else 0)
                     + 10 * Z.of_nat (length (filter (eclipse_near c) es))).
  { rewrite Hs, Hdm, Hff. apply composite_score_closed. }
  split; [exact Hv|]. split; [exact Hm|]. split; [exact Hfi|].
  split; [exact He|]. split; [exact Hscore|].
  split; [exact is_hard_iff|]. split; [apply malefic_dasha_iff|].
  split.
  { rewrite malefic_firdaria_iff. destruct f as [p|]; cbn [option_map].
    - split.
      + intros H. exists p. split; [reflexivity|].
        destruct H as [H | [H | H]]; injection H as H; auto.
      + intros (p' & Hp & H). injection Hp as <-.
        destruct H as [H | [H | H]]; rewrite H; auto.
    - split.
      + intros [H | [H | H]]; discriminate H.
      + intros (p' & Hp & _). discriminate Hp. }
  split.
  { intros e Hein. destruct (Hhits e Hein) as (Hdays & _ & _ & _ & Horb).
    split; [apply eclipse_near_iff|]. split; [exact Hdays | exact Horb]. }
  intros Hh Hmd Hmf Hne.
  rewrite Hscore, Hh, Hmd, Hmf, Hne. reflexivity.
Qed.

Lemma C8_intensity_score_witness :
  exists r fac v m f es,
    composite_timing_analysis (clock_at 0 1) still_ephemeris chart 10 11
    = Ok r
    /\ In fac (full_analysis r)
    /\ calculate_vimshottari_dasha (clock_at 0 1) chart (Some (date fac))
       = Ok v
    /\ current_mahadasha v = Some m
    /\ calculate_firdaria (clock_at 0 1) chart (Some (date fac)) = Ok f
    /\ calculate_eclipse_sensitivity (clock_at 0 1) still_ephemeris chart
       = Ok es
    /\ intensity_score fac
       = 3 * Z.of_nat (length (filter is_hard
               (calculate_transits still_ephemeris chart (date fac))))
         + (if malefic_dasha (mahadasha m) then 5 else 0)
         + (if malefic_firdaria (option_map major_period f) then 4 else 0)
         + 10 * Z.of_nat (length (filter (eclipse_near (date fac)) es)).
Proof.
  destruct (composite_timing_analysis (clock_at 0 1) still_ephemeris
              chart 10 11) as [r| |] eqn:E;
    [| vm_compute in E; discriminate E | vm_compute in E; discriminate E].
  destruct (full_analysis r) as [|fac l] eqn:F.
  { vm_compute in E. injection E as <-. discriminate F. }
  assert (Hin : In fac (full_analysis r)) by (rewrite F; left; reflexivity).
  destruct (C8_intensity_score _ _ _ _ _ r fac E Hin)
    as (v & m & f & es & Hv & Hm & Hf & He & Hs & _).
  exists r, fac, v, m, f, es. auto 10.
Defined.

(** ** Firdaria sub-periods (C1) *)

Lemma subperiod_order_length (major_planet : Body) :
  length (subperiod_order major_planet) = 7%nat.
Proof. destruct major_planet; reflexivity. Qed.

(** The quotient [years_in / (total_years / 7)]. *)
Lemma subperiod_quotient (total : Z) (y : Q) :
  0 < total ->
  (y / (inject_Z total / 7) == y * 7 / inject_Z total)%Q.
Proof.
  intros Ht.
  assert (Hne : ~ (inject_Z total == 0)%Q).
  { intros H. unfold Qeq in H. simpl in H. lia. }
  field. exact Hne.
Qed.

Lemma inject_Z_pos (z : Z) : 0 < z -> (0 < inject_Z z)%Q.
Proof. intros H. unfold Qlt. simpl. lia. Qed.

Lemma subperiod_index_range (total : Z) (y : Q) :
  0 < total -> (0 <= y)%Q -> (y < inject_Z total)%Q ->
  0 <= Qfloor (y * 7 / inject_Z total) <= 6.
Proof.
  intros Ht H0 H1. pose proof (inject_Z_pos _ Ht) as Hp.
  assert (Hq0 : (0 <= y * 7 / inject_Z total)%Q).
  { apply Qle_shift_div_l; [exact Hp | lra]. }
  assert (Hq7 : (y * 7 / inject_Z total < 7)%Q).
  { apply Qlt_shift_div_r; [exact Hp | lra]. }
  split.
  - change 0 with (Qfloor 0). apply Qfloor_resp_le. exact Hq0.
  - pose proof (Qfloor_le (y * 7 / inject_Z total)) as Hf.
    assert (Hlt : (inject_Z (Qfloor (y * 7 / inject_Z total)) < inject_Z 7)%Q)
      by (eapply Qle_lt_trans; [exact Hf | exact Hq7]).
    rewrite <- Zlt_Qlt in Hlt. lia.
Qed.

Lemma subperiod_index (total : Z) (y : Q) :
  0 < total -> (0 <= y)%Q ->
  Py.int (y / (inject_Z total / 7)) = Qfloor (y * 7 / inject_Z total).
Proof.
  intros Ht H0. pose proof (inject_Z_pos _ Ht) as Hp.
  rewrite int_nonneg_floor.
  - apply Qfloor_comp. apply subperiod_quotient. exact Ht.
  - rewrite subperiod_quotient by exact Ht.
    apply Qle_shift_div_l; [exact Hp | lra].
Qed.

Lemma firdaria_subperiod_inside (major_planet : Body) (total : Z) (y : Q) :
  0 < total -> (0 <= y)%Q -> (y < inject_Z total)%Q ->
  _calculate_firdaria_subperiod major_planet total y
  = Ok (Some {| sub_ruler :=
                  nth (Z.to_nat (Qfloor (y * 7 / inject_Z total)))
                    (subperiod_order major_planet) sun;
                sub_years := (inject_Z total / 7)%Q;
                position := Qfloor (y * 7 / inject_Z total) + 1 |}).
Proof.
  intros Ht H0 H1. unfold _calculate_firdaria_subperiod.
  rewrite (subperiod_index _ _ Ht H0).
  pose proof (subperiod_index_range _ _ Ht H0 H1) as Hr.
  rewrite subperiod_order_length.
  destruct (Z.ltb_spec (Qfloor (y * 7 / inject_Z total)) (Z.of_nat 7));
    [|change (Z.of_nat 7) with 7 in *; lia].
  rewrite (getitem_in_range _ _ sun)
    by (rewrite subperiod_order_length; change (Z.of_nat 7) with 7; lia).
  reflexivity.
Qed.

Lemma firdaria_subperiod_past_end (major_planet : Body) (total : Z) (y : Q) :
  0 < total -> (inject_Z total <= y)%Q ->
  _calculate_firdaria_subperiod major_planet total y = Ok None.
Proof.
  intros Ht H1. pose proof (inject_Z_pos _ Ht) as Hp.
  unfold _calculate_firdaria_subperiod.
  rewrite subperiod_index by (exact Ht || lra).
  rewrite subperiod_order_length.
  assert (H7 : 7 <= Qfloor (y * 7 / inject_Z total)).
  { change 7 with (Qfloor (inject_Z 7)) at 1. apply Qfloor_resp_le.
    apply Qle_shift_div_l; [exact Hp|].
    change (inject_Z 7) with 7%Q. lra. }
  destruct (Z.ltb_spec (Qfloor (y * 7 / inject_Z total)) (Z.of_nat 7));
    [change (Z.of_nat 7) with 7 in *; lia | reflexivity].
Qed.

(** C1, as stated, fails: at age 12.5 of a day birth the active sub-ruler
    is not the third ruler of the Venus-first rotation. *)
Lemma C1_subruler_is_not_third_of_rotation :
  ~ (exists r sp,
        firdaria_at true 12.5 = Ok (Some r)
        /\ major_period r = venus
        /\ (years_in r == 2.5)%Q
        /\ sub_period r = Some sp
        /\ position sp = 2 + 1
        /\ nth_error (spec_rotation venus) 2 = Some (sub_ruler sp)).
Proof.
  intros (r & sp & Hr & _ & _ & Hsp & _ & Hn).
  vm_compute in Hr. injection Hr as <-. simpl in Hsp.
  injection Hsp as <-. vm_compute in Hn. discriminate Hn.
Qed.

(** C1 (amended): inside a major period of [total_years] years every
    ruler has 7 equal sub-periods of [total_years / 7] years; their order is
    the list Sun, Venus, Mercury, Moon, Saturn, Jupiter, Mars with the major
    ruler moved to the front (the other six keep their order), and the list
    unchanged for a node; the active sub-period has index
    floor(years_in x 7 / total_years), which lies in 0..6, and there is no
    clamp: from [total_years] on the result is [None].  For a day birth at
    age 12.5 the major ruler is Venus with 2.5 years elapsed, the index is 2
    and the sub-ruler is Mercury, third in Venus, Sun, Mercury, Moon,
    Saturn, Jupiter, Mars. *)
Theorem C1_firdaria_subperiods :
  (forall major_planet total y,
      0 < total -> (0 <= y)%Q -> (y < inject_Z total)%Q ->
      0 <= Qfloor (y * 7 / inject_Z total) <= 6
      /\ _calculate_firdaria_subperiod major_planet total y
         = Ok (Some {| sub_ruler :=
                         nth (Z.to_nat (Qfloor (y * 7 / inject_Z total)))
                           (subperiod_order major_planet) sun;
                       sub_years := (inject_Z total / 7)%Q;
                       position := Qfloor (y * 7 / inject_Z total) + 1 |}))
  /\ (forall major_planet total y,
        0 < total -> (inject_Z total <= y)%Q ->
        _calculate_firdaria_subperiod major_planet total y = Ok None)
  /\ (forall major_planet,
        length (subperiod_order major_planet) = 7%nat
        /\ (In major_planet firdaria_planets ->
            subperiod_order major_planet
            = major_planet :: Py.remove body_eqb major_planet firdaria_planets)
        /\ (~ In major_planet firdaria_planets ->
            subperiod_order major_planet = firdaria_planets))
  /\ subperiod_order north_node = firdaria_planets
  /\ subperiod_order south_node = firdaria_planets
  /\ subperiod_order venus
     = [venus; sun; mercury; moon; saturn; jupiter; mars]
  /\ (exists r sp,
        firdaria_at true 12.5 = Ok (Some r)
        /\ major_period r = venus
        /\ (years_in r == 2.5)%Q
        /\ sub_period r = Some sp
        /\ position sp = 2 + 1
        /\ (sub_years sp == 8 / 7)%Q
        /\ sub_ruler sp = mercury).
Proof.
  split; [|split; [|split; [|split; [|split; [|split]]]]];
    try reflexivity.
  - intros major_planet total y Ht H0 H1. split.
    + apply subperiod_index_range; assumption.
    + apply firdaria_subperiod_inside; assumption.
  - intros. apply firdaria_subperiod_past_end; assumption.
  - intros major_planet. split; [apply subperiod_order_length|].
    split; intros H.
    + destruct major_planet; try reflexivity;
        simpl in H; repeat (destruct H as [H | H]; try discriminate H);
        contradiction.
    + destruct major_planet; try reflexivity;
        exfalso; apply H; simpl; tauto.
  - eexists. eexists.
    split; [vm_compute; reflexivity|].
    repeat split; reflexivity.
Qed.

Lemma C1_firdaria_subperiods_witness :
  0 <= Qfloor (2.5 * 7 / inject_Z 8) <= 6
  /\ _calculate_firdaria_subperiod venus 8 2.5
     = Ok (Some {| sub_ruler :=
                     nth (Z.to_nat (Qfloor (2.5 * 7 / inject_Z 8)))
                       (subperiod_order venus) sun;
                   sub_years := (inject_Z 8 / 7)%Q;
                   position := Qfloor (2.5 * 7 / inject_Z 8) + 1 |})
  /\ _calculate_firdaria_subperiod venus 8 8 = Ok None
  /\ subperiod_order venus
     = venus :: Py.remove body_eqb venus firdaria_planets
  /\ subperiod_order north_node = firdaria_planets.
Proof.
  destruct C1_firdaria_subperiods as (Hin & Hout & Hord & _).
  destruct (Hin venus 8 2.5%Q) as [H1 H2];
    [reflexivity | vm_compute; congruence | reflexivity |].
  destruct (Hord venus) as (_ & Hv & _).
  destruct (Hord north_node) as (_ & _ & Hn).
  split; [exact H1|]. split; [exact H2|].
  split; [apply Hout; [reflexivity | vm_compute; congruence]|].
  split; [apply Hv; simpl; tauto|].
  apply Hn. simpl. intuition discriminate.
Defined.

(** ** The first Mahadasha (C7) *)

Lemma fmod_range (x w : Q) :
  (0 < w)%Q -> (0 <= Py.fmod x w)%Q /\ (Py.fmod x w < w)%Q.
Proof.
  intros Hw. unfold Py.fmod.
  assert (Hne : ~ (w == 0)%Q) by (intros H; rewrite H in Hw; lra).
  pose proof (Qfloor_le (x / w)) as Hlo.
  pose proof (Qlt_floor (x / w)) as Hhi.
  assert (Hx : (x / w * w == x)%Q) by (field; exact Hne).
  set (f := Qfloor (x / w)) in *.
  assert (H1 : (inject_Z f * w <= x / w * w)%Q)
    by (apply Qmult_le_compat_r; lra).
  assert (H2 : (x / w * w < inject_Z (f + 1) * w)%Q)
    by (apply Qmult_lt_compat_r; lra).
  rewrite inject_Z_plus in H2. change (inject_Z 1) with 1%Q in H2.
  split; lra.
Qed.

Lemma nakshatra_range (m : Q) :
  (0 <= moon_sidereal m)%Q ->
  (moon_sidereal m < 27 * nakshatra_width)%Q ->
  nakshatra m = Qfloor (moon_sidereal m / nakshatra_width)
  /\ 0 <= nakshatra m <= 26.
Proof.
  intros H0 H1. unfold nakshatra.
  assert (Hw : (0 < nakshatra_width)%Q) by reflexivity.
  assert (Hq0 : (0 <= moon_sidereal m / nakshatra_width)%Q)
    by (apply Qle_shift_div_l; [exact Hw | lra]).
  assert (Hq1 : (moon_sidereal m / nakshatra_width < 27)%Q)
    by (apply Qlt_shift_div_r; [exact Hw | exact H1]).
  rewrite int_nonneg_floor by exact Hq0.
  split; [reflexivity|]. split.
  - change 0 with (Qfloor 0). apply Qfloor_resp_le. exact Hq0.
  - pose proof (Qfloor_le (moon_sidereal m / nakshatra_width)) as Hf.
    assert (Hlt : (inject_Z (Qfloor (moon_sidereal m / nakshatra_width))
                   < inject_Z 27)%Q)
      by (eapply Qle_lt_trans; [exact Hf | exact Hq1]).
    rewrite <- Zlt_Qlt in Hlt. lia.
Qed.

(** What the tables give for a nakshatra index in range. *)
Lemma ruler_lookup (n : Z) :
  0 <= n <= 26 ->
  exists r y,
    Py.getitem nakshatra_rulers n = Ok r
    /\ first_index_of r dasha_sequence = Ok (n mod 9)
    /\ Py.getitem dasha_sequence (n mod 9) = Ok (r, y)
    /\ In r vimshottari_rulers
    /\ 6 <= y.
Proof.
  intros Hn.
  assert (Hk : exists k : nat, (k < 27)%nat /\ n = Z.of_nat k)
    by (exists (Z.to_nat n); lia).
  destruct Hk as (k & Hk & ->).
  do 27 (destruct k as [|k];
         [eexists; eexists;
          split; [reflexivity|]; split; [reflexivity|];
          split; [reflexivity|];
          split; [simpl; tauto | vm_compute; congruence] |]).
  lia.
Qed.

Lemma remaining_years_positive (m : Q) (y : Z) :
  0 < y ->
  (0 < inject_Z y * (1 - nakshatra_degree m / nakshatra_width))%Q
  /\ (inject_Z y * (1 - nakshatra_degree m / nakshatra_width)
      <= inject_Z y)%Q.
Proof.
  intros Hy. pose proof (inject_Z_pos _ Hy) as Hp.
  assert (Hw : (0 < nakshatra_width)%Q) by reflexivity.
  destruct (fmod_range (moon_sidereal m) nakshatra_width Hw) as [Hlo Hhi].
  fold (nakshatra_degree m) in Hlo, Hhi.
  assert (He0 : (0 <= nakshatra_degree m / nakshatra_width)%Q)
    by (apply Qle_shift_div_l; [exact Hw | lra]).
  assert (He1 : (nakshatra_degree m / nakshatra_width < 1)%Q)
    by (apply Qlt_shift_div_r; [exact Hw | lra]).
  split; nra.
Qed.

(** C7 at its failing input: with the Moon at 24.119995 degrees the
    sidereal longitude is 359.999995, the code's band width 13.333333 gives
    nakshatra index 27 where bands of 360/27 degrees give 26, and the
    lookup in the 27 rulers raises [IndexError]; with the Moon at
    37.4533331 degrees the code reads band 1 (Venus, 20 years) where
    360/27-degree bands give band 0 (Ketu, 7 years).  Away from the band
    edges the code does what the claim says: 40 per cent through band 3 the
    first Mahadasha is the Moon's, with 6 of its 10 years left. *)
Theorem C7_nakshatra_width_is_truncated :
  (moon_sidereal 24.119995 == 359.999995)%Q
  /\ nakshatra 24.119995 = 27
  /\ spec_nakshatra 24.119995 = 26
  /\ first_dasha sliver_chart = Raise IndexError
  /\ (forall clock d,
        calculate_vimshottari_dasha clock sliver_chart d = Raise IndexError)
  /\ nakshatra 37.4533331 = 1
  /\ spec_nakshatra 37.4533331 = 0
  /\ Py.getitem nakshatra_rulers 1 = Ok venus
  /\ Py.getitem nakshatra_rulers 0 = Ok ketu
  /\ (exists i d0,
        first_dasha chart = Ok (i, d0)
        /\ nakshatra 69.4533322 = 3
        /\ (nakshatra_degree 69.4533322 / nakshatra_width == 0.4)%Q
        /\ mahadasha d0 = moon
        /\ Py.getitem dasha_sequence i = Ok (moon, 10)
        /\ (dasha_years d0 == 6)%Q).
Proof.
  split; [reflexivity|]. split; [reflexivity|]. split; [reflexivity|].
  split; [reflexivity|]. split; [intros clock d; reflexivity|].
  split; [reflexivity|]. split; [reflexivity|].
  split; [reflexivity|]. split; [reflexivity|].
  eexists. eexists. split; [vm_compute; reflexivity|].
  repeat split; reflexivity.
Qed.

(** ** Tilings *)

Section Chain.

Context {A : Type} (st en : A -> Q).

Lemma chain_le (l : list A) :
  forall s e, chain st en s l e -> (s <= e)%Q.
Proof.
  induction l as [|a l IH]; intros s e; simpl.
  - intros ->. lra.
  - intros (Hs & Hlt & Hc). specialize (IH _ _ Hc). rewrite <- Hs. lra.
Qed.

Lemma chain_app (l1 : list A) :
  forall l2 s m e,
    chain st en s l1 m -> chain st en m l2 e -> chain st en s (l1 ++ l2) e.
Proof.
  induction l1 as [|a l1 IH]; intros l2 s m e; simpl.
  - intros ->. auto.
  - intros (Hs & Hlt & Hc) H2. repeat split; auto. eapply IH; eauto.
Qed.

(** Telescoping: the lengths of the tiles add up to the span. *)
Lemma chain_total (l : list A) :
  forall s e, chain st en s l e ->
              (total (fun a => en a - st a) l == e - s)%Q.
Proof.
  induction l as [|a l IH]; intros s e; simpl.
  - intros ->. lra.
  - intros (Hs & Hlt & Hc). rewrite (IH _ _ Hc), Hs. lra.
Qed.

(** Tiles do not overlap: a later tile starts no earlier than an earlier
    one ends. *)
Lemma chain_ordered (l : list A) :
  forall s e i j a b,
    chain st en s l e -> (i < j)%nat ->
    nth_error l i = Some a -> nth_error l j = Some b ->
    (en a <= st b)%Q.
Proof.
  induction l as [|x l IH]; intros s e i j a b Hc Hij Ha Hb.
  - destruct i; discriminate Ha.
  - destruct Hc as (Hs & Hlt & Hc).
    destruct j as [|j]; [lia|]. simpl in Hb.
    destruct i as [|i]; simpl in Ha.
    + injection Ha as <-.
      clear IH Hij. revert Hc Hb. generalize (en x) as s'.
      revert j. induction l as [|y l IHl]; intros j s' Hc Hb.
      * destruct j; discriminate Hb.
      * destruct Hc as (Hs' & Hlt' & Hc').
        destruct j as [|j]; simpl in Hb.
        -- injection Hb as <-. rewrite Hs'. lra.
        -- specialize (IHl _ _ Hc' Hb). rewrite <- Hs'. lra.
    + apply (IH _ _ i j a b Hc); [lia | exact Ha | exact Hb].
Qed.

(** Consecutive tiles meet: each ends where the next starts. *)
Lemma chain_adjacent (l : list A) :
  forall s e, chain st en s l e -> adjacent (fun a b => en a = st b) l.
Proof.
  induction l as [|a l IH]; intros s e Hc; [constructor|].
  destruct Hc as (Hs & Hlt & Hc).
  destruct l as [|b l]; constructor.
  - destruct Hc as (Hb & _). auto.
  - eapply IH; eauto.
Qed.

End Chain.

Lemma chain_In_bounds {A : Type} (st en : A -> Q) (l : list A) :
  forall s e a, chain st en s l e -> In a l ->
                (s <= st a)%Q /\ (en a <= e)%Q.
Proof.
  induction l as [|x l IH]; intros s e a Hc Hin; [destruct Hin|].
  destruct Hc as (Hs & Hlt & Hc). destruct Hin as [<- | Hin].
  - pose proof (chain_le st en l _ _ Hc). rewrite Hs. split; lra.
  - destruct (IH _ _ _ Hc Hin) as [H1 H2]. rewrite <- Hs. split; lra.
Qed.

Section Contiguous.

Context {A : Type} (st en : A -> Q).

Lemma chain_contiguous (l : list A) :
  forall s e, chain st en s l e -> contiguous st en s l e.
Proof.
  induction l as [|a l IH]; intros s e; simpl; [auto|].
  intros (Hs & Hlt & Hc). repeat split; [exact Hs | lra | exact (IH _ _ Hc)].
Qed.

Lemma contiguous_le (l : list A) :
  forall s e, contiguous st en s l e -> (s <= e)%Q.
Proof.
  induction l as [|a l IH]; intros s e; simpl.
  - intros ->. lra.
  - intros (Hs & Hle & Hc). specialize (IH _ _ Hc). rewrite <- Hs. lra.
Qed.

Lemma contiguous_app (l1 : list A) :
  forall l2 s m e,
    contiguous st en s l1 m -> contiguous st en m l2 e ->
    contiguous st en s (l1 ++ l2) e.
Proof.
  induction l1 as [|a l1 IH]; intros l2 s m e; simpl.
  - intros ->. auto.
  - intros (Hs & Hle & Hc) H2. repeat split; auto. eapply IH; eauto.
Qed.

Lemma contiguous_In_bounds (l : list A) :
  forall s e a, contiguous st en s l e -> In a l ->
                (s <= st a)%Q /\ (en a <= e)%Q.
Proof.
  induction l as [|x l IH]; intros s e a Hc Hin; [destruct Hin|].
  destruct Hc as (Hs & Hle & Hc). destruct Hin as [<- | Hin].
  - pose proof (contiguous_le l _ _ Hc). rewrite Hs. split; lra.
  - destruct (IH _ _ _ Hc Hin) as [H1 H2]. rewrite <- Hs. split; lra.
Qed.

(** The periods determine where the span ends. *)
Lemma contiguous_end (l : list A) :
  forall s e e', contiguous st en s l e -> contiguous st en s l e' -> e = e'.
Proof.
  induction l as [|a l IH]; intros s e e'; simpl.
  - intros <- <-. reflexivity.
  - intros (_ & _ & Hc) (_ & _ & Hc'). exact (IH _ _ _ Hc Hc').
Qed.

(** Periods laid end to end do not overlap. *)
Lemma contiguous_ordered (l : list A) :
  forall s e i j a b,
    contiguous st en s l e -> (i < j)%nat ->
    nth_error l i = Some a -> nth_error l j = Some b ->
    (en a <= st b)%Q.
Proof.
  induction l as [|x l IH]; intros s e i j a b Hc Hij Ha Hb.
  - destruct i; discriminate Ha.
  - destruct Hc as (Hs & Hle & Hc).
    destruct j as [|j]; [lia|]. simpl in Hb.
    destruct i as [|i]; simpl in Ha.
    + injection Ha as <-.
      destruct (contiguous_In_bounds l _ _ b Hc (nth_error_In _ _ Hb))
        as [H _]. exact H.
    + apply (IH _ _ i j a b Hc); [lia | exact Ha | exact Hb].
Qed.

Lemma contiguous_adjacent (l : list A) :
  forall s e, contiguous st en s l e ->
              adjacent (fun a b => en a = st b) l.
Proof.
  induction l as [|a l IH]; intros s e Hc; [constructor|].
  destruct Hc as (Hs & Hle & Hc).
  destruct l as [|b l]; constructor.
  - destruct Hc as (Hb & _). auto.
  - eapply IH; eauto.
Qed.

(** Telescoping: the lengths add up to the span. *)
Lemma contiguous_total (l : list A) :
  forall s e, contiguous st en s l e ->
              (total (fun a => en a - st a) l == e - s)%Q.
Proof.
  induction l as [|a l IH]; intros s e; simpl.
  - intros ->. lra.
  - intros (Hs & Hle & Hc). rewrite (IH _ _ Hc), Hs. lra.
Qed.

(** Every instant of the span lies in one of the periods. *)
Lemma contiguous_cover (l : list A) :
  forall s e x, contiguous st en s l e -> (s <= x)%Q -> (x < e)%Q ->
                exists a, In a l /\ (st a <= x)%Q /\ (x < en a)%Q.
Proof.
  induction l as [|a l IH]; intros s e x Hc Hs He.
  - simpl in Hc. subst e. lra.
  - destruct Hc as (Has & Hle & Hc).
    destruct (Qlt_le_dec x (en a)) as [Hx | Hx].
    + exists a. split; [left; reflexivity|]. split; [rewrite Has|]; lra.
    + destruct (IH _ _ x Hc Hx He) as (b & Hb & H1 & H2).
      exists b. split; [right; exact Hb|]. auto.
Qed.

End Contiguous.

(** ** Antardashas of a mahadasha *)

Lemma ruler_years_of (p : Body) :
  In p vimshottari_rulers ->
  antardasha_years p = Ok (ruler_years p) /\ 6 <= ruler_years p.
Proof.
  intros H. simpl in H.
  repeat (destruct H as [<- | H]; [split; [reflexivity | vm_compute; congruence]|]).
  contradiction.
Qed.

Lemma sequence_years_nonneg (ps : list Body) :
  Forall (fun p => In p vimshottari_rulers) ps -> 0 <= sequence_years ps.
Proof.
  induction 1 as [|p ps Hp _ IH]; simpl; [lia|].
  destruct (ruler_years_of p Hp) as [_ H6]. lia.
Qed.

Lemma span_nonneg_le (n : Z) (Y : Q) :
  0 <= n -> (0 <= Y)%Q -> (0 <= inject_Z n * Y / 120 * days_per_year)%Q.
Proof.
  intros Hn HY.
  assert (H0 : (0 <= inject_Z n)%Q) by (rewrite Zle_Qle in Hn; exact Hn).
  assert (Hd : (0 < days_per_year)%Q) by reflexivity.
  apply Qmult_le_0_compat; [|lra].
  apply Qle_shift_div_l; [reflexivity|].
  assert (H1 : (0 <= inject_Z n * Y)%Q)
    by (apply Qmult_le_0_compat; lra).
  lra.
Qed.

Lemma span_split (a b : Z) (Y : Q) :
  (inject_Z (a + b) * Y / 120 * days_per_year
   == inject_Z a * Y / 120 * days_per_year
      + inject_Z b * Y / 120 * days_per_year)%Q.
Proof. rewrite inject_Z_plus. field. Qed.

Lemma years_split (a b : Z) (Y : Q) :
  (inject_Z (a + b) * Y / 120
   == inject_Z a * Y / 120 + inject_Z b * Y / 120)%Q.
Proof. rewrite inject_Z_plus. field. Qed.

Lemma contains_In (x : Body) (l : list Body) :
  Py.contains body_eqb x l = true -> In x l.
Proof.
  unfold Py.contains. rewrite existsb_exists.
  intros (y & Hy & E). apply body_eqb_eq in E. subst. exact Hy.
Qed.

Lemma all_rulers (ps : list Body) :
  forallb (fun p => Py.contains body_eqb p vimshottari_rulers) ps = true ->
  Forall (fun p => In p vimshottari_rulers) ps.
Proof.
  rewrite forallb_forall, Forall_forall.
  intros H p Hp. apply contains_In. apply H. exact Hp.
Qed.

(** The nine rotations of the ruler list. *)
Lemma rotation_of_rulers (r : Body) :
  In r vimshottari_rulers ->
  exists i,
    Py.index body_eqb r vimshottari_rulers = Ok i
    /\ let seq := skipn (Z.to_nat i) vimshottari_rulers
                  ++ firstn (Z.to_nat i) vimshottari_rulers in
       length seq = 9%nat
       /\ hd_error seq = Some r
       /\ sequence_years seq = 120
       /\ Forall (fun p => In p vimshottari_rulers) seq.
Proof.
  intros H. unfold vimshottari_rulers in H at 1. simpl in H.
  destruct H as [<-|[<-|[<-|[<-|[<-|[<-|[<-|[<-|[<-|[]]]]]]]]]];
    (eexists; split; [reflexivity|];
     split; [reflexivity|]; split; [reflexivity|];
     split; [reflexivity|]; apply all_rulers; reflexivity).
Qed.

Lemma firstn_member {A : Type} (n : nat) :
  forall (l : list A) a, In a (firstn n l) -> In a l.
Proof.
  induction n as [|n IH]; intros [|x l] a H; simpl in H; try contradiction.
  destruct H as [<- | H]; [left; reflexivity | right; exact (IH _ _ H)].
Qed.

(** What repeated assignment leaves: nothing new when no sibling passes
    the test, and a sibling that passes it when one does. *)
Lemma last_containing_none (current_date : Q) (l : list Antardasha) :
  forall cur,
    (forall a, In a l -> contains_date current_date a = false) ->
    last_containing current_date l cur = cur.
Proof.
  unfold last_containing.
  induction l as [|x l IH]; intros cur Hnone; [reflexivity|].
  cbn [fold_left]. rewrite (Hnone x (or_introl eq_refl)).
  apply IH. intros a Ha. apply Hnone. right. exact Ha.
Qed.

Lemma last_containing_some (current_date : Q) (l : list Antardasha) :
  forall cur a,
    In a l -> contains_date current_date a = true ->
    exists b, last_containing current_date l cur = Some b
              /\ In b l /\ contains_date current_date b = true.
Proof.
  unfold last_containing.
  induction l as [|x l IH]; intros cur a Hin Ha; [destruct Hin|].
  cbn [fold_left].
  destruct (existsb (contains_date current_date) l) eqn:E.
  - apply existsb_exists in E. destruct E as (b & Hb & Hcb).
    destruct (IH (if contains_date current_date x then Some x else cur)
                b Hb Hcb) as (c & Hc & Hcl & Hcc).
    exists c. split; [exact Hc|]. split; [right; exact Hcl | exact Hcc].
  - assert (Hnone : forall b, In b l -> contains_date current_date b = false).
    { intros b Hb. destruct (contains_date current_date b) eqn:Eb; [|reflexivity].
      assert (Hex : existsb (contains_date current_date) l = true)
        by (apply existsb_exists; exists b; auto).
      rewrite Hex in E. discriminate E. }
    destruct Hin as [<- | Hin].
    + rewrite Ha.
      fold (last_containing current_date l (Some x)).
      rewrite (last_containing_none _ _ _ Hnone).
      exists x. split; [reflexivity|]. split; [left; reflexivity | exact Ha].
    + rewrite (Hnone a Hin) in Ha. discriminate Ha.
Qed.

Lemma contains_date_iff (current_date : Q) (a : Antardasha) :
  contains_date current_date a = true
  <-> (antar_start a <= current_date)%Q /\ (current_date < antar_end a)%Q.
Proof.
  unfold contains_date. rewrite andb_true_iff, leb_le, ltb_lt. reflexivity.
Qed.

(** The years of the siblings add up to the share of their rulers. *)
Lemma antar_years_total (maha : Dasha) (l : list Antardasha) :
  Forall (antar_wf maha) l ->
  (total antar_years l
   == inject_Z (sequence_years (map planet l)) * dasha_years maha / 120)%Q.
Proof.
  induction 1 as [|a l [Hy _] _ IH]; cbn [total fold_right map sequence_years].
  - unfold Qdiv. change (inject_Z 0) with 0%Q. ring.
  - fold (total antar_years l). fold (sequence_years (map planet l)).
    rewrite IH, Hy.
    rewrite (years_split (ruler_years (planet a))
               (sequence_years (map planet l))).
    reflexivity.
Qed.

(** The span in days, before rounding, of the siblings still to come. *)
Lemma span_of_cons (p : Body) (rest : list Body) (Y : Q) :
  (inject_Z (sequence_years (p :: rest)) * Y / 120 * days_per_year
   == inject_Z (ruler_years p) * Y / 120 * days_per_year
      + inject_Z (sequence_years rest) * Y / 120 * days_per_year)%Q.
Proof.
  change (sequence_years (p :: rest))
    with (ruler_years p + sequence_years rest).
  apply span_split.
Qed.

(** Whatever the loop returns is laid end to end from where it started,
    follows the order of the rulers it was given, and leaves in
    [current_antardasha] the last sibling that contains the query. *)
Lemma antardasha_loop_shape (maha : Dasha) (current_date : Q) :
  (0 <= dasha_years maha)%Q ->
  forall rest cs acc cur l cur',
    Forall (fun p => In p vimshottari_rulers) rest ->
    antardasha_loop maha current_date rest cs acc cur = Ok (l, cur') ->
    exists new e k,
      l = acc ++ new
      /\ contiguous antar_start antar_end cs new e
      /\ map planet new = firstn k rest
      /\ Forall (antar_wf maha) new
      /\ Forall (fun a => (antar_end a < Py.datetime_max)%Q) new
      /\ (rest <> [] -> new <> [])
      /\ cur' = last_containing current_date new cur.
Proof.
  intros HY.
  induction rest as [|p rest IH]; intros cs acc cur l cur' Hall;
    cbn [antardasha_loop].
  - intros H; injection H as <- <-.
    exists [], cs, 0%nat. rewrite app_nil_r.
    repeat split; try constructor. congruence.
  - inversion Hall as [|p' rest' Hp Hrest]; subst.
    destruct (ruler_years_of p Hp) as [Hy H6]. rewrite Hy. cbn [Py.bind].
    set (years := (inject_Z (ruler_years p) * dasha_years maha / 120)%Q).
    assert (Hyears : (0 <= years * days_per_year)%Q).
    { unfold years. apply span_nonneg_le; [lia | exact HY]. }
    pose proof (timedelta_nonneg _ Hyears) as Htd.
    destruct (Py.datetime_add cs (Py.timedelta_days (years * days_per_year)))
      as [end_| |] eqn:Eadd; cbn [Py.bind]; try discriminate.
    destruct (datetime_add_ok _ _ _ Eadd) as (Hend & _ & Hmax).
    set (data := {| planet := p; antar_start := cs; antar_end := end_;
                    antar_years := years |}).
    assert (Hdata : antar_wf maha data) by (split; [reflexivity | exact Hend]).
    assert (Hcur : (if Py.leb cs current_date && Py.ltb current_date end_
                    then Some data else cur)
                   = last_containing current_date [data] cur) by reflexivity.
    destruct (Py.ltb (dasha_end maha) end_).
    + intros H; injection H as <- <-.
      exists [data], end_, 1%nat.
      split; [reflexivity|]. split.
      { cbn [contiguous antar_start antar_end data]. repeat split.
        rewrite Hend. lra. }
      split; [reflexivity|]. split; [constructor; [exact Hdata | constructor]|].
      split; [constructor; [exact Hmax | constructor]|].
      split; [discriminate | exact Hcur].
    + intros H. destruct (IH _ _ _ _ _ Hrest H)
        as (new & e & k & Hl & Hc & Hmap & Hwf & Hlt & _ & Hcur').
      exists (data :: new), e, (S k).
      split; [rewrite Hl, <- app_assoc; reflexivity|]. split.
      { cbn [contiguous antar_start antar_end data]. repeat split;
          [rewrite Hend; lra | exact Hc]. }
      split; [cbn [map firstn planet data]; rewrite Hmap; reflexivity|].
      split; [constructor; assumption|].
      split; [constructor; assumption|].
      split; [discriminate|].
      rewrite Hcur'. reflexivity.
Qed.

(** The loop returns whenever the siblings end inside the calendar. *)
Lemma antardasha_loop_total (maha : Dasha) (current_date : Q) :
  (0 <= dasha_years maha)%Q ->
  forall rest cs acc cur,
    Forall (fun p => In p vimshottari_rulers) rest ->
    (0 <= cs)%Q ->
    (cs + inject_Z (sequence_years rest) * dasha_years maha / 120
          * days_per_year
     + inject_Z (Z.of_nat (length rest)) * ((1 # 2) * Py.microsecond)
     < Py.datetime_max)%Q ->
    exists l cur',
      antardasha_loop maha current_date rest cs acc cur = Ok (l, cur').
Proof.
  intros HY.
  induction rest as [|p rest IH]; intros cs acc cur Hall Hcs Hfit;
    cbn [antardasha_loop]; [eauto|].
  inversion Hall as [|p' rest' Hp Hrest]; subst.
  destruct (ruler_years_of p Hp) as [Hy H6]. rewrite Hy. cbn [Py.bind].
  rewrite (span_of_cons p rest) in Hfit.
  cbn [length] in Hfit. rewrite Nat2Z.inj_succ, <- Z.add_1_r in Hfit.
  rewrite inject_Z_plus in Hfit. change (inject_Z 1) with 1%Q in Hfit.
  set (years := (inject_Z (ruler_years p) * dasha_years maha / 120)%Q) in *.
  assert (Hyears : (0 <= years * days_per_year)%Q).
  { unfold years. apply span_nonneg_le; [lia | exact HY]. }
  pose proof (timedelta_nonneg _ Hyears) as Htd.
  destruct (timedelta_error (years * days_per_year)) as [_ Hup].
  pose proof (sequence_years_nonneg rest Hrest) as Hs0.
  pose proof (span_nonneg_le _ _ Hs0 HY) as Hrest0.
  assert (Hn : (0 <= inject_Z (Z.of_nat (length rest)))%Q)
    by (change 0%Q with (inject_Z 0); rewrite <- Zle_Qle; lia).
  assert (Hu : (0 < (1 # 2) * Py.microsecond)%Q) by reflexivity.
  assert (Hnu : (0 <= inject_Z (Z.of_nat (length rest))
                      * ((1 # 2) * Py.microsecond))%Q)
    by (apply Qmult_le_0_compat; lra).
  rewrite datetime_add_in by lra. cbn [Py.bind].
  destruct (Py.ltb (dasha_end maha) _); [eauto|].
  apply IH; [exact Hrest | lra | lra].
Qed.

(** A ruler's share of a mahadasha is at least the share of the six years
    of the Sun. *)
Lemma span_at_least (n : Z) (Y : Q) :
  6 <= n -> (0 <= Y)%Q ->
  (inject_Z 6 * Y / 120 * days_per_year
   <= inject_Z n * Y / 120 * days_per_year)%Q.
Proof.
  intros Hn HY.
  pose proof (span_split 6 (n - 6) Y) as Hs.
  replace (6 + (n - 6)) with n in Hs by lia.
  assert (H0 : 0 <= n - 6) by lia.
  pose proof (span_nonneg_le (n - 6) Y H0 HY). lra.
Qed.

Lemma span_of_nil (Y : Q) :
  (inject_Z (sequence_years []) * Y / 120 * days_per_year == 0)%Q.
Proof.
  cbn [sequence_years fold_right]. change (inject_Z 0) with 0%Q.
  unfold Qdiv. ring.
Qed.

(** When every sibling outlasts the margin [M] by which the rounded ends
    may pass the end of the mahadasha, the [break] is not taken before the
    last sibling: the loop lays down one sibling for each ruler it was
    given, none of them empty, and ends within half a microsecond per
    sibling of where exact arithmetic would. *)
Lemma antardasha_loop_full (maha : Dasha) (current_date : Q) (M : Q) :
  (0 <= dasha_years maha)%Q ->
  ((1 # 2) * Py.microsecond < M)%Q ->
  (M <= inject_Z 6 * dasha_years maha / 120 * days_per_year)%Q ->
  forall rest cs acc cur l cur',
    Forall (fun p => In p vimshottari_rulers) rest ->
    (cs + inject_Z (sequence_years rest) * dasha_years maha / 120
          * days_per_year
     + inject_Z (Z.of_nat (length rest)) * ((1 # 2) * Py.microsecond)
     <= dasha_end maha + M)%Q ->
    antardasha_loop maha current_date rest cs acc cur = Ok (l, cur') ->
    exists new e,
      l = acc ++ new
      /\ map planet new = rest
      /\ chain antar_start antar_end cs new e
      /\ (cs + inject_Z (sequence_years rest) * dasha_years maha / 120
               * days_per_year
          - inject_Z (Z.of_nat (length rest)) * ((1 # 2) * Py.microsecond)
          <= e)%Q
      /\ (e <= cs + inject_Z (sequence_years rest) * dasha_years maha / 120
                    * days_per_year
               + inject_Z (Z.of_nat (length rest))
                 * ((1 # 2) * Py.microsecond))%Q.
Proof.
  intros HY HhM HM.
  induction rest as [|p rest IH]; intros cs acc cur l cur' Hall Hfit.
  - cbn [antardasha_loop]. intros H; injection H as <- <-.
    exists [], cs. rewrite app_nil_r.
    split; [reflexivity|]. split; [reflexivity|]. split; [reflexivity|].
    rewrite span_of_nil. cbn [length]. change (inject_Z (Z.of_nat 0)) with 0%Q.
    split; lra.
  - inversion Hall as [|p' rest' Hp Hrest]; subst.
    destruct (ruler_years_of p Hp) as [Hy H6].
    cbn [antardasha_loop]. rewrite Hy. cbn [Py.bind].
    pose proof (span_of_cons p rest (dasha_years maha)) as Hcons.
    assert (Hlen : (inject_Z (Z.of_nat (length (p :: rest)))
                    * ((1 # 2) * Py.microsecond)
                    == inject_Z (Z.of_nat (length rest))
                       * ((1 # 2) * Py.microsecond)
                       + (1 # 2) * Py.microsecond)%Q).
    { cbn [length]. rewrite Nat2Z.inj_succ, <- Z.add_1_r, inject_Z_plus.
      change (inject_Z 1) with 1%Q. ring. }
    pose proof (span_at_least _ _ H6 HY) as Hspan.
    pose proof (sequence_years_nonneg rest Hrest) as Hs0.
    pose proof (span_nonneg_le _ _ Hs0 HY) as Hrest0.
    assert (Hrest_long :
              rest <> [] ->
              (inject_Z 6 * dasha_years maha / 120 * days_per_year
               <= inject_Z (sequence_years rest) * dasha_years maha / 120
                  * days_per_year)%Q).
    { intros Hne. destruct rest as [|q rest2]; [congruence|].
      inversion Hrest as [|q' r' Hq Hrest2]; subst.
      destruct (ruler_years_of q Hq) as [_ Hq6].
      rewrite (span_of_cons q rest2).
      pose proof (span_at_least _ _ Hq6 HY).
      pose proof (span_nonneg_le _ _ (sequence_years_nonneg rest2 Hrest2) HY).
      lra. }
    set (years := (inject_Z (ruler_years p) * dasha_years maha / 120)%Q) in *.
    destruct (timedelta_error (years * days_per_year)) as [Hlo Hhi].
    assert (Hn : (0 <= inject_Z (Z.of_nat (length rest)))%Q)
      by (change 0%Q with (inject_Z 0); rewrite <- Zle_Qle; lia).
    assert (Hu : (0 < (1 # 2) * Py.microsecond)%Q) by reflexivity.
    assert (Hnu : (0 <= inject_Z (Z.of_nat (length rest))
                        * ((1 # 2) * Py.microsecond))%Q)
      by (apply Qmult_le_0_compat; lra).
    destruct (Py.datetime_add cs (Py.timedelta_days (years * days_per_year)))
      as [end_| |] eqn:Eadd; cbn [Py.bind]; try discriminate.
    destruct (datetime_add_ok _ _ _ Eadd) as (Hend & _ & _).
    set (data := {| planet := p; antar_start := cs; antar_end := end_;
                    antar_years := years |}).
    destruct (Py.ltb (dasha_end maha) end_) eqn:Eb.
    + apply ltb_lt in Eb. rewrite Hend in Eb.
      destruct rest as [|q rest2].
      * intros H; injection H as <- <-.
        exists [data], end_.
        split; [reflexivity|]. split; [reflexivity|].
        split; [cbn [chain antar_start antar_end data];
                repeat split; rewrite Hend; lra|].
        pose proof (span_of_nil (dasha_years maha)) as Hnil.
        assert (H0n : (inject_Z (Z.of_nat (@length Body []))
                       * ((1 # 2) * Py.microsecond) == 0)%Q) by reflexivity.
        rewrite Hend. split; lra.
      * exfalso.
        assert (Hne : q :: rest2 <> []) by discriminate.
        specialize (Hrest_long Hne). lra.
    + intros H.
      assert (Hfit' : (end_ + inject_Z (sequence_years rest)
                               * dasha_years maha / 120 * days_per_year
                       + inject_Z (Z.of_nat (length rest))
                         * ((1 # 2) * Py.microsecond)
                       <= dasha_end maha + M)%Q)
        by (rewrite Hend; lra).
      destruct (IH end_ _ _ _ _ Hrest Hfit' H)
        as (new & e & Hl & Hmap & Hc & He1 & He2).
      exists (data :: new), e.
      split; [rewrite Hl, <- app_assoc; reflexivity|].
      split; [cbn [map planet data]; rewrite Hmap; reflexivity|].
      split; [cbn [chain antar_start antar_end data];
              repeat split; [rewrite Hend; lra | exact Hc]|].
      rewrite Hend in He1, He2. split; lra.
Qed.

(** The sibling list of a mahadasha, whenever it is returned: between one
    and nine siblings laid end to end from the start of the mahadasha, the
    first ruled by the ruler of the mahadasha, with the last sibling that
    contains the query as the active one. *)
Lemma antardasha_list_shape (maha : Dasha) (current_date : Q)
    (l : list Antardasha) (cur : option Antardasha) :
  In (mahadasha maha) vimshottari_rulers ->
  (0 <= dasha_years maha)%Q ->
  antardasha_list maha current_date = Ok (l, cur) ->
  exists e,
    contiguous antar_start antar_end (dasha_start maha) l e
    /\ Forall (antar_wf maha) l
    /\ (1 <= length l <= 9)%nat
    /\ option_map planet (hd_error l) = Some (mahadasha maha)
    /\ Forall (fun a => In (planet a) vimshottari_rulers) l
    /\ cur = last_containing current_date l None.
Proof.
  intros Hin HY.
  destruct (rotation_of_rulers _ Hin) as (i & Hi & Hlen & Hhd & Hsum & Hall).
  unfold antardasha_list. rewrite Hi. cbn [Py.bind].
  set (seq := skipn (Z.to_nat i) vimshottari_rulers
              ++ firstn (Z.to_nat i) vimshottari_rulers) in *.
  intros Hloop.
  destruct (antardasha_loop_shape maha current_date HY seq _ _ _ _ _
              Hall Hloop)
    as (new & e & k & Hl & Hc & Hmap & Hwf & _ & Hne & Hcur).
  cbn [app] in Hl. subst new.
  exists e. split; [exact Hc|]. split; [exact Hwf|].
  assert (Hlen' : length l = length (firstn k seq))
    by (rewrite <- Hmap; symmetry; apply length_map).
  assert (Hseq : seq <> []) by (intros E; rewrite E in Hlen; discriminate).
  specialize (Hne Hseq).
  split; [|split; [|split; [|exact Hcur]]].
  - pose proof (length_firstn k seq) as Hk.
    assert (H9 : length seq = 9%nat) by exact Hlen.
    destruct l as [|a l]; [congruence|].
    change (length (a :: l)) with (S (length l)) in *. lia.
  - destruct l as [|a l]; [congruence|].
    destruct seq as [|r seq]; [congruence|].
    destruct k; cbn [map firstn] in Hmap; [discriminate|].
    injection Hmap as Ha _. cbn [hd_error option_map] in *.
    injection Hhd as <-. rewrite Ha. reflexivity.
  - rewrite Forall_forall in Hall |- *. intros a Ha.
    apply Hall. apply (firstn_member k). rewrite <- Hmap.
    apply in_map. exact Ha.
Qed.

(** A mahadasha of at least 110 microseconds whose recorded end is within
    a microsecond of its years: nine siblings, none empty, tiling the time
    from its start to within 4.5 microseconds of its end, their years
    adding up to the mahadasha's. *)
Lemma antardasha_list_long (maha : Dasha) (current_date : Q)
    (l : list Antardasha) (cur : option Antardasha) :
  In (mahadasha maha) vimshottari_rulers ->
  (110 * Py.microsecond <= dasha_years maha * days_per_year)%Q ->
  (dasha_start maha + dasha_years maha * days_per_year - Py.microsecond
   <= dasha_end maha)%Q ->
  antardasha_list maha current_date = Ok (l, cur) ->
  exists e,
    length l = 9%nat
    /\ chain antar_start antar_end (dasha_start maha) l e
    /\ (dasha_start maha + dasha_years maha * days_per_year
        - (9 # 2) * Py.microsecond <= e)%Q
    /\ (e <= dasha_start maha + dasha_years maha * days_per_year
             + (9 # 2) * Py.microsecond)%Q
    /\ (total antar_years l == dasha_years maha)%Q.
Proof.
  intros Hin Hlong Hend Hal.
  assert (Hd : (0 < days_per_year)%Q) by reflexivity.
  assert (Hu : (0 < Py.microsecond)%Q) by reflexivity.
  assert (HY : (0 <= dasha_years maha)%Q).
  { destruct (Qlt_le_dec (dasha_years maha) 0) as [Hneg|]; [|assumption].
    assert (H : (0 < (0 - dasha_years maha) * days_per_year)%Q)
      by (apply Qmult_lt_0_compat; lra).
    lra. }
  destruct (antardasha_list_shape _ _ _ _ Hin HY Hal)
    as (_ & _ & Hwf & _ & _ & _ & _).
  destruct (rotation_of_rulers _ Hin) as (i & Hi & Hlen & Hhd & Hsum & Hall).
  unfold antardasha_list in Hal. rewrite Hi in Hal. cbn [Py.bind] in Hal.
  set (seq := skipn (Z.to_nat i) vimshottari_rulers
              ++ firstn (Z.to_nat i) vimshottari_rulers) in *.
  assert (Hsix : (inject_Z 6 * dasha_years maha / 120 * days_per_year
                  == (1 # 20) * (dasha_years maha * days_per_year))%Q)
    by (change (inject_Z 6) with 6%Q; field).
  assert (Hfull : (inject_Z 120 * dasha_years maha / 120 * days_per_year
                   == dasha_years maha * days_per_year)%Q)
    by (change (inject_Z 120) with 120%Q; field).
  assert (Hnine : (inject_Z (Z.of_nat 9) * ((1 # 2) * Py.microsecond)
                   == (9 # 2) * Py.microsecond)%Q)
    by (change (inject_Z (Z.of_nat 9)) with 9%Q; ring).
  assert (HhM : ((1 # 2) * Py.microsecond < (11 # 2) * Py.microsecond)%Q)
    by lra.
  assert (HM : ((11 # 2) * Py.microsecond
                <= inject_Z 6 * dasha_years maha / 120 * days_per_year)%Q)
    by (rewrite Hsix; lra).
  assert (Hfit : (dasha_start maha
                  + inject_Z (sequence_years seq) * dasha_years maha / 120
                    * days_per_year
                  + inject_Z (Z.of_nat (length seq))
                    * ((1 # 2) * Py.microsecond)
                  <= dasha_end maha + (11 # 2) * Py.microsecond)%Q).
  { replace (length seq) with 9%nat by (symmetry; exact Hlen).
    rewrite Hsum, Hfull, Hnine. lra. }
  destruct (antardasha_loop_full maha current_date _ HY HhM HM
              seq _ _ _ _ _ Hall Hfit Hal)
    as (new & e & Hl & Hmap & Hc & He1 & He2).
  cbn [app] in Hl. subst new.
  replace (length seq) with 9%nat in He1, He2 by (symmetry; exact Hlen).
  rewrite Hsum, Hfull, Hnine in He1, He2.
  exists e.
  split; [rewrite <- (length_map planet), Hmap; exact Hlen|].
  split; [exact Hc|]. split; [exact He1|]. split; [exact He2|].
  rewrite (antar_years_total maha l Hwf), Hmap, Hsum.
  change (inject_Z 120) with 120%Q. field.
Qed.

(** The sibling list is returned whenever the mahadasha, with the 4.5
    microseconds by which rounding may lengthen it, lies inside the
    calendar. *)
Lemma antardasha_list_total (maha : Dasha) (current_date : Q) :
  In (mahadasha maha) vimshottari_rulers ->
  (0 <= dasha_years maha)%Q ->
  (0 <= dasha_start maha)%Q ->
  (dasha_start maha + dasha_years maha * days_per_year
   + (9 # 2) * Py.microsecond < Py.datetime_max)%Q ->
  exists l cur, antardasha_list maha current_date = Ok (l, cur).
Proof.
  intros Hin HY Hs Hmax.
  destruct (rotation_of_rulers _ Hin) as (i & Hi & Hlen & Hhd & Hsum & Hall).
  unfold antardasha_list. rewrite Hi. cbn [Py.bind].
  apply antardasha_loop_total; try assumption.
  replace (length (skipn (Z.to_nat i) vimshottari_rulers
                   ++ firstn (Z.to_nat i) vimshottari_rulers))
    with 9%nat by (symmetry; exact Hlen).
  rewrite Hsum.
  assert (Hfull : (inject_Z 120 * dasha_years maha / 120 * days_per_year
                   == dasha_years maha * days_per_year)%Q)
    by (change (inject_Z 120) with 120%Q; field).
  assert (Hnine : (inject_Z (Z.of_nat 9) * ((1 # 2) * Py.microsecond)
                   == (9 # 2) * Py.microsecond)%Q)
    by (change (inject_Z (Z.of_nat 9)) with 9%Q; ring).
  rewrite Hfull, Hnine. exact Hmax.
Qed.

(** Inside the span the siblings cover, one of them is the active one. *)
Lemma last_containing_cover (current_date s e : Q) (l : list Antardasha) :
  contiguous antar_start antar_end s l e ->
  (s <= current_date)%Q -> (current_date < e)%Q ->
  exists a, last_containing current_date l None = Some a
            /\ In a l
            /\ (antar_start a <= current_date)%Q
            /\ (current_date < antar_end a)%Q.
Proof.
  intros Hc Hs He.
  destruct (contiguous_cover antar_start antar_end l s e current_date
              Hc Hs He) as (b & Hb & H1 & H2).
  destruct (last_containing_some current_date l None b Hb) as (a & Ha & Hin & Hca).
  { apply contains_date_iff. auto. }
  exists a. apply contains_date_iff in Hca. tauto.
Qed.

(** ** The mahadasha timeline *)

Lemma getitem_In {A : Type} (l : list A) (i : Z) (a : A) :
  Py.getitem l i = Ok a -> In a l.
Proof.
  unfold Py.getitem.
  destruct ((_ <? 0) || (_ <=? _)); [discriminate|].
  destruct (nth_error l _) as [x|] eqn:E; [|discriminate].
  intros H; injection H as <-. eapply nth_error_In; eauto.
Qed.

Lemma first_index_range (r : Body) (seq : list (Body * Z)) :
  forall i, first_index_of r seq = Ok i -> 0 <= i < Z.of_nat (length seq).
Proof.
  induction seq as [|[b y] seq IH]; intros i; simpl; [discriminate|].
  destruct (body_eqb b r).
  - intros H; injection H as <-. lia.
  - destruct (first_index_of r seq) as [j| |]; simpl; try discriminate.
    intros H; injection H as <-. specialize (IH j eq_refl). lia.
Qed.

Lemma dasha_sequence_entry (e : Body * Z) :
  In e dasha_sequence -> In (fst e) vimshottari_rulers /\ 6 <= snd e.
Proof.
  intros H. unfold dasha_sequence in H. simpl in H.
  destruct H as [<-|[<-|[<-|[<-|[<-|[<-|[<-|[<-|[<-|[]]]]]]]]]];
    (split; [apply contains_In; reflexivity | vm_compute; congruence]).
Qed.

Lemma dasha_entry_ok (i : Z) :
  0 <= i < 9 ->
  In (fst (dasha_entry i)) vimshottari_rulers /\ 6 <= snd (dasha_entry i).
Proof.
  intros Hi. apply dasha_sequence_entry. unfold dasha_entry.
  apply nth_In. simpl. lia.
Qed.

Lemma dasha_sequence_entry_max (e : Body * Z) :
  In e dasha_sequence -> snd e <= 20.
Proof.
  intros H. unfold dasha_sequence in H. simpl in H.
  destruct H as [<-|[<-|[<-|[<-|[<-|[<-|[<-|[<-|[<-|[]]]]]]]]]];
    vm_compute; congruence.
Qed.

Lemma dasha_entry_max (i : Z) : 0 <= i < 9 -> snd (dasha_entry i) <= 20.
Proof.
  intros Hi. apply dasha_sequence_entry_max. unfold dasha_entry.
  apply nth_In. simpl. lia.
Qed.

(** The first Mahadasha is well formed whenever it is produced, lasts at
    most twenty years and ends inside the calendar. *)
Lemma first_dasha_wf (ctx : NatalContext) (i : Z) (d0 : Dasha) :
  first_dasha ctx = Ok (i, d0) ->
  dasha_wf d0 /\ 0 <= i < 9 /\ dasha_start d0 = birth_datetime ctx
  /\ (dasha_years d0 <= 20)%Q /\ (dasha_end d0 < Py.datetime_max)%Q.
Proof.
  unfold first_dasha.
  destruct (longitude_of moon (natal_planets ctx)) as [m| |];
    cbn [Py.bind]; try discriminate.
  destruct (Py.getitem nakshatra_rulers (nakshatra m)) as [r| |] eqn:Hr;
    cbn [Py.bind]; try discriminate.
  destruct (first_index_of r dasha_sequence) as [j| |] eqn:Hj;
    cbn [Py.bind]; try discriminate.
  destruct (Py.getitem dasha_sequence j) as [e| |] eqn:He;
    cbn [Py.bind]; try discriminate.
  destruct (Py.datetime_add _ _) as [en| |] eqn:Hadd;
    cbn [Py.bind]; try discriminate.
  destruct (datetime_add_ok _ _ _ Hadd) as (Hen & _ & Hmax).
  intros H; injection H as Hi Hd; subst i d0.
  apply getitem_In in Hr. apply getitem_In in He.
  destruct (dasha_sequence_entry e He) as [_ H6].
  pose proof (dasha_sequence_entry_max e He) as H20.
  apply first_index_range in Hj.
  assert (Hrem := remaining_years_positive m (snd e)).
  destruct Hrem as [Hpos Hle]; [lia|].
  split; [|split; [exact Hj|split; [reflexivity|split]]].
  - split; [|split; [exact Hpos | exact Hen]].
    cbn [mahadasha]. unfold nakshatra_rulers in Hr.
    repeat (apply in_app_or in Hr; destruct Hr as [Hr|Hr]; [exact Hr|]).
    exact Hr.
  - cbn [dasha_years]. eapply Qle_trans; [exact Hle|].
    change 20%Q with (inject_Z 20). rewrite <- Zle_Qle. exact H20.
  - exact Hmax.
Qed.

Lemma dasha_fuel_enough (limit current_dasha_end : Q) :
  (limit - current_dasha_end
   <= inject_Z (Z.of_nat (dasha_fuel limit current_dasha_end)))%Q.
Proof.
  unfold dasha_fuel.
  eapply Qle_trans; [apply Qle_ceiling|].
  rewrite <- Zle_Qle. lia.
Qed.

Lemma full_dasha_span (years : Z) :
  6 <= years <= 20 ->
  (1 <= inject_Z years * days_per_year)%Q
  /\ (inject_Z years * days_per_year <= 7305)%Q.
Proof.
  intros [H6 H20].
  assert (Hd : (days_per_year == 365.25)%Q) by reflexivity.
  rewrite Zle_Qle in H6, H20.
  change (inject_Z 6) with 6%Q in H6. change (inject_Z 20) with 20%Q in H20.
  rewrite Hd. split; lra.
Qed.

(** What the loop returns tiles the time from the end of the first
    Mahadasha to a point at or past the limit, with well-formed mahadashas
    that end inside the calendar. *)
Lemma dasha_loop_spec (limit : Q) (fuel : nat) :
  forall dasha_index current_dasha_end l,
    0 <= dasha_index < 9 ->
    dasha_loop fuel limit dasha_index current_dasha_end = Ok l ->
    exists e,
      chain dasha_start dasha_end current_dasha_end l e
      /\ Forall dasha_wf l
      /\ (limit <= e)%Q
      /\ Forall (fun d => (6 <= dasha_years d)%Q
                          /\ (dasha_years d <= 20)%Q
                          /\ (dasha_end d < Py.datetime_max)%Q) l.
Proof.
  induction fuel as [|fuel IH]; intros idx cur l Hidx.
  - simpl. destruct (Py.ltb cur limit) eqn:E; [discriminate|].
    apply ltb_ge in E. intros H; injection H as <-.
    exists cur. simpl. repeat split; auto.
  - cbn [dasha_loop]. destruct (Py.ltb cur limit) eqn:E.
    + destruct (dasha_entry_ok idx Hidx) as [Hr H6].
      pose proof (dasha_entry_max idx Hidx) as H20.
      destruct (dasha_entry idx) as [ruler years]. cbn [fst snd] in Hr, H6, H20.
      destruct (full_dasha_span years (conj H6 H20)) as [Hspan _].
      assert (Hy : (6 <= inject_Z years)%Q)
        by (change 6%Q with (inject_Z 6); rewrite <- Zle_Qle; exact H6).
      assert (Hy' : (inject_Z years <= 20)%Q)
        by (change 20%Q with (inject_Z 20); rewrite <- Zle_Qle; exact H20).
      destruct (Py.datetime_add cur (inject_Z years * days_per_year))
        as [en| |] eqn:Hadd; cbn [Py.bind]; try discriminate.
      destruct (datetime_add_ok _ _ _ Hadd) as (Hen & _ & Hmax).
      destruct (dasha_loop fuel limit ((idx + 1) mod 9) en)
        as [l'| |] eqn:Hl'; cbn [Py.fmap Py.bind]; try discriminate.
      intros H; injection H as <-.
      destruct (IH ((idx + 1) mod 9) en l') as (e & Hc & Hwf & He & Hb);
        [apply Z.mod_pos_bound; lia | exact Hl' |].
      exists e. split; [|split; [|split; [exact He|]]].
      * cbn [chain dasha_start dasha_end].
        split; [reflexivity|]. split; [rewrite Hen; lra | exact Hc].
      * constructor; [|exact Hwf].
        split; [exact Hr|]. split; [cbn [dasha_years]; lra | exact Hen].
      * constructor; [|exact Hb]. cbn [dasha_years dasha_end]. auto.
    + apply ltb_ge in E. intros H; injection H as <-.
      exists cur. simpl. repeat split; auto.
Qed.

(** The loop returns, with the fuel it is given, whenever the limit lies
    twenty years inside the calendar. *)
Lemma dasha_loop_total (limit : Q) (fuel : nat) :
  forall dasha_index current_dasha_end,
    0 <= dasha_index < 9 ->
    (0 <= current_dasha_end)%Q ->
    (limit + 7305 <= Py.datetime_max)%Q ->
    (limit - current_dasha_end <= inject_Z (Z.of_nat fuel))%Q ->
    exists l, dasha_loop fuel limit dasha_index current_dasha_end = Ok l.
Proof.
  induction fuel as [|fuel IH]; intros idx cur Hidx Hcur Hlim Hfuel.
  - simpl. destruct (Py.ltb cur limit) eqn:E; [|eauto].
    apply ltb_lt in E. change (inject_Z (Z.of_nat 0)) with 0%Q in Hfuel. lra.
  - cbn [dasha_loop]. destruct (Py.ltb cur limit) eqn:E; [|eauto].
    apply ltb_lt in E.
    destruct (dasha_entry_ok idx Hidx) as [_ H6].
    pose proof (dasha_entry_max idx Hidx) as H20.
    destruct (dasha_entry idx) as [ruler years]. cbn [fst snd] in H6, H20.
    destruct (full_dasha_span years (conj H6 H20)) as [Hlo Hhi].
    rewrite Nat2Z.inj_succ, <- Z.add_1_r, inject_Z_plus in Hfuel.
    change (inject_Z 1) with 1%Q in Hfuel.
    rewrite datetime_add_in by lra. cbn [Py.bind].
    destruct (IH ((idx + 1) mod 9)
                (cur + inject_Z years * days_per_year)%Q) as [l Hl];
      [apply Z.mod_pos_bound; lia | lra | exact Hlim | lra |].
    rewrite Hl. cbn [Py.fmap Py.bind]. eauto.
Qed.

(** The timeline, whenever it is returned: the first Mahadasha followed by
    what the loop adds, a tiling from the birth to at least ten years past
    the query, made of well-formed mahadashas of at most twenty years. *)
Lemma dasha_timeline_spec (ctx : NatalContext) (current_date : Q)
    (dashas : list Dasha) :
  dasha_timeline ctx current_date = Ok dashas ->
  exists i d0 l e,
    first_dasha ctx = Ok (i, d0)
    /\ dashas = d0 :: l
    /\ dasha_loop
         (dasha_fuel (current_date + inject_Z (365 * 10)) (dasha_end d0))
         (current_date + inject_Z (365 * 10)) ((i + 1) mod 9) (dasha_end d0)
       = Ok l
    /\ chain dasha_start dasha_end (birth_datetime ctx) dashas e
    /\ Forall dasha_wf dashas
    /\ (current_date + inject_Z (365 * 10) <= e)%Q
    /\ Forall (fun d => (dasha_end d < Py.datetime_max)%Q) dashas
    /\ Forall (fun d => (6 <= dasha_years d)%Q) l
    /\ Forall (fun d => (dasha_years d <= 20)%Q) dashas.
Proof.
  unfold dasha_timeline.
  destruct (first_dasha ctx) as [[i d0]| |] eqn:Hfd; cbn [Py.bind];
    try discriminate.
  destruct (first_dasha_wf _ _ _ Hfd) as (Hwf0 & Hi & Hs0 & H20 & Hmax0).
  destruct (Py.datetime_add current_date (inject_Z (365 * 10)))
    as [limit| |] eqn:Hadd; cbn [Py.bind]; try discriminate.
  destruct (datetime_add_ok _ _ _ Hadd) as (Hlimit & _ & _). subst limit.
  destruct (dasha_loop _ _ _ _) as [l| |] eqn:Hl; cbn [Py.fmap Py.bind];
    try discriminate.
  intros H; injection H as <-.
  destruct (dasha_loop_spec _ _ _ _ l
              (Z.mod_pos_bound (i + 1) 9 eq_refl) Hl)
    as (e & Hc & Hwf & He & Hb).
  exists i, d0, l, e.
  split; [reflexivity|]. split; [reflexivity|]. split; [exact Hl|].
  split; [|split; [constructor; assumption|split; [exact He|]]].
  - cbn [chain]. split; [exact Hs0|]. split; [|exact Hc].
    destruct Hwf0 as (_ & Hy & Hend). rewrite Hend.
    assert (Hd : (0 < days_per_year)%Q) by reflexivity.
    assert (H : (0 < dasha_years d0 * days_per_year)%Q)
      by (apply Qmult_lt_0_compat; assumption).
    lra.
  - split; [|split].
    + constructor; [exact Hmax0|].
      eapply Forall_impl; [|exact Hb]. intros d (_ & _ & H). exact H.
    + eapply Forall_impl; [|exact Hb]. intros d (H & _). exact H.
    + constructor; [exact H20|].
      eapply Forall_impl; [|exact Hb]. intros d (_ & H & _). exact H.
Qed.

(** The timeline is returned for every query from which twenty more years
    past the ten-year horizon stay inside the calendar. *)
Lemma dasha_timeline_total (ctx : NatalContext) (current_date : Q)
    (i : Z) (d0 : Dasha) :
  first_dasha ctx = Ok (i, d0) ->
  (0 <= birth_datetime ctx)%Q ->
  (0 <= current_date + inject_Z (365 * 10))%Q ->
  (current_date + 10955 <= Py.datetime_max)%Q ->
  exists dashas, dasha_timeline ctx current_date = Ok dashas.
Proof.
  intros Hfd Hb H0 Hmax.
  destruct (first_dasha_wf _ _ _ Hfd) as (Hwf0 & Hi & Hs0 & _ & _).
  unfold dasha_timeline. rewrite Hfd. cbn [Py.bind].
  assert (H3650 : (inject_Z (365 * 10) == 3650)%Q) by reflexivity.
  rewrite datetime_add_in by lra. cbn [Py.bind].
  destruct (dasha_loop_total (current_date + inject_Z (365 * 10))
              (dasha_fuel (current_date + inject_Z (365 * 10)) (dasha_end d0))
              ((i + 1) mod 9) (dasha_end d0)) as [l Hl].
  - apply Z.mod_pos_bound. lia.
  - destruct Hwf0 as (_ & Hy & Hend). rewrite Hend, Hs0.
    assert (Hd : (0 < days_per_year)%Q) by reflexivity.
    assert (H : (0 < dasha_years d0 * days_per_year)%Q)
      by (apply Qmult_lt_0_compat; assumption).
    lra.
  - lra.
  - apply dasha_fuel_enough.
  - rewrite Hl. cbn [Py.fmap Py.bind]. eauto.
Qed.

Lemma find_current_dasha_inside (current_date : Q) (l : list Dasha) :
  forall s e,
    chain dasha_start dasha_end s l e ->
    (s <= current_date)%Q -> (current_date < e)%Q ->
    exists m, find_current_dasha l current_date = Some m
              /\ In m l
              /\ (dasha_start m <= current_date)%Q
              /\ (current_date < dasha_end m)%Q.
Proof.
  induction l as [|d l IH]; intros s e Hc Hs He.
  - simpl in Hc. subst e. lra.
  - destruct Hc as (Hds & Hlt & Hc). cbn [find_current_dasha].
    destruct (Py.leb (dasha_start d) current_date) eqn:E1.
    + destruct (Py.ltb current_date (dasha_end d)) eqn:E2; cbn [andb].
      * exists d. apply leb_le in E1. apply ltb_lt in E2.
        repeat split; auto. left. reflexivity.
      * apply ltb_ge in E2.
        destruct (IH _ _ Hc E2 He) as (m & Hm & Hin & H1 & H2).
        exists m. repeat split; auto. right. exact Hin.
    + apply leb_gt in E1. rewrite Hds in E1. lra.
Qed.


(** ** Sibling periods tile their parent (C6) *)

(** The first mahadasha of [short_chart] and its siblings: a Saturn
    mahadasha of a little over ten microseconds; the eighth sibling ends
    eleven microseconds after the birth, past the end of the mahadasha,
    and the [break] of line 282 leaves Jupiter, 16 of the 120 years,
    out. *)
Lemma short_chart_siblings :
  exists i maha l cur,
    first_dasha short_chart = Ok (i, maha)
    /\ mahadasha maha = saturn
    /\ (10 * Py.microsecond < dasha_end maha - dasha_start maha)%Q
    /\ (dasha_end maha - dasha_start maha < (21 # 2) * Py.microsecond)%Q
    /\ antardasha_list maha 730119 = Ok (l, cur)
    /\ map planet l = [saturn; mercury; ketu; venus; sun; moon; mars; rahu]
    /\ (total (fun a => antar_end a - antar_start a) l
        == 11 * Py.microsecond)%Q
    /\ (total antar_years l == (104 # 120) * dasha_years maha)%Q.
Proof.
  destruct (first_dasha short_chart) as [[i maha]| |] eqn:Hfd;
    [| vm_compute in Hfd; discriminate Hfd
     | vm_compute in Hfd; discriminate Hfd].
  destruct (antardasha_list maha 730119) as [[l cur]| |] eqn:Hal;
    [| exfalso | exfalso].
  - exists i, maha, l, cur.
    vm_compute in Hfd. injection Hfd as <- <-.
    vm_compute in Hal. injection Hal as <- <-.
    split; [reflexivity|]. split; [reflexivity|].
    split; [reflexivity|]. split; [reflexivity|].
    split; [reflexivity|]. split; [reflexivity|].
    split; reflexivity.
  - vm_compute in Hfd. injection Hfd as <- <-.
    vm_compute in Hal. discriminate Hal.
  - vm_compute in Hfd. injection Hfd as <- <-.
    vm_compute in Hal. discriminate Hal.
Qed.

(** C6, as stated, fails: the siblings generated for the first mahadasha
    of [short_chart] last eleven microseconds together, their parent a
    little over ten. *)
Lemma C6_short_mahadasha_loses_a_sibling :
  ~ (forall ctx i maha current_date l cur,
        first_dasha ctx = Ok (i, maha) ->
        antardasha_list maha current_date = Ok (l, cur) ->
        (Qabs (total (fun a => antar_end a - antar_start a) l
               - (dasha_end maha - dasha_start maha))
         <= 0.000001 * (dasha_end maha - dasha_start maha))%Q).
Proof.
  intros H.
  destruct short_chart_siblings
    as (i & maha & l & cur & Hfd & _ & _ & Hhi & Hal & _ & Htot & _).
  specialize (H short_chart i maha 730119%Q l cur Hfd Hal).
  rewrite Htot in H.
  apply Qabs_Qle_condition in H. destruct H as [_ H].
  unfold Py.microsecond in *. lra.
Qed.

(** C6 (amended): every sibling list generated for a mahadasha of the
    timeline has between one and nine siblings laid end to end from the
    start of the mahadasha, each ending where the next starts and no two
    overlapping, so that their durations add up to the time from the
    start of the mahadasha to the end of the last sibling.  When the
    mahadasha lasts at least a day there are nine siblings, none empty,
    their years add up to the mahadasha's, the last ends within 4.5
    microseconds of the mahadasha, and the durations add up to the
    mahadasha's within a relative error of 1e-6.  The list is generated
    for every mahadasha that ends at least 4.5 microseconds before the
    end of the calendar. *)
Theorem C6_siblings_tile_parent :
  (forall ctx date dashas maha current_date l cur,
      dasha_timeline ctx date = Ok dashas ->
      In maha dashas ->
      antardasha_list maha current_date = Ok (l, cur) ->
      exists e,
        (1 <= length l <= 9)%nat
        /\ contiguous antar_start antar_end (dasha_start maha) l e
        /\ adjacent (fun a b => antar_end a = antar_start b) l
        /\ (forall i j a b,
              (i < j)%nat ->
              nth_error l i = Some a -> nth_error l j = Some b ->
              (antar_end a <= antar_start b)%Q)
        /\ (total (fun a => antar_end a - antar_start a) l
            == e - dasha_start maha)%Q
        /\ ((1 <= dasha_end maha - dasha_start maha)%Q ->
            length l = 9%nat
            /\ chain antar_start antar_end (dasha_start maha) l e
            /\ (total antar_years l == dasha_years maha)%Q
            /\ (Qabs (e - dasha_end maha) <= (9 # 2) * Py.microsecond)%Q
            /\ (Qabs (total (fun a => antar_end a - antar_start a) l
                      - (dasha_end maha - dasha_start maha))
                <= 0.000001 * (dasha_end maha - dasha_start maha))%Q))
  /\ (forall ctx date dashas maha current_date,
        dasha_timeline ctx date = Ok dashas ->
        In maha dashas ->
        (0 <= birth_datetime ctx)%Q ->
        (dasha_end maha + (9 # 2) * Py.microsecond < Py.datetime_max)%Q ->
        exists l cur, antardasha_list maha current_date = Ok (l, cur)).
Proof.
  split.
  - intros ctx date dashas maha current_date l cur Htl Hin Hal.
    destruct (dasha_timeline_spec _ _ _ Htl)
      as (i & d0 & l0 & e0 & _ & _ & _ & _ & Hwf & _).
    rewrite Forall_forall in Hwf. destruct (Hwf _ Hin) as (Hr & HY & Hend).
    assert (HY0 : (0 <= dasha_years maha)%Q) by lra.
    destruct (antardasha_list_shape _ _ _ _ Hr HY0 Hal)
      as (e & Hc & _ & Hlen & _ & _ & _).
    pose proof (contiguous_total _ _ _ _ _ Hc) as Htot.
    exists e. split; [exact Hlen|]. split; [exact Hc|].
    split; [exact (contiguous_adjacent _ _ _ _ _ Hc)|].
    split; [intros i' j a b;
            exact (contiguous_ordered _ _ _ _ _ i' j a b Hc)|].
    split; [exact Htot|].
    intros Hday.
    assert (Hu : (110 * Py.microsecond <= 1)%Q) by (vm_compute; congruence).
    assert (Hlong : (110 * Py.microsecond
                     <= dasha_years maha * days_per_year)%Q)
      by (rewrite Hend in Hday; lra).
    assert (Hrec : (dasha_start maha + dasha_years maha * days_per_year
                    - Py.microsecond <= dasha_end maha)%Q)
      by (rewrite Hend; unfold Py.microsecond; lra).
    destruct (antardasha_list_long _ _ _ _ Hr Hlong Hrec Hal)
      as (e' & Hlen9 & Hch & He1 & He2 & Hyears).
    pose proof (contiguous_end _ _ _ _ _ _ Hc
                  (chain_contiguous _ _ _ _ _ Hch)) as Hee.
    subst e'.
    assert (Habs : (Qabs (e - dasha_end maha) <= (9 # 2) * Py.microsecond)%Q).
    { apply Qabs_Qle_condition. rewrite Hend. split; lra. }
    split; [exact Hlen9|]. split; [exact Hch|]. split; [exact Hyears|].
    split; [exact Habs|].
    rewrite Htot.
    setoid_replace (e - dasha_start maha
                    - (dasha_end maha - dasha_start maha))%Q
      with (e - dasha_end maha)%Q by ring.
    eapply Qle_trans; [exact Habs|].
    unfold Py.microsecond. lra.
  - intros ctx date dashas maha current_date Htl Hin Hb Hmax.
    destruct (dasha_timeline_spec _ _ _ Htl)
      as (i & d0 & l0 & e0 & _ & _ & _ & Hc & Hwf & _).
    rewrite Forall_forall in Hwf. destruct (Hwf _ Hin) as (Hr & HY & Hend).
    destruct (chain_In_bounds _ _ _ _ _ _ Hc Hin) as [Hs _].
    apply antardasha_list_total; [exact Hr | lra | lra |].
    rewrite <- Hend. exact Hmax.
Qed.

Lemma C6_siblings_tile_parent_witness :
  exists dashas maha l cur e,
    dasha_timeline chart 4566 = Ok dashas
    /\ hd_error dashas = Some maha
    /\ antardasha_list maha 4566 = Ok (l, cur)
    /\ length l = 9%nat
    /\ chain antar_start antar_end (dasha_start maha) l e
    /\ (total antar_years l == dasha_years maha)%Q
    /\ (Qabs (total (fun a => antar_end a - antar_start a) l
              - (dasha_end maha - dasha_start maha))
        <= 0.000001 * (dasha_end maha - dasha_start maha))%Q.
Proof.
  destruct C6_siblings_tile_parent as [Hshape Hgen].
  destruct (dasha_timeline chart 4566) as [dashas| |] eqn:E;
    [| vm_compute in E; discriminate E | vm_compute in E; discriminate E].
  destruct dashas as [|maha rest].
  { vm_compute in E. discriminate E. }
  assert (Hin : In maha (maha :: rest)) by (left; reflexivity).
  assert (Hm : Ok maha = Py.fmap (fun l => hd maha l)
                           (dasha_timeline chart 4566))
    by (rewrite E; reflexivity).
  vm_compute in Hm. injection Hm as Hm.
  destruct (Hgen chart 4566%Q (maha :: rest) maha 4566%Q E Hin)
    as (l & cur & Hal).
  { vm_compute. congruence. }
  { rewrite Hm. vm_compute. reflexivity. }
  destruct (Hshape chart 4566%Q (maha :: rest) maha 4566%Q l cur E Hin Hal)
    as (e & _ & _ & _ & _ & _ & Hlong).
  destruct Hlong as (Hlen & Hch & Hyears & _ & Hrel).
  { rewrite Hm. vm_compute. congruence. }
  exists (maha :: rest), maha, l, cur, e. repeat split; assumption.
Defined.

(** ** Resolution before and after birth (C3) *)



Lemma firdaria_sequence_positive (b : bool) :
  Forall (fun p => 0 < snd p) (firdaria_sequence b).
Proof. destruct b; repeat constructor. Qed.


(** A query at or after birth, with thirty years of calendar left after
    it: the timeline is built, one of its mahadashas contains the query,
    and the call returns it. *)
Lemma vimshottari_after_birth (clock : WallClock) (ctx : NatalContext)
    (d i : Z) (d0 : Dasha) :
  first_dasha ctx = Ok (i, d0) ->
  (0 <= birth_datetime ctx)%Q ->
  (birth_datetime ctx <= inject_Z d)%Q ->
  (inject_Z d + 10955 <= Py.datetime_max)%Q ->
  exists dashas m al cur,
    dasha_timeline ctx (inject_Z d) = Ok dashas
    /\ find_current_dasha dashas (inject_Z d) = Some m
    /\ In m dashas
    /\ (dasha_start m <= inject_Z d)%Q
    /\ (inject_Z d < dasha_end m)%Q
    /\ dasha_wf m
    /\ (m = d0 \/ (6 <= dasha_years m)%Q)
    /\ antardasha_list m (inject_Z d) = Ok (al, cur)
    /\ calculate_vimshottari_dasha clock ctx (Some d)
       = Ok {| current_mahadasha := Some m;
               current_antardasha := cur;
               next_antardashas :=
                 firstn 3 (filter (fun a => Py.ltb (inject_Z d)
                                              (antar_start a)) al);
               all_dashas := dashas |}.
Proof.
  intros Hfd Hb0 Hb Hmax.
  assert (H3650 : (inject_Z (365 * 10) == 3650)%Q) by reflexivity.
  destruct (dasha_timeline_total ctx (inject_Z d) i d0 Hfd Hb0)
    as [dashas Htl]; [lra | exact Hmax |].
  destruct (dasha_timeline_spec _ _ _ Htl)
    as (i' & d0' & l & e & Hfd' & Hds & _ & Hc & Hwf & He & _ & H6 & H20).
  rewrite Hfd in Hfd'. injection Hfd' as <- <-.
  assert (Hlt : (inject_Z d < e)%Q) by lra.
  destruct (find_current_dasha_inside _ _ _ _ Hc Hb Hlt)
    as (m & Hm & Hin & H1 & H2).
  rewrite Forall_forall in Hwf, H6, H20.
  pose proof (Hwf _ Hin) as Hm_wf. destruct Hm_wf as (Hr & HY & Hend).
  pose proof (H20 _ Hin) as Hm20.
  destruct (chain_In_bounds _ _ _ _ _ _ Hc Hin) as [Hs _].
  assert (Hd : (days_per_year == 365.25)%Q) by reflexivity.
  assert (Hspan : (dasha_years m * days_per_year <= 7305)%Q).
  { assert (H : (dasha_years m * days_per_year <= 20 * days_per_year)%Q)
      by (apply Qmult_le_compat_r; [exact Hm20 | rewrite Hd; lra]).
    rewrite Hd in H at 2. lra. }
  destruct (antardasha_list_total m (inject_Z d) Hr) as (al & cur & Hal).
  { lra. }
  { lra. }
  { unfold Py.microsecond, Py.datetime_max in *. lra. }
  exists dashas, m, al, cur.
  split; [exact Htl|]. split; [exact Hm|]. split; [exact Hin|].
  split; [exact H1|]. split; [exact H2|].
  split; [exact (Hwf _ Hin)|]. split.
  { rewrite Hds in Hin. destruct Hin as [<- | Hin]; [left; reflexivity|].
    right. exact (H6 _ Hin). }
  split; [exact Hal|].
  unfold calculate_vimshottari_dasha. cbn [resolve_date].
  rewrite Htl. cbn [Py.bind]. rewrite Hm.
  unfold _calculate_antardasha. rewrite Hal. reflexivity.
Qed.







(** ** What the wall clock reaches (C9) *)

(** C9, as stated, fails: the same chart, ephemeris and date range analysed
    under two readings of the clock give different results. *)
Lemma C9_composite_depends_on_clock :
  ~ (forall clock1 clock2 eph ctx date_range_start date_range_end,
        composite_timing_analysis clock1 eph ctx
          date_range_start date_range_end
        = composite_timing_analysis clock2 eph ctx
            date_range_start date_range_end).
Proof.
  intros H.
  specialize (H (clock_at 0 1) (clock_at 2000 1) still_ephemeris chart 10 10).
  vm_compute in H. discriminate H.
Qed.

Lemma composite_factors_fields clock eph ctx (current : Z) (fac : Factors) :
  composite_factors clock eph ctx current = Ok fac ->
  date fac = current
  /\ transits fac = Z.of_nat (length (calculate_transits eph ctx current))
  /\ progressions fac = calculate_progressed_angles eph ctx current
  /\ (exists v m, calculate_vimshottari_dasha clock ctx (Some current) = Ok v
                  /\ current_mahadasha v = Some m
                  /\ dasha fac = mahadasha m)
  /\ (exists f, calculate_firdaria clock ctx (Some current) = Ok f
                /\ firdaria fac = option_map major_period f).
Proof.
  unfold composite_factors.
  destruct (calculate_annual_profections clock ctx None); cbn [Py.bind];
    try discriminate.
  destruct (calculate_vimshottari_dasha clock ctx (Some current)) as [v| |];
    cbn [Py.bind]; try discriminate.
  destruct (current_mahadasha v) as [m|] eqn:Hm; cbn [Py.bind];
    try discriminate.
  destruct (calculate_firdaria clock ctx (Some current)) as [f| |];
    cbn [Py.bind]; try discriminate.
  destruct (calculate_eclipse_sensitivity clock eph ctx) as [es| |];
    cbn [Py.bind]; try discriminate.
  intros H; injection H as <-.
  cbn [date transits progressions dasha firdaria].
  repeat split; eauto.
Qed.

(** C9 (amended): period resolution with an explicit date is
    deterministic in the chart and the date, whatever the wall clock reads:
    Vimshottari, Firdaria and Releasing return the same under any two
    clocks.  The composite analysis is deterministic in its arguments
    together with the reading of the clock: under equal readings it returns
    the same, and under any two readings the date, the transit count, the
    progression count, the dasha and the firdaria of an entry agree; the
    profection and the intensity score are computed from the clock, and
    for the worked chart on day 10 the score is 46 with the clock at day 0
    and 36 with the clock at day 2000. *)
Theorem C9_clock_dependence :
  (forall clock1 clock2 ctx d,
      calculate_vimshottari_dasha clock1 ctx (Some d)
      = calculate_vimshottari_dasha clock2 ctx (Some d))
  /\ (forall clock1 clock2 ctx d,
        calculate_firdaria clock1 ctx (Some d)
        = calculate_firdaria clock2 ctx (Some d))
  /\ (forall clock1 clock2 ctx lot d,
        calculate_zodiacal_releasing clock1 ctx lot (Some d)
        = calculate_zodiacal_releasing clock2 ctx lot (Some d))
  /\ (forall clock1 clock2 eph ctx s e,
        now clock1 = now clock2 -> now_month clock1 = now_month clock2 ->
        composite_timing_analysis clock1 eph ctx s e
        = composite_timing_analysis clock2 eph ctx s e)
  /\ (forall clock1 clock2 eph ctx current f1 f2,
        composite_factors clock1 eph ctx current = Ok f1 ->
        composite_factors clock2 eph ctx current = Ok f2 ->
        date f1 = date f2
        /\ transits f1 = transits f2
        /\ progressions f1 = progressions f2
        /\ dasha f1 = dasha f2
        /\ firdaria f1 = firdaria f2)
  /\ (exists r1 r2,
        composite_timing_analysis (clock_at 0 1) still_ephemeris chart 10 10
        = Ok r1
        /\ composite_timing_analysis (clock_at 2000 1) still_ephemeris
             chart 10 10 = Ok r2
        /\ map intensity_score (full_analysis r1) = [46]
        /\ map intensity_score (full_analysis r2) = [36]).
Proof.
  split; [reflexivity|]. split; [reflexivity|]. split; [reflexivity|].
  split; [|split].
  - intros [n1 m1] [n2 m2] eph ctx s e. cbn [now now_month].
    intros -> ->. reflexivity.
  - intros clock1 clock2 eph ctx current f1 f2 H1 H2.
    destruct (composite_factors_fields _ _ _ _ _ H1)
      as (Hd1 & Ht1 & Hp1 & (v1 & m1 & Hv1 & Hm1 & Hda1) & (g1 & Hg1 & Hf1)).
    destruct (composite_factors_fields _ _ _ _ _ H2)
      as (Hd2 & Ht2 & Hp2 & (v2 & m2 & Hv2 & Hm2 & Hda2) & (g2 & Hg2 & Hf2)).
    assert (Ev : calculate_vimshottari_dasha clock1 ctx (Some current)
                 = calculate_vimshottari_dasha clock2 ctx (Some current))
      by reflexivity.
    assert (Eg : calculate_firdaria clock1 ctx (Some current)
                 = calculate_firdaria clock2 ctx (Some current))
      by reflexivity.
    rewrite Hv1, Hv2 in Ev. injection Ev as <-.
    rewrite Hg1, Hg2 in Eg. injection Eg as <-.
    rewrite Hm1 in Hm2. injection Hm2 as <-.
    repeat split; congruence.
  - eexists. eexists.
    split; [vm_compute; reflexivity|].
    split; [vm_compute; reflexivity|].
    split; reflexivity.
Qed.

Lemma C9_clock_dependence_witness :
  composite_timing_analysis (clock_at 0 1) still_ephemeris chart 10 10
  = composite_timing_analysis {| now := 0; now_month := 1 |}
      still_ephemeris chart 10 10
  /\ (exists f1 f2,
        composite_factors (clock_at 0 1) still_ephemeris chart 10 = Ok f1
        /\ composite_factors (clock_at 2000 7) still_ephemeris chart 10
           = Ok f2
        /\ date f1 = date f2
        /\ transits f1 = transits f2
        /\ progressions f1 = progressions f2
        /\ dasha f1 = dasha f2
        /\ firdaria f1 = firdaria f2).
Proof.
  destruct C9_clock_dependence as (_ & _ & _ & Hsame & Hfields & _).
  split.
  - apply Hsame; reflexivity.
  - destruct (composite_factors (clock_at 0 1) still_ephemeris chart 10)
      as [f1| |] eqn:E1;
      [| vm_compute in E1; discriminate E1
       | vm_compute in E1; discriminate E1].
    destruct (composite_factors (clock_at 2000 7) still_ephemeris chart 10)
      as [f2| |] eqn:E2;
      [| vm_compute in E2; discriminate E2
       | vm_compute in E2; discriminate E2].
    exists f1, f2. split; [reflexivity|]. split; [reflexivity|].
    exact (Hfields _ _ _ _ _ f1 f2 E1 E2).
Defined.

(** * Further properties of the engine *)

(** ** Signs *)

(** X1: a longitude in [0, 360) falls in the sign whose thirty degrees
    contain it; a longitude of 360 or more, which the code does not reduce,
    raises [IndexError]. *)
Theorem X1_get_zodiac_sign_domain :
  (forall longitude,
      (0 <= longitude)%Q -> (longitude < 360)%Q ->
      exists s,
        get_zodiac_sign longitude = Ok s
        /\ (inject_Z (sign_index s) * 30 <= longitude)%Q
        /\ (longitude < inject_Z (sign_index s + 1) * 30)%Q)
  /\ (forall longitude,
        (360 <= longitude)%Q ->
        get_zodiac_sign longitude = Raise IndexError).
Proof.
  split; [|exact get_zodiac_sign_outside].
  intros l H0 H1. destruct (zodiac_index_range _ H0 H1) as [_ Hr].
  exists (sign_at (Qfloor (l / 30))).
  split; [apply get_zodiac_sign_inside; assumption|].
  rewrite sign_index_at by exact Hr.
  pose proof (Qfloor_le (l / 30)) as Hlo.
  pose proof (Qlt_floor (l / 30)) as Hhi.
  assert (Hl : (l / 30 * 30 == l)%Q) by field.
  split.
  - rewrite <- Hl at 2. apply Qmult_le_compat_r; [exact Hlo | lra].
  - rewrite <- Hl at 1. apply Qmult_lt_compat_r; [reflexivity | exact Hhi].
Qed.

Lemma X1_get_zodiac_sign_domain_witness :
  (exists s, get_zodiac_sign 135.5 = Ok s
             /\ (inject_Z (sign_index s) * 30 <= 135.5)%Q
             /\ (135.5 < inject_Z (sign_index s + 1) * 30)%Q)
  /\ get_zodiac_sign 360 = Raise IndexError.
Proof.
  destruct X1_get_zodiac_sign_domain as [Hin Hout].
  split.
  - apply Hin; vm_compute; congruence.
  - apply Hout. vm_compute. congruence.
Defined.

(** X2: the two steps of the Releasing walk undo each other, stepping to
    the next sign twelve times comes back to the start, and no shorter run
    of steps does. *)
Theorem X2_sign_steps_round_trip :
  (forall s, _get_next_zr_sign (_get_next_sign s) = s)
  /\ (forall s, _get_next_sign (_get_next_zr_sign s) = s)
  /\ (forall s, Nat.iter 12 _get_next_sign s = s)
  /\ (forall s k, (0 < k < 12)%nat -> Nat.iter k _get_next_sign s <> s).
Proof.
  split; [intros s; destruct s; reflexivity|].
  split; [intros s; destruct s; reflexivity|].
  split; [intros s; destruct s; reflexivity|].
  intros s k Hk.
  do 12 (destruct k as [|k]; [try lia; destruct s; discriminate|]).
  lia.
Qed.

Lemma X2_sign_steps_round_trip_witness :
  Nat.iter 5 _get_next_sign Pisces <> Pisces.
Proof.
  destruct X2_sign_steps_round_trip as (_ & _ & _ & H).
  apply H. lia.
Defined.

(** ** The lots *)

(** X3: for a chart whose Ascendant, Sun and Moon lie in [0, 360) the Lot
    of Spirit lies in [0, 360], the Lot of Fortune, once its sign is found,
    lies in [0, 360), and the two lots are mirror images about the
    Ascendant: their sum is twice the Ascendant up to one full turn. *)
Theorem X3_lots_mirror_about_ascendant (ctx : NatalContext) (s m : Q) :
  longitude_of sun (natal_planets ctx) = Ok s ->
  longitude_of moon (natal_planets ctx) = Ok m ->
  (0 <= asc ctx)%Q -> (asc ctx < 360)%Q ->
  (0 <= s)%Q -> (s < 360)%Q -> (0 <= m)%Q -> (m < 360)%Q ->
  exists sp,
    _calculate_lot_of_spirit ctx = Ok sp
    /\ (0 <= sp)%Q /\ (sp <= 360)%Q
    /\ forall pof sg,
        calculate_arabic_parts ctx = Ok (pof, sg) ->
        (0 <= pof)%Q /\ (pof < 360)%Q
        /\ get_zodiac_sign pof = Ok sg
        /\ exists k : Z,
            -1 <= k <= 1
            /\ (pof + sp == 2 * asc ctx + 360 * inject_Z k)%Q.
Proof.
  intros Hs Hm Ha0 Ha1 Hs0 Hs1 Hm0 Hm1.
  destruct (lots_raw ctx s m Hs Hm) as [Hsp Hpof].
  set (day := Py.ltb (asc ctx) s || Py.ltb s (asc ctx - 180)%Q) in *.
  set (rs := (if day then asc ctx + s - m else asc ctx + m - s)%Q) in *.
  set (rf := (if day then asc ctx + m - s else asc ctx + s - m)%Q) in *.
  assert (Hsum : (rf + rs == 2 * asc ctx)%Q)
    by (unfold rf, rs; destruct day; ring).
  assert (Hrs : (-360 < rs)%Q /\ (rs < 720)%Q)
    by (unfold rs; destruct day; split; lra).
  assert (Hrf : (-360 < rf)%Q /\ (rf < 720)%Q)
    by (unfold rf; destruct day; split; lra).
  destruct (wrap_lot_range rs (proj1 Hrs) (proj2 Hrs))
    as (Hs_lo & Hs_hi & _ & es & Hes & Hws).
  destruct (wrap_lot_range rf (proj1 Hrf) (proj2 Hrf))
    as (Hf_lo & Hf_hi & _ & ef & Hef & Hwf).
  exists (wrap_lot rs). split; [exact Hsp|].
  split; [exact Hs_lo|]. split; [exact Hs_hi|].
  intros pof sg Hcalc. rewrite Hpof in Hcalc.
  destruct (get_zodiac_sign (wrap_lot rf)) as [sg'| |] eqn:Hsg;
    cbn [Py.bind] in Hcalc; try discriminate.
  injection Hcalc as <- <-.
  assert (Hlt : (wrap_lot rf < 360)%Q).
  { destruct (Qlt_le_dec (wrap_lot rf) 360) as [H | H]; [exact H|].
    rewrite (get_zodiac_sign_outside _ H) in Hsg. discriminate Hsg. }
  split; [exact Hf_lo|]. split; [exact Hlt|]. split; [exact Hsg|].
  assert (Hk : (wrap_lot rf + wrap_lot rs
                == 2 * asc ctx + 360 * inject_Z (ef + es))%Q).
  { rewrite Hwf, Hws, inject_Z_plus, <- Hsum. ring. }
  exists (ef + es). split; [|exact Hk].
  assert (Hb : (-720 < 360 * inject_Z (ef + es))%Q /\
               (360 * inject_Z (ef + es) < 720)%Q) by (split; lra).
  destruct Hb as [Hb1 Hb2].
  assert (H1 : (inject_Z (-2) < inject_Z (ef + es))%Q)
    by (change (inject_Z (-2)) with (-2)%Q; lra).
  assert (H2 : (inject_Z (ef + es) < inject_Z 2)%Q)
    by (change (inject_Z 2) with 2%Q; lra).
  rewrite <- Zlt_Qlt in H1, H2. lia.
Qed.

Lemma X3_lots_mirror_about_ascendant_witness :
  exists sp,
    _calculate_lot_of_spirit chart = Ok sp
    /\ (0 <= sp)%Q /\ (sp <= 360)%Q
    /\ forall pof sg,
        calculate_arabic_parts chart = Ok (pof, sg) ->
        (0 <= pof)%Q /\ (pof < 360)%Q
        /\ get_zodiac_sign pof = Ok sg
        /\ exists k : Z,
            -1 <= k <= 1
            /\ (pof + sp == 2 * asc chart + 360 * inject_Z k)%Q.
Proof.
  apply (X3_lots_mirror_about_ascendant chart 100 69.4533322);
    try reflexivity; vm_compute; congruence.
Defined.

(** X4: a lot that comes out at exactly 360 degrees is not wrapped to 0,
    and the sign lookup then raises [IndexError].  For an Ascendant, Sun
    and Moon on the binary grid, where the sums of the code are exact:
    when the Fortune sum is 360, [calculate_arabic_parts] and with it every
    Releasing call raise; for any other Fortune sum
    [calculate_arabic_parts] succeeds; and when only the Spirit sum is
    360, the Releasing call that starts from the Lot of Spirit raises.
    For any longitudes, a Lot of Fortune that lies at least a millionth of
    a degree inside the circle is returned with its sign. *)
Theorem X4_lot_of_360_raises (ctx : NatalContext) (s m : Q) :
  longitude_of sun (natal_planets ctx) = Ok s ->
  longitude_of moon (natal_planets ctx) = Ok m ->
  (0 <= asc ctx)%Q -> (asc ctx < 360)%Q ->
  (0 <= s)%Q -> (s < 360)%Q -> (0 <= m)%Q -> (m < 360)%Q ->
  let day := Py.ltb (asc ctx) s || Py.ltb s (asc ctx - 180)%Q in
  let fortune_sum := (if day then asc ctx + m - s else asc ctx + s - m)%Q in
  let spirit_sum := (if day then asc ctx + s - m else asc ctx + m - s)%Q in
  (on_binary_grid (asc ctx) -> on_binary_grid s -> on_binary_grid m ->
   ((fortune_sum == 360)%Q ->
    calculate_arabic_parts ctx = Raise IndexError
    /\ forall clock lot d,
        calculate_zodiacal_releasing clock ctx lot d = Raise IndexError)
   /\ (~ (fortune_sum == 360)%Q ->
       exists pof sg, calculate_arabic_parts ctx = Ok (pof, sg))
   /\ (~ (fortune_sum == 360)%Q -> (spirit_sum == 360)%Q ->
       forall clock d,
         calculate_zodiacal_releasing clock ctx spirit d = Raise IndexError))
  /\ ((0.000001 <= wrap_lot fortune_sum)%Q ->
      (wrap_lot fortune_sum <= 359.999999)%Q ->
      exists sg,
        calculate_arabic_parts ctx = Ok (wrap_lot fortune_sum, sg)
        /\ get_zodiac_sign (wrap_lot fortune_sum) = Ok sg).
Proof.
  intros Hs Hm Ha0 Ha1 Hs0 Hs1 Hm0 Hm1 day rf rs.
  destruct (lots_raw ctx s m Hs Hm) as [Hsp Hpof].
  fold day in Hsp, Hpof. fold rf in Hpof. fold rs in Hsp.
  assert (Hrs : (-360 < rs)%Q /\ (rs < 720)%Q)
    by (unfold rs; destruct day; split; lra).
  assert (Hrf : (-360 < rf)%Q /\ (rf < 720)%Q)
    by (unfold rf; destruct day; split; lra).
  destruct (wrap_lot_range rs (proj1 Hrs) (proj2 Hrs))
    as (Hs_lo & Hs_hi & Hs360 & _).
  destruct (wrap_lot_range rf (proj1 Hrf) (proj2 Hrf))
    as (Hf_lo & Hf_hi & Hf360 & _).
  assert (Hbad : (rf == 360)%Q -> calculate_arabic_parts ctx = Raise IndexError).
  { intros H. apply Hf360 in H. rewrite Hpof.
    rewrite get_zodiac_sign_outside by lra. reflexivity. }
  assert (Hgood : ~ (rf == 360)%Q ->
                  calculate_arabic_parts ctx
                  = Ok (wrap_lot rf, sign_at (Qfloor (wrap_lot rf / 30)))).
  { intros H. rewrite Hpof.
    assert (Hlt : (wrap_lot rf < 360)%Q).
    { destruct (Qlt_le_dec (wrap_lot rf) 360) as [H1 | H1]; [exact H1|].
      exfalso. apply H. apply Hf360. lra. }
    rewrite get_zodiac_sign_inside by assumption. reflexivity. }
  split.
  - intros _ _ _. split; [|split].
    + intros H. split; [exact (Hbad H)|].
      intros clock lot d. unfold calculate_zodiacal_releasing.
      rewrite (Hbad H). reflexivity.
    + intros H. eexists. eexists. exact (Hgood H).
    + intros Hf H clock d. unfold calculate_zodiacal_releasing.
      rewrite (Hgood Hf). cbn [Py.bind]. rewrite Hsp. cbn [Py.bind].
      apply Hs360 in H.
      rewrite get_zodiac_sign_outside by lra. reflexivity.
  - intros Hlo Hhi.
    assert (Hne : ~ (rf == 360)%Q).
    { intros H. apply Hf360 in H. rewrite H in Hhi. lra. }
    exists (sign_at (Qfloor (wrap_lot rf / 30))).
    split; [exact (Hgood Hne)|].
    apply get_zodiac_sign_inside; lra.
Qed.

Lemma X4_lot_of_360_raises_witness :
  (exists pof sg, calculate_arabic_parts full_turn_chart = Ok (pof, sg))
  /\ forall clock d,
      calculate_zodiacal_releasing clock full_turn_chart spirit d
      = Raise IndexError.
Proof.
  destruct (X4_lot_of_360_raises full_turn_chart 300 40)
    as ((_ & Hok & Hspirit) & _);
    try reflexivity; try (vm_compute; congruence).
  - exists (100 * 1099511627776). reflexivity.
  - exists (300 * 1099511627776). reflexivity.
  - exists (40 * 1099511627776). reflexivity.
  - split.
    + apply Hok. vm_compute. congruence.
    + apply Hspirit; vm_compute; congruence.
Defined.

(** ** Entries of the Releasing walk *)

(** X5: every entry of a Releasing walk lies at a level from 1 to 4, starts
    on or after the birth and strictly before the query day, has a positive
    span and carries the ruler of its sign; the first entry is the starting
    sign at level 1 from day 0; and the last entry ends on or after the
    query day, so the walk never stops short of the query. *)
Theorem X5_releasing_walk_entries angular (sign : Sign) (days_elapsed : Z)
    (l : list ZRPeriod) :
  zr_walk angular sign days_elapsed = Ok l ->
  (forall p, In p l ->
             1 <= zr_level p <= 4
             /\ 0 <= start_days p < days_elapsed
             /\ start_days p < end_days p
             /\ zr_ruler p = _get_sign_ruler (zr_sign p))
  /\ (forall p l', l = p :: l' ->
                   zr_level p = 1 /\ zr_sign p = sign /\ start_days p = 0)
  /\ (forall l' p, l = l' ++ [p] -> days_elapsed <= end_days p).
Proof.
  intros Hw. unfold zr_walk in Hw.
  destruct (zr_loop_entries _ _ _ _ _ Hw) as [Hall Hlast].
  split; [|split; [|exact Hlast]].
  - rewrite Forall_forall in Hall. intros p Hin.
    exact (Hall p Hin).
  - intros p l' ->. destruct (zr_loop_head _ _ _ _ _ _ Hw) as [-> _].
    repeat split.
Qed.

Lemma X5_releasing_walk_entries_witness :
  exists l,
    zr_walk [] Leo 4566 = Ok l
    /\ (forall p, In p l ->
                  1 <= zr_level p <= 4
                  /\ 0 <= start_days p < 4566
                  /\ start_days p < end_days p
                  /\ zr_ruler p = _get_sign_ruler (zr_sign p))
    /\ (forall l' p, l = l' ++ [p] -> 4566 <= end_days p).
Proof.
  destruct (zr_walk [] Leo 4566) as [l| |] eqn:E;
    [| vm_compute in E; discriminate E | vm_compute in E; discriminate E].
  exists l. split; [reflexivity|].
  destruct (X5_releasing_walk_entries [] Leo 4566 l E) as (H1 & _ & H3).
  split; assumption.
Defined.

(** ** The Firdaria result *)

Lemma firdaria_slots (major_planet : Body) (total : Z) (y : Q) :
  0 < total -> (0 <= y)%Q -> (y < inject_Z total)%Q ->
  exists sp,
    _calculate_firdaria_subperiod major_planet total y = Ok (Some sp)
    /\ 1 <= position sp <= 7
    /\ (sub_years sp * 7 == inject_Z total)%Q
    /\ (inject_Z (position sp - 1) * sub_years sp <= y)%Q
    /\ (y < inject_Z (position sp) * sub_years sp)%Q.
Proof.
  intros Ht H0 H1. pose proof (inject_Z_pos _ Ht) as Hp.
  pose proof (subperiod_index_range _ _ Ht H0 H1) as Hr.
  eexists. split; [apply firdaria_subperiod_inside; assumption|].
  cbn [position sub_years].
  set (q := (y * 7 / inject_Z total)%Q) in *.
  assert (Hne : ~ (inject_Z total == 0)%Q) by lra.
  assert (Hsub : (0 < inject_Z total / 7)%Q)
    by (apply Qlt_shift_div_l; [reflexivity | lra]).
  assert (Hq : (q * (inject_Z total / 7) == y)%Q)
    by (unfold q; field; exact Hne).
  pose proof (Qfloor_le q) as Hlo.
  pose proof (Qlt_floor q) as Hhi.
  replace (Qfloor q + 1 - 1) with (Qfloor q) by lia.
  split; [lia|]. split; [field|]. split.
  - rewrite <- Hq. apply Qmult_le_compat_r; lra.
  - rewrite <- Hq at 1. apply Qmult_lt_compat_r; assumption.
Qed.

Lemma firdaria_loop_found (seq0 : list (Body * Z)) (ye : Q) :
  forall rest cy r,
    Forall (fun p => 0 < snd p) rest ->
    firdaria_loop seq0 ye cy rest = Ok (Some r) ->
    exists pre post sp,
      rest = pre ++ (major_period r, period_years r) :: post
      /\ sequence r = seq0
      /\ (years_in r == ye - inject_Z (cy + cycle_years pre))%Q
      /\ (0 <= years_in r)%Q
      /\ (years_in r < inject_Z (period_years r))%Q
      /\ (years_in r + years_remaining r == inject_Z (period_years r))%Q
      /\ (0 < years_remaining r)%Q
      /\ sub_period r = Some sp
      /\ 1 <= position sp <= 7
      /\ (sub_years sp * 7 == inject_Z (period_years r))%Q.
Proof.
  induction rest as [|[p y] rest IH]; intros cy r Hpos; [discriminate|].
  inversion Hpos as [|x xs Hy Hrest]; subst. cbn [snd] in Hy.
  cbn [firdaria_loop].
  destruct (Py.leb (inject_Z cy) ye
            && Py.ltb ye (inject_Z (cy + y))) eqn:E.
  - apply andb_true_iff in E. destruct E as [E1 E2].
    apply leb_le in E1. apply ltb_lt in E2. rewrite inject_Z_plus in E2.
    destruct (firdaria_slots p y (ye - inject_Z cy)%Q Hy)
      as (sp & Hsp & Hpos7 & Hsum & _); try lra.
    rewrite Hsp. cbn [Py.bind]. intros H; injection H as <-.
    cbn [major_period period_years years_in years_remaining sub_period].
    exists [], rest, sp. cbn [app cycle_years fold_right].
    rewrite Z.add_0_r.
    repeat split; try reflexivity; try lra; try lia; try assumption.
  - intros H. destruct (IH _ _ Hrest H)
      as (pre & post & sp & Hr & Hseq & Hin & H0 & H1 & H2 & H3 & H4 & H5 & H6).
    exists ((p, y) :: pre), post, sp.
    split; [rewrite Hr; reflexivity|]. split; [exact Hseq|].
    split.
    { rewrite Hin.
      change (cycle_years ((p, y) :: pre)) with (y + cycle_years pre).
      rewrite Z.add_assoc. reflexivity. }
    tauto.
Qed.

(** X6: whenever [calculate_firdaria] returns a period, that period is an
    entry of the day or night sequence of the chart; the years into it are
    the elapsed years less the years of the entries before it, at least 0
    and less than its length; years in and years remaining add up to its
    length; and its sub-period is one of seven slots of a seventh of that
    length. *)
Theorem X6_firdaria_result_accounts (clock : WallClock) (ctx : NatalContext)
    (d : option Z) (r : FirdariaResult) :
  calculate_firdaria clock ctx d = Ok (Some r) ->
  exists b pre post sp,
    firdaria_is_day_birth ctx = Ok b
    /\ sequence r = firdaria_sequence b
    /\ firdaria_sequence b
       = pre ++ (major_period r, period_years r) :: post
    /\ (years_in r
        == inject_Z (Qfloor (resolve_date clock d - birth_datetime ctx))
           / days_per_year - inject_Z (cycle_years pre))%Q
    /\ (0 <= years_in r)%Q
    /\ (years_in r < inject_Z (period_years r))%Q
    /\ (years_in r + years_remaining r == inject_Z (period_years r))%Q
    /\ (0 < years_remaining r)%Q
    /\ sub_period r = Some sp
    /\ 1 <= position sp <= 7
    /\ (sub_years sp * 7 == inject_Z (period_years r))%Q.
Proof.
  unfold calculate_firdaria.
  destruct (firdaria_is_day_birth ctx) as [b| |]; cbn [Py.bind];
    try discriminate.
  unfold firdaria_at. intros H.
  destruct (firdaria_loop_found _ _ _ _ _ (firdaria_sequence_positive b) H)
    as (pre & post & sp & Hr & Hseq & Hin & Hrest).
  exists b, pre, post, sp.
  split; [reflexivity|]. split; [exact Hseq|]. split; [exact Hr|].
  split; [rewrite Hin, Z.add_0_l; reflexivity | exact Hrest].
Qed.

Lemma X6_firdaria_result_accounts_witness :
  exists r b pre post sp,
    calculate_firdaria (clock_at 0 1) chart (Some 4566) = Ok (Some r)
    /\ firdaria_is_day_birth chart = Ok b
    /\ firdaria_sequence b
       = pre ++ (major_period r, period_years r) :: post
    /\ (years_in r + years_remaining r == inject_Z (period_years r))%Q
    /\ sub_period r = Some sp
    /\ 1 <= position sp <= 7.
Proof.
  destruct (calculate_firdaria (clock_at 0 1) chart (Some 4566))
    as [[r|]| |] eqn:E;
    try (vm_compute in E; discriminate E).
  destruct (X6_firdaria_result_accounts _ _ _ _ E)
    as (b & pre & post & sp & Hb & _ & Hs & _ & _ & _ & Hsum & _ & Hsp & Hp & _).
  exists r, b, pre, post, sp. repeat split; try assumption; apply Hp.
Defined.

(** ** The order of the mahadashas *)

Lemma first_index_of_entry (r : Body) (seq : list (Body * Z)) :
  forall i, first_index_of r seq = Ok i ->
            exists y, nth_error seq (Z.to_nat i) = Some (r, y).
Proof.
  induction seq as [|[b y] seq IH]; intros i; cbn [first_index_of];
    [discriminate|].
  destruct (body_eqb b r) eqn:E.
  - apply body_eqb_eq in E. subst b. intros H; injection H as <-.
    exists y. reflexivity.
  - destruct (first_index_of r seq) as [j| |] eqn:Hj; cbn [Py.bind];
      try discriminate.
    intros H; injection H as <-.
    destruct (IH j eq_refl) as [y' Hy'].
    pose proof (first_index_range _ _ _ Hj) as Hr.
    exists y'. replace (Z.to_nat (j + 1)) with (S (Z.to_nat j)) by lia.
    exact Hy'.
Qed.

Lemma dasha_loop_order (limit : Q) (fuel : nat) :
  forall dasha_index current_dasha_end l,
    0 <= dasha_index < 9 ->
    dasha_loop fuel limit dasha_index current_dasha_end = Ok l ->
    (forall d l', l = d :: l' ->
                  exists y, dasha_entry dasha_index = (mahadasha d, y)
                            /\ dasha_years d = inject_Z y)
    /\ adjacent dasha_follows l
    /\ Forall (fun d => (dasha_start d < limit)%Q) l.
Proof.
  induction fuel as [|fuel IH]; intros idx cur l Hidx; cbn [dasha_loop].
  - destruct (Py.ltb cur limit); [discriminate|].
    intros H; injection H as <-.
    split; [intros d l' H; discriminate H|]. split; constructor.
  - destruct (Py.ltb cur limit) eqn:E; cycle 1.
    { intros H; injection H as <-.
      split; [intros d l' H; discriminate H|]. split; constructor. }
    apply ltb_lt in E.
    destruct (dasha_entry idx) as [ruler years] eqn:He.
    destruct (Py.datetime_add cur (inject_Z years * days_per_year))
      as [en| |]; cbn [Py.bind]; try discriminate.
    destruct (dasha_loop fuel limit ((idx + 1) mod 9) en)
      as [l2| |] eqn:El; cbn [Py.fmap Py.bind]; try discriminate.
    intros H; injection H as <-.
    assert (Hidx' : 0 <= (idx + 1) mod 9 < 9)
      by (apply Z.mod_pos_bound; lia).
    destruct (IH _ _ _ Hidx' El) as (Hhd & Hadj & Hall).
    split; [|split].
    + intros d l' H. injection H as <- _. exists years.
      split; reflexivity.
    + destruct l2 as [|d2 l2]; constructor; [|exact Hadj].
      destruct (Hhd d2 l2 eq_refl) as (y2 & Hy2 & Hyears).
      exists idx, y2. rewrite He. cbn [fst mahadasha]. auto.
    + constructor; [exact E | exact Hall].
Qed.

Lemma first_dasha_index_entry (ctx : NatalContext) (i : Z) (d0 : Dasha) :
  first_dasha ctx = Ok (i, d0) -> fst (dasha_entry i) = mahadasha d0.
Proof.
  unfold first_dasha.
  destruct (longitude_of moon (natal_planets ctx)) as [m| |];
    cbn [Py.bind]; try discriminate.
  destruct (Py.getitem nakshatra_rulers (nakshatra m)) as [r| |];
    cbn [Py.bind]; try discriminate.
  destruct (first_index_of r dasha_sequence) as [j| |] eqn:Hj;
    cbn [Py.bind]; try discriminate.
  destruct (Py.getitem dasha_sequence j) as [en| |];
    cbn [Py.bind]; try discriminate.
  destruct (Py.datetime_add _ _) as [t| |]; cbn [Py.bind]; try discriminate.
  intros H; injection H as Hi Hd; subst i d0. cbn [mahadasha].
  destruct (first_index_of_entry _ _ _ Hj) as [y Hy].
  unfold dasha_entry. rewrite (nth_error_nth _ _ _ Hy). reflexivity.
Qed.

(** X7: the timeline of mahadashas starts at the birth, each mahadasha
    begins where the one before ends, its ruler is the next entry of the
    nine-ruler sequence (Mercury is followed by Ketu) with the full years
    of that entry, the timeline reaches at least 3650 days past the query,
    and no mahadasha after the first begins at or beyond that horizon. *)
Theorem X7_mahadasha_order (ctx : NatalContext) (current_date : Q)
    (dashas : list Dasha) :
  dasha_timeline ctx current_date = Ok dashas ->
  exists d0 rest e,
    dashas = d0 :: rest
    /\ chain dasha_start dasha_end (birth_datetime ctx) dashas e
    /\ (current_date + inject_Z 3650 <= e)%Q
    /\ adjacent dasha_follows dashas
    /\ adjacent (fun a b => dasha_end a = dasha_start b) dashas
    /\ Forall (fun d => (dasha_start d < current_date + inject_Z 3650)%Q)
         rest.
Proof.
  intros Htl.
  destruct (dasha_timeline_spec ctx current_date dashas Htl)
    as (i & d0 & rest & e & Hfd & -> & Hloop & Hc & _ & He & _).
  exists d0, rest, e. split; [reflexivity|]. split; [exact Hc|].
  split; [exact He|].
  destruct (first_dasha_wf _ _ _ Hfd) as (_ & Hi & _).
  assert (Hidx' : 0 <= (i + 1) mod 9 < 9) by (apply Z.mod_pos_bound; lia).
  destruct (dasha_loop_order _ _ _ _ _ Hidx' Hloop) as (Hhd & Hadj & Hall).
  split; [|split; [exact (chain_adjacent _ _ _ _ _ Hc) | exact Hall]].
  destruct rest as [|d1 rest]; constructor; [|exact Hadj].
  destruct (Hhd d1 rest eq_refl) as (y1 & Hy1 & Hyears).
  exists i, y1. split; [exact Hi|].
  split; [exact (first_dasha_index_entry _ _ _ Hfd)|]. split; assumption.
Qed.

Lemma X7_mahadasha_order_witness :
  exists dashas d0 rest e,
    dasha_timeline chart 4566 = Ok dashas
    /\ dashas = d0 :: rest
    /\ chain dasha_start dasha_end (birth_datetime chart) dashas e
    /\ adjacent dasha_follows dashas.
Proof.
  destruct (dasha_timeline chart 4566) as [dashas| |] eqn:E;
    [| vm_compute in E; discriminate E | vm_compute in E; discriminate E].
  destruct (X7_mahadasha_order chart 4566 dashas E)
    as (d0 & rest & e & H1 & H2 & _ & H4 & _).
  exists dashas, d0, rest, e. auto.
Defined.

(** ** The active antardasha *)

(** What is left in [current_antardasha] is a sibling that contains the
    query. *)
Lemma last_containing_sound (current_date : Q) (l : list Antardasha) :
  forall cur a,
    last_containing current_date l cur = Some a ->
    cur = Some a \/ (In a l /\ contains_date current_date a = true).
Proof.
  unfold last_containing.
  induction l as [|x l IH]; intros cur a; cbn [fold_left]; [auto|].
  intros H. destruct (IH _ _ H) as [Hc | [Hin Hca]].
  - destruct (contains_date current_date x) eqn:E; [|left; exact Hc].
    injection Hc as <-. right. split; [left; reflexivity | exact E].
  - right. split; [right; exact Hin | exact Hca].
Qed.

(** In a tiling, a tile that starts after a point of another tile starts
    no earlier than that other tile ends. *)
Lemma chain_after {A : Type} (st en : A -> Q) (l : list A) (s e x : Q)
    (a b : A) :
  chain st en s l e -> In a l -> In b l ->
  (st a <= x)%Q -> (x < en a)%Q -> (x < st b)%Q ->
  (en a <= st b)%Q.
Proof.
  intros Hc Ha Hb H1 H2 H3.
  destruct (In_nth_error _ _ Ha) as [i Hi].
  destruct (In_nth_error _ _ Hb) as [j Hj].
  destruct (Nat.lt_trichotomy i j) as [Hlt | [Heq | Hgt]].
  - exact (chain_ordered st en l s e i j a b Hc Hlt Hi Hj).
  - subst j. rewrite Hi in Hj. injection Hj as <-. lra.
  - pose proof (chain_ordered st en l s e j i b a Hc Hgt Hj Hi) as Hba.
    assert (Hb' : (st b <= en b)%Q).
    { clear - Hc Hb. revert s Hc.
      induction l as [|y l IH]; intros s Hc; [destruct Hb|].
      destruct Hc as (Hs & Hlt & Hc). destruct Hb as [<- | Hb].
      - lra.
      - exact (IH Hb _ Hc). }
    lra.
Qed.

(** X8: for a chart whose first mahadasha lasts at least a day and a date
    on or after birth with thirty years of calendar left after it,
    [calculate_vimshottari_dasha] reports the mahadasha that contains the
    date and at most three upcoming antardashas, all starting after the
    date.  An active antardasha, when one is reported, contains the date,
    starts inside the mahadasha and ends before any upcoming one starts;
    one is reported whenever the date lies at least five microseconds
    before the end of the mahadasha.  No sibling ends more than 4.5
    microseconds after the mahadasha. *)
Theorem X8_current_antardasha (clock : WallClock) (ctx : NatalContext)
    (d i : Z) (d0 : Dasha) :
  first_dasha ctx = Ok (i, d0) ->
  (0 <= birth_datetime ctx)%Q ->
  (birth_datetime ctx <= inject_Z d)%Q ->
  (inject_Z d + 10955 <= Py.datetime_max)%Q ->
  (1 <= dasha_end d0 - dasha_start d0)%Q ->
  exists r m,
    calculate_vimshottari_dasha clock ctx (Some d) = Ok r
    /\ current_mahadasha r = Some m
    /\ (dasha_start m <= inject_Z d)%Q
    /\ (inject_Z d < dasha_end m)%Q
    /\ (length (next_antardashas r) <= 3)%nat
    /\ (forall b, In b (next_antardashas r) ->
                  (inject_Z d < antar_start b)%Q
                  /\ (antar_end b
                      <= dasha_end m + (9 # 2) * Py.microsecond)%Q)
    /\ (forall a, current_antardasha r = Some a ->
                  (antar_start a <= inject_Z d)%Q
                  /\ (inject_Z d < antar_end a)%Q
                  /\ (dasha_start m <= antar_start a)%Q
                  /\ (antar_end a
                      <= dasha_end m + (9 # 2) * Py.microsecond)%Q
                  /\ forall b, In b (next_antardashas r) ->
                               (antar_end a <= antar_start b)%Q)
    /\ ((inject_Z d + 5 * Py.microsecond <= dasha_end m)%Q ->
        exists a, current_antardasha r = Some a).
Proof.
  intros Hfd Hb0 Hb Hmax Hday.
  destruct (vimshottari_after_birth clock ctx d i d0 Hfd Hb0 Hb Hmax)
    as (dashas & m & al & cur & _ & _ & _ & H1 & H2 & Hwf & Hm & Hal & Hr).
  destruct Hwf as (Hrul & HY & Hend).
  assert (Hd : (days_per_year == 365.25)%Q) by reflexivity.
  assert (Hlong : (1 <= dasha_years m * days_per_year)%Q).
  { destruct Hm as [-> | H6]; [rewrite Hend in Hday; lra|].
    assert (H : (6 * days_per_year <= dasha_years m * days_per_year)%Q)
      by (apply Qmult_le_compat_r; [exact H6 | rewrite Hd; lra]).
    rewrite Hd in H at 1. lra. }
  assert (Hu : (110 * Py.microsecond <= 1)%Q) by (vm_compute; congruence).
  assert (Hu0 : (0 < Py.microsecond)%Q) by reflexivity.
  destruct (antardasha_list_long m (inject_Z d) al cur Hrul)
    as (e & _ & Hch & He1 & He2 & _); [lra | rewrite Hend; lra | exact Hal|].
  destruct (antardasha_list_shape m (inject_Z d) al cur Hrul) as
    (_ & _ & _ & _ & _ & _ & Hcur); [lra | exact Hal|].
  rewrite <- Hend in He1, He2.
  eexists. exists m. split; [exact Hr|].
  cbn [current_mahadasha current_antardasha next_antardashas].
  split; [reflexivity|]. split; [exact H1|]. split; [exact H2|].
  split; [apply firstn_le_length|].
  assert (Hup : forall b,
             In b (firstn 3 (filter (fun a => Py.ltb (inject_Z d)
                                                (antar_start a)) al)) ->
             In b al /\ (inject_Z d < antar_start b)%Q).
  { intros b Hb'. apply firstn_member in Hb'. apply filter_In in Hb'.
    destruct Hb' as [Hbl Hbs]. apply ltb_lt in Hbs. auto. }
  split; [|split].
  - intros b Hb'. destruct (Hup b Hb') as [Hbl Hbs].
    split; [exact Hbs|].
    destruct (chain_In_bounds _ _ _ _ _ _ Hch Hbl) as [_ Hbe]. lra.
  - intros a Ha. rewrite Hcur in Ha.
    destruct (last_containing_sound _ _ _ _ Ha) as [Hc | [Hin Hca]];
      [discriminate Hc|].
    apply contains_date_iff in Hca. destruct Hca as [Ha1 Ha2].
    destruct (chain_In_bounds _ _ _ _ _ _ Hch Hin) as [Hs He].
    split; [exact Ha1|]. split; [exact Ha2|]. split; [exact Hs|].
    split; [lra|].
    intros b Hb'. destruct (Hup b Hb') as [Hbl Hbs].
    exact (chain_after _ _ _ _ _ _ _ _ Hch Hin Hbl Ha1 Ha2 Hbs).
  - intros Hgap.
    destruct (last_containing_cover (inject_Z d) (dasha_start m) e al)
      as (a & Ha & _); [exact (chain_contiguous _ _ _ _ _ Hch) | exact H1
                        | lra |].
    exists a. rewrite Hcur. exact Ha.
Qed.

Lemma X8_current_antardasha_witness :
  exists r m a,
    calculate_vimshottari_dasha (clock_at 0 1) chart (Some 4566) = Ok r
    /\ current_mahadasha r = Some m
    /\ current_antardasha r = Some a
    /\ (antar_start a <= inject_Z 4566)%Q
    /\ (inject_Z 4566 < antar_end a)%Q
    /\ (length (next_antardashas r) <= 3)%nat.
Proof.
  destruct (first_dasha chart) as [[i d0]| |] eqn:E;
    [| vm_compute in E; discriminate E | vm_compute in E; discriminate E].
  assert (Hd0 : Ok d0 = Py.fmap snd (first_dasha chart))
    by (rewrite E; reflexivity).
  vm_compute in Hd0. injection Hd0 as Hd0.
  destruct (X8_current_antardasha (clock_at 0 1) chart 4566 i d0 E)
    as (r & m & Hr & Hm & _ & _ & Hlen & _ & Hact & Hex).
  - vm_compute. congruence.
  - vm_compute. congruence.
  - vm_compute. congruence.
  - rewrite Hd0. vm_compute. congruence.
  - assert (Hm' : Ok (Some m)
                  = Py.fmap current_mahadasha
                      (calculate_vimshottari_dasha (clock_at 0 1) chart
                         (Some 4566)))
      by (rewrite Hr; cbn [Py.fmap Py.bind]; rewrite Hm; reflexivity).
    vm_compute in Hm'. injection Hm' as Hm'.
    destruct Hex as [a Ha].
    { rewrite Hm'. vm_compute. congruence. }
    destruct (Hact a Ha) as (H1 & H2 & _).
    exists r, m, a. auto 10.
Defined.

(** ** Annual profections *)

Lemma floor_unique (x : Q) (z : Z) :
  (inject_Z z <= x)%Q -> (x < inject_Z (z + 1))%Q -> Qfloor x = z.
Proof.
  intros H1 H2.
  pose proof (Qfloor_resp_le _ _ H1) as Hlo. rewrite Qfloor_Z in Hlo.
  pose proof (Qfloor_le x) as Hle.
  assert (Hhi : (inject_Z (Qfloor x) < inject_Z (z + 1))%Q) by lra.
  rewrite <- Zlt_Qlt in Hhi. lia.
Qed.

(** From age zero on, twelve more years are twelve more whole years. *)
Lemma int_add_cycle (a : Q) :
  (0 <= a)%Q -> Py.int (a + 12) = Py.int a + 12.
Proof.
  intros Ha.
  rewrite (int_nonneg_floor a Ha), (int_nonneg_floor (a + 12)) by lra.
  apply floor_unique.
  - rewrite inject_Z_plus. change (inject_Z 12) with 12%Q.
    pose proof (Qfloor_le a). lra.
  - rewrite !inject_Z_plus.
    change (inject_Z 12) with 12%Q. change (inject_Z 1) with 1%Q.
    pose proof (Qlt_floor a) as H. rewrite inject_Z_plus in H.
    change (inject_Z 1) with 1%Q in H. lra.
Qed.

(** The seven bodies that rule signs. *)
Lemma sign_ruler_classical (s : Sign) :
  In (_get_sign_ruler s) [sun; moon; mercury; venus; mars; jupiter; saturn].
Proof. destruct s; simpl; tauto. Qed.

(** On a chart with twelve cusps inside the circle and the seven ruling
    bodies, the profection of any age is computed, with these fields. *)
Lemma profections_fields (clock : WallClock) (ctx : NatalContext) (a : Q) :
  length (cusps ctx) = 12%nat ->
  Forall (fun c => (0 <= c)%Q /\ (c < 360)%Q) (cusps ctx) ->
  (forall b, In b [sun; moon; mercury; venus; mars; jupiter; saturn] ->
             exists l, longitude_of b (natal_planets ctx) = Ok l) ->
  exists c s,
    Py.getitem (cusps ctx) (Py.int a mod 12) = Ok c
    /\ get_zodiac_sign c = Ok s
    /\ calculate_annual_profections clock ctx (Some a)
       = Ok {| year_age := Py.int a;
               profected_house := Py.int a mod 12 + 1;
               profected_sign := s;
               time_lord := _get_sign_ruler s;
               monthly_profection :=
                 (Py.int a mod 12 + 1 - 1 + now_month clock - 1) mod 12
                 + 1 |}.
Proof.
  intros Hlen Hall Hpl.
  pose proof (Z.mod_pos_bound (Py.int a) 12 ltac:(lia)) as Hm.
  assert (Hget : Py.getitem (cusps ctx) (Py.int a mod 12)
                 = Ok (nth (Z.to_nat (Py.int a mod 12)) (cusps ctx) 0%Q))
    by (apply getitem_in_range; rewrite Hlen; lia).
  pose proof (getitem_In _ _ _ Hget) as Hin.
  rewrite Forall_forall in Hall. destruct (Hall _ Hin) as [H0 H1].
  pose proof (get_zodiac_sign_inside _ H0 H1) as Hs.
  destruct (Hpl _ (sign_ruler_classical
                     (sign_at (Qfloor
                        (nth (Z.to_nat (Py.int a mod 12)) (cusps ctx) 0%Q
                         / 30))))) as [lon Hlon].
  eexists. eexists. split; [exact Hget|]. split; [exact Hs|].
  unfold calculate_annual_profections.
  replace (Py.int a mod 12 + 1 - 1) with (Py.int a mod 12) by lia.
  rewrite Hget. cbn [Py.bind]. rewrite Hs. cbn [Py.bind].
  rewrite Hlon. cbn [Py.bind]. reflexivity.
Qed.

(** X9: on a chart with twelve house cusps inside the circle and the seven
    sign-ruling bodies, [calculate_annual_profections] returns a result for
    every age; the profected house and the monthly profection are house
    numbers from 1 to 12, the profected sign is the sign of that house's
    cusp and the time lord its ruler; and from age zero on the activation
    repeats every twelve years. *)
Theorem X9_profections_cycle (clock : WallClock) (ctx : NatalContext)
    (a : Q) :
  length (cusps ctx) = 12%nat ->
  Forall (fun c => (0 <= c)%Q /\ (c < 360)%Q) (cusps ctx) ->
  (forall b, In b [sun; moon; mercury; venus; mars; jupiter; saturn] ->
             exists l, longitude_of b (natal_planets ctx) = Ok l) ->
  exists p c,
    calculate_annual_profections clock ctx (Some a) = Ok p
    /\ 1 <= profected_house p <= 12
    /\ 1 <= monthly_profection p <= 12
    /\ Py.getitem (cusps ctx) (profected_house p - 1) = Ok c
    /\ get_zodiac_sign c = Ok (profected_sign p)
    /\ time_lord p = _get_sign_ruler (profected_sign p)
    /\ ((0 <= a)%Q ->
        exists p',
          calculate_annual_profections clock ctx (Some (a + 12)%Q) = Ok p'
          /\ year_age p' = year_age p + 12
          /\ profected_house p' = profected_house p
          /\ profected_sign p' = profected_sign p
          /\ time_lord p' = time_lord p
          /\ monthly_profection p' = monthly_profection p).
Proof.
  intros Hlen Hall Hpl.
  destruct (profections_fields clock ctx a Hlen Hall Hpl)
    as (c & s & Hc & Hs & Hp).
  pose proof (Z.mod_pos_bound (Py.int a) 12 ltac:(lia)) as Hm.
  eexists. exists c. split; [exact Hp|].
  cbn [profected_house monthly_profection profected_sign time_lord
       year_age].
  split; [lia|].
  split.
  { pose proof (Z.mod_pos_bound
                  (Py.int a mod 12 + 1 - 1 + now_month clock - 1) 12
                  ltac:(lia)). lia. }
  split.
  { replace (Py.int a mod 12 + 1 - 1) with (Py.int a mod 12) by lia.
    exact Hc. }
  split; [exact Hs|]. split; [reflexivity|].
  intros Ha.
  destruct (profections_fields clock ctx (a + 12) Hlen Hall Hpl)
    as (c' & s' & Hc' & Hs' & Hp').
  assert (Hmod : Py.int (a + 12) mod 12 = Py.int a mod 12).
  { rewrite (int_add_cycle a Ha).
    replace (Py.int a + 12) with (Py.int a + 1 * 12) by lia.
    apply Z.mod_add. lia. }
  rewrite Hmod in Hc', Hp'. rewrite Hc in Hc'. injection Hc' as <-.
  rewrite Hs in Hs'. injection Hs' as <-.
  eexists. split; [exact Hp'|].
  cbn [profected_house monthly_profection profected_sign time_lord
       year_age].
  rewrite (int_add_cycle a Ha). repeat split; reflexivity.
Qed.

Lemma X9_profections_cycle_witness :
  exists p,
    calculate_annual_profections (clock_at 0 1) chart (Some 30.5%Q) = Ok p
    /\ 1 <= profected_house p <= 12
    /\ 1 <= monthly_profection p <= 12.
Proof.
  destruct (X9_profections_cycle (clock_at 0 1) chart 30.5%Q)
    as (p & c & H1 & H2 & H3 & _).
  - reflexivity.
  - unfold chart. cbn [cusps].
    repeat (constructor; [split; vm_compute; congruence|]). constructor.
  - intros b Hb. cbn [In] in Hb.
    destruct Hb as [<-|[<-|[<-|[<-|[<-|[<-|[<-|[]]]]]]]];
      eexists; vm_compute; reflexivity.
  - exists p. auto.
Defined.

(** ** Transits *)

Lemma flat_map_length_le {A B : Type} (f : A -> list B) (k : nat)
    (l : list A) :
  (forall x, length (f x) <= k)%nat ->
  (length (flat_map f l) <= length l * k)%nat.
Proof.
  intros Hf. induction l as [|x l IH]; simpl; [lia|].
  rewrite length_app. specialize (Hf x). lia.
Qed.

(** The five aspect windows do not overlap: a separation is inside at
    most one of them. *)
Lemma aspect_windows_disjoint {B : Type} (diff : Q) (mk : Aspect -> Q -> B) :
  (length
     (flat_map (fun ao : Aspect * Q =>
        let d := Qabs (diff - aspect_angle (fst ao)) in
        if Py.leb d (snd ao) then [mk (fst ao) d] else [])
        aspect_orbs) <= 1)%nat.
Proof.
  unfold aspect_orbs. cbn [flat_map fst snd aspect_angle app].
  destruct (Py.leb (Qabs (diff - 0)) 8) eqn:E1;
    [apply leb_le, Qabs_Qle_condition in E1 | clear E1];
  (destruct (Py.leb (Qabs (diff - 180)) 8) eqn:E2;
    [apply leb_le, Qabs_Qle_condition in E2 | clear E2]);
  (destruct (Py.leb (Qabs (diff - 90)) 8) eqn:E3;
    [apply leb_le, Qabs_Qle_condition in E3 | clear E3]);
  (destruct (Py.leb (Qabs (diff - 120)) 8) eqn:E4;
    [apply leb_le, Qabs_Qle_condition in E4 | clear E4]);
  (destruct (Py.leb (Qabs (diff - 60)) 6) eqn:E5;
    [apply leb_le, Qabs_Qle_condition in E5 | clear E5]);
  cbn [app length]; try lia; exfalso; lra.
Qed.

(** X10: [calculate_transits] reports at most one aspect for each pairing
    of a transiting position with a natal position, so no more transits
    than there are pairings; every reported transit carries the target
    date, names a body of the ephemeris and a body of the chart, and has
    an orb between 0 and the limit of its aspect (6 degrees for a sextile,
    8 for the others). *)
Theorem X10_transits_one_aspect_per_pair (eph : Ephemeris)
    (ctx : NatalContext) (target_date : Z) :
  (length (calculate_transits eph ctx target_date)
   <= length (transit_positions eph target_date)
      * length (natal_planets ctx))%nat
  /\ Forall (fun t =>
       transit_date t = target_date
       /\ In (transiting t) (map fst (transit_positions eph target_date))
       /\ In (natal t) (map fst (natal_planets ctx))
       /\ (0 <= orb t)%Q
       /\ (orb t <= (if aspect_eqb (aspect t) sextile then 6 else 8))%Q)
       (calculate_transits eph ctx target_date).
Proof.
  split.
  - unfold calculate_transits.
    apply flat_map_length_le. intros tp.
    replace (length (natal_planets ctx))
      with (length (natal_planets ctx) * 1)%nat by lia.
    apply flat_map_length_le. intros np.
    exact (aspect_windows_disjoint (separation (snd tp) (snd np))
             (fun a d => {| transiting := fst tp; natal := fst np;
                            aspect := a; orb := d;
                            transit_date := target_date |})).
  - apply Forall_forall. intros t Ht. unfold calculate_transits in Ht.
    apply in_flat_map in Ht. destruct Ht as (tp & Htp & Ht).
    apply in_flat_map in Ht. destruct Ht as (np & Hnp & Ht).
    apply in_flat_map in Ht. destruct Ht as (ao & Hao & Ht).
    cbv zeta in Ht.
    destruct (Py.leb _ (snd ao)) eqn:E; [|destruct Ht].
    destruct Ht as [<- | []]. cbn [transit_date transiting natal orb aspect].
    apply leb_le in E.
    split; [reflexivity|].
    split; [apply in_map; exact Htp|].
    split; [apply in_map; exact Hnp|].
    split; [apply Qabs_nonneg|].
    unfold aspect_orbs in Hao. cbn [In] in Hao.
    destruct Hao as [<-|[<-|[<-|[<-|[<-|[]]]]]]; exact E.
Qed.

(** ** The ranking of the composite analysis *)

Lemma insert_by_score_perm (x : Factors) (l : list Factors) :
  Permutation (insert_by_score x l) (x :: l).
Proof.
  induction l as [|y l IH]; simpl; [reflexivity|].
  destruct (intensity_score x <? intensity_score y).
  - rewrite IH. apply perm_swap.
  - reflexivity.
Qed.

Lemma sort_by_score_perm (l : list Factors) :
  Permutation (sort_by_score l) l.
Proof.
  induction l as [|x l IH]; simpl; [reflexivity|].
  rewrite insert_by_score_perm. apply perm_skip. exact IH.
Qed.

(** Inserting an entry dated before all the others keeps the ranking. *)
Lemma insert_by_score_ranked (x : Factors) (l : list Factors) :
  StronglySorted ranks_before l ->
  Forall (fun y => date x < date y) l ->
  StronglySorted ranks_before (insert_by_score x l).
Proof.
  induction l as [|y l IH]; intros Hs Hd; simpl.
  - constructor; constructor.
  - inversion Hs as [|y' l' Hs' Hy]; subst.
    inversion Hd as [|y' l' Hxy Hd']; subst.
    destruct (Z.ltb_spec (intensity_score x) (intensity_score y)) as [Hlt|Hge].
    + constructor; [exact (IH Hs' Hd')|].
      apply Forall_forall. intros z Hz.
      apply insert_by_score_In in Hz. destruct Hz as [-> | Hz].
      * left. exact Hlt.
      * rewrite Forall_forall in Hy. exact (Hy _ Hz).
    + constructor; [exact Hs|].
      constructor.
      * unfold ranks_before. lia.
      * rewrite Forall_forall in Hy, Hd'. apply Forall_forall. intros z Hz.
        specialize (Hy _ Hz). specialize (Hd' _ Hz).
        unfold ranks_before in *. lia.
Qed.

Lemma sort_by_score_ranked (l : list Factors) :
  StronglySorted Z.lt (map date l) ->
  StronglySorted ranks_before (sort_by_score l).
Proof.
  induction l as [|x l IH]; simpl; intros Hs; [constructor|].
  inversion Hs as [|d ds Hs' Hx]; subst.
  apply insert_by_score_ranked; [exact (IH Hs')|].
  apply Forall_forall. intros y Hy. apply (proj1 (sort_by_score_In _ _)) in Hy.
  rewrite Forall_forall in Hx. apply Hx. apply in_map. exact Hy.
Qed.

(** The loop produces one entry per visited date, in order. *)
Lemma composite_loop_dates clock eph ctx (dates : list Z) :
  forall fs, composite_loop clock eph ctx dates = Ok fs ->
             map date fs = dates.
Proof.
  induction dates as [|current rest IH]; intros fs; simpl.
  - intros H; injection H as <-. reflexivity.
  - destruct (composite_factors clock eph ctx current) as [f| |] eqn:Ef;
      simpl; try discriminate.
    destruct (composite_loop clock eph ctx rest) as [fs'| |] eqn:El;
      simpl; try discriminate.
    intros H; injection H as <-. simpl.
    rewrite (IH _ eq_refl).
    destruct (composite_factors_score _ _ _ _ _ Ef) as [-> _]. reflexivity.
Qed.

Lemma date_range_increasing (s e : Z) : StronglySorted Z.lt (date_range s e).
Proof.
  unfold date_range. generalize (Z.to_nat (e - s + 1)) as n.
  generalize 0%nat as k. intros k n. revert k.
  induction n as [|n IH]; intros k; simpl; [constructor|].
  constructor; [apply IH|].
  apply Forall_forall. intros d Hd. apply in_map_iff in Hd.
  destruct Hd as (j & <- & Hj). apply in_seq in Hj. lia.
Qed.

Lemma ranked_tail_below (l : list Factors) :
  StronglySorted ranks_before l ->
  forall n a b, In a (firstn n l) -> In b (skipn n l) ->
                intensity_score b <= intensity_score a.
Proof.
  induction l as [|x l IH]; intros Hs n a b Ha Hb.
  - destruct n; destruct Ha.
  - destruct n as [|n]; [destruct Ha|].
    inversion Hs as [|x' l' Hs' Hx]; subst. simpl in Ha, Hb.
    destruct Ha as [<- | Ha].
    + rewrite Forall_forall in Hx.
      assert (Hin : In b l).
      { rewrite <- (firstn_skipn n l). apply in_or_app. right. exact Hb. }
      specialize (Hx _ Hin). unfold ranks_before in Hx. lia.
    + exact (IH Hs' n a b Ha Hb).
Qed.

Lemma composite_result_shape clock eph ctx (s e : Z) (r : CompositeResult) :
  composite_timing_analysis clock eph ctx s e = Ok r ->
  exists fs,
    composite_loop clock eph ctx (date_range s e) = Ok fs
    /\ full_analysis r = sort_by_score fs
    /\ peak_intensity_dates r = firstn 10 (sort_by_score fs).
Proof.
  unfold composite_timing_analysis.
  destruct (composite_loop clock eph ctx (date_range s e))
    as [fs| |]; cbn [Py.bind]; try discriminate.
  intros H; injection H as <-. exists fs. repeat split; reflexivity.
Qed.

(** X11: when [composite_timing_analysis] returns, ['full_analysis'] holds
    each date of the range exactly once, ranked by descending score with
    equal scores in date order; ['peak_intensity_dates'] has at most ten
    entries, and no entry left out of it scores higher than one in it. *)
Theorem X11_composite_ranking (clock : WallClock) (eph : Ephemeris)
    (ctx : NatalContext) (date_range_start date_range_end : Z)
    (r : CompositeResult) :
  composite_timing_analysis clock eph ctx date_range_start date_range_end
  = Ok r ->
  Permutation (map date (full_analysis r))
    (date_range date_range_start date_range_end)
  /\ length (full_analysis r)
     = Z.to_nat (date_range_end - date_range_start + 1)
  /\ StronglySorted ranks_before (full_analysis r)
  /\ length (peak_intensity_dates r)
     = Nat.min 10 (length (full_analysis r))
  /\ (forall a b,
         In a (peak_intensity_dates r) ->
         In b (skipn 10 (full_analysis r)) ->
         intensity_score b <= intensity_score a).
Proof.
  intros H.
  destruct (composite_result_shape _ _ _ _ _ _ H) as (fs & El & -> & ->).
  pose proof (composite_loop_dates _ _ _ _ _ El) as Hd.
  assert (Hrank : StronglySorted ranks_before (sort_by_score fs)).
  { apply sort_by_score_ranked. rewrite Hd. apply date_range_increasing. }
  split.
  { rewrite <- Hd. apply Permutation_map. apply sort_by_score_perm. }
  split.
  { rewrite (Permutation_length (sort_by_score_perm fs)).
    rewrite <- (length_map date), Hd. unfold date_range.
    rewrite length_map, length_seq. reflexivity. }
  split; [exact Hrank|].
  split; [apply length_firstn|].
  exact (ranked_tail_below _ Hrank 10%nat).
Qed.

Lemma X11_composite_ranking_witness :
  exists r,
    composite_timing_analysis (clock_at 0 1) still_ephemeris chart 10 12
    = Ok r
    /\ Permutation (map date (full_analysis r)) (date_range 10 12)
    /\ StronglySorted ranks_before (full_analysis r).
Proof.
  destruct (composite_timing_analysis (clock_at 0 1) still_ephemeris chart
              10 12) as [r| |] eqn:E;
    [| vm_compute in E; discriminate E | vm_compute in E; discriminate E].
  destruct (X11_composite_ranking _ _ _ _ _ _ E) as (H1 & _ & H3 & _).
  exists r. auto.
Defined.

(** ** The house of a planet *)

Lemma in_house_hit (s e x : Q) :
  in_house s e x = true ->
  ((e < s)%Q -> (s <= x)%Q \/ (x < e)%Q)
  /\ ((s <= e)%Q -> (s <= x)%Q /\ (x < e)%Q).
Proof.
  unfold in_house. destruct (Py.ltb e s) eqn:E.
  - apply ltb_lt in E. intros H. apply orb_true_iff in H.
    rewrite leb_le, ltb_lt in H. split; [tauto | lra].
  - apply ltb_ge in E. intros H. apply andb_true_iff in H.
    rewrite leb_le, ltb_lt in H. split; [lra | tauto].
Qed.

(** A house that does not hold the longitude: if it starts at or below
    the longitude, so does the next one, and this house does not cross
    0 degrees; likewise backwards from an end above the longitude. *)
Lemma in_house_miss (s e x : Q) :
  in_house s e x = false ->
  ((s <= x)%Q -> (e <= x)%Q /\ (s <= e)%Q)
  /\ ((x < e)%Q -> (x < s)%Q /\ (s <= e)%Q).
Proof.
  unfold in_house. destruct (Py.ltb e s) eqn:E.
  - apply ltb_lt in E. intros H. apply orb_false_iff in H.
    rewrite leb_gt, ltb_ge in H. split; intros; lra.
  - apply ltb_ge in E. intros H. apply andb_false_iff in H.
    rewrite leb_gt, ltb_ge in H. split; intros; split; lra.
Qed.

Lemma planet_house_loop_spec (houses : list Q) (x : Q) :
  length houses = 12%nat ->
  forall indices,
    Forall (fun i => 0 <= i < 12) indices ->
    (exists i s e,
        In i indices
        /\ Py.getitem houses i = Ok s
        /\ Py.getitem houses ((i + 1) mod 12) = Ok e
        /\ in_house s e x = true
        /\ planet_house_loop houses x indices = Ok (i + 1))
    \/ (planet_house_loop houses x indices = Ok 1
        /\ forall i, In i indices ->
             exists s e,
               Py.getitem houses i = Ok s
               /\ Py.getitem houses ((i + 1) mod 12) = Ok e
               /\ in_house s e x = false).
Proof.
  intros Hlen. induction indices as [|i rest IH]; intros Hall.
  - right. split; [reflexivity | intros i []].
  - inversion Hall as [|i' rest' Hi Hrest]; subst.
    pose proof (Z.mod_pos_bound (i + 1) 12 ltac:(lia)) as Hm.
    assert (Hs : Py.getitem houses i = Ok (nth (Z.to_nat i) houses 0%Q))
      by (apply getitem_in_range; rewrite Hlen; lia).
    assert (He : Py.getitem houses ((i + 1) mod 12)
                 = Ok (nth (Z.to_nat ((i + 1) mod 12)) houses 0%Q))
      by (apply getitem_in_range; rewrite Hlen; lia).
    cbn [planet_house_loop]. rewrite Hs, He. cbn [Py.bind].
    destruct (in_house _ _ x) eqn:E.
    + left. eexists i, _, _. split; [left; reflexivity|].
      split; [exact Hs|]. split; [exact He|]. split; [exact E | reflexivity].
    + destruct (IH Hrest) as [(j & s & e & Hj & H1 & H2 & H3 & H4) | [H1 H2]].
      * left. exists j, s, e. split; [right; exact Hj|]. tauto.
      * right. split; [exact H1|]. intros j [<- | Hj]; [|exact (H2 _ Hj)].
        eexists _, _. split; [exact Hs|]. split; [exact He | exact E].
Qed.

Ltac house_miss H k M :=
  let s := fresh "s" in
  let e := fresh "e" in
  let Hs := fresh "Hs" in
  let He := fresh "He" in
  destruct (H k) as (s & e & Hs & He & M);
  [ simpl; tauto
  | vm_compute in Hs; vm_compute in He;
    injection Hs as <-; injection He as <-;
    apply in_house_miss in M ].

(** Twelve cusps none of whose houses holds the longitude are all the
    same point. *)
Lemma houses_all_miss (c0 c1 c2 c3 c4 c5 c6 c7 c8 c9 c10 c11 x : Q) :
  let l := [c0; c1; c2; c3; c4; c5; c6; c7; c8; c9; c10; c11] in
  (forall i, In i (map Z.of_nat (seq 0 12)) ->
     exists s e,
       Py.getitem l i = Ok s
       /\ Py.getitem l ((i + 1) mod 12) = Ok e
       /\ in_house s e x = false) ->
  Forall (fun c => (c == c0)%Q) l.
Proof.
  intros l H. subst l.
  house_miss H 0 M0. house_miss H 1 M1. house_miss H 2 M2.
  house_miss H 3 M3. house_miss H 4 M4. house_miss H 5 M5.
  house_miss H 6 M6. house_miss H 7 M7. house_miss H 8 M8.
  house_miss H 9 M9. house_miss H 10 M10. house_miss H 11 M11.
  clear H.
  assert (Hchain : (c0 <= c1)%Q /\ (c1 <= c2)%Q /\ (c2 <= c3)%Q
                   /\ (c3 <= c4)%Q /\ (c4 <= c5)%Q /\ (c5 <= c6)%Q
                   /\ (c6 <= c7)%Q /\ (c7 <= c8)%Q /\ (c8 <= c9)%Q
                   /\ (c9 <= c10)%Q /\ (c10 <= c11)%Q /\ (c11 <= c0)%Q).
  { destruct (Qlt_le_dec x c0) as [Hx | Hx].
    - destruct (proj2 M11 Hx) as [X11 ?].
      destruct (proj2 M10 X11) as [X10 ?].
      destruct (proj2 M9 X10) as [X9 ?].
      destruct (proj2 M8 X9) as [X8 ?].
      destruct (proj2 M7 X8) as [X7 ?].
      destruct (proj2 M6 X7) as [X6 ?].
      destruct (proj2 M5 X6) as [X5 ?].
      destruct (proj2 M4 X5) as [X4 ?].
      destruct (proj2 M3 X4) as [X3 ?].
      destruct (proj2 M2 X3) as [X2 ?].
      destruct (proj2 M1 X2) as [X1 ?].
      destruct (proj2 M0 X1) as [_ ?].
      tauto.
    - destruct (proj1 M0 Hx) as [X1 ?].
      destruct (proj1 M1 X1) as [X2 ?].
      destruct (proj1 M2 X2) as [X3 ?].
      destruct (proj1 M3 X3) as [X4 ?].
      destruct (proj1 M4 X4) as [X5 ?].
      destruct (proj1 M5 X5) as [X6 ?].
      destruct (proj1 M6 X6) as [X7 ?].
      destruct (proj1 M7 X7) as [X8 ?].
      destruct (proj1 M8 X8) as [X9 ?].
      destruct (proj1 M9 X9) as [X10 ?].
      destruct (proj1 M10 X10) as [X11 ?].
      destruct (proj1 M11 X11) as [_ ?].
      tauto. }
  clear - Hchain.
  repeat (constructor; [lra|]). constructor.
Qed.

(** X12: with twelve cusps, [_get_planet_house] returns a house number
    from 1 to 12 for every body of the chart.  Unless all twelve cusps
    are the same point, the planet's longitude lies in the returned house:
    between its cusp and the next one, or, for the house that crosses
    0 degrees Aries, at or above its cusp or below the next one; the
    default after the loop is reached only when the cusps all coincide. *)
Theorem X12_planet_house (ctx : NatalContext) (planet : Body) (lon : Q) :
  length (cusps ctx) = 12%nat ->
  longitude_of planet (natal_planets ctx) = Ok lon ->
  exists h,
    _get_planet_house ctx planet = Ok h
    /\ 1 <= h <= 12
    /\ ((exists c d, In c (cusps ctx) /\ In d (cusps ctx) /\ ~ (c == d)%Q) ->
        exists s e,
          Py.getitem (cusps ctx) (h - 1) = Ok s
          /\ Py.getitem (cusps ctx) (h mod 12) = Ok e
          /\ ((e < s)%Q -> (s <= lon)%Q \/ (lon < e)%Q)
          /\ ((s <= e)%Q -> (s <= lon)%Q /\ (lon < e)%Q))
    /\ ((forall c d, In c (cusps ctx) -> In d (cusps ctx) -> (c == d)%Q) ->
        h = 1).
Proof.
  intros Hlen Hlon. unfold _get_planet_house. rewrite Hlon. cbn [Py.bind].
  assert (Hall : Forall (fun i => 0 <= i < 12) (map Z.of_nat (seq 0 12))).
  { apply Forall_forall. intros i Hi. apply in_map_iff in Hi.
    destruct Hi as (k & <- & Hk). apply in_seq in Hk. lia. }
  destruct (planet_house_loop_spec (cusps ctx) lon Hlen _ Hall)
    as [(i & s & e & Hi & Hs & He & Hhit & Hloop) | [Hloop Hmiss]].
  - rewrite Forall_forall in Hall. specialize (Hall _ Hi).
    exists (i + 1). split; [exact Hloop|]. split; [lia|].
    apply in_house_hit in Hhit. split.
    + intros _. exists s, e.
      replace (i + 1 - 1) with i by lia. tauto.
    + intros Heq. exfalso.
      pose proof (Heq _ _ (getitem_In _ _ _ Hs) (getitem_In _ _ _ He)) as Hse.
      destruct Hhit as [_ Hhit]. lra.
  - exists 1. split; [exact Hloop|]. split; [lia|].
    split; [|reflexivity].
    intros (c & d & Hc & Hd & Hne). exfalso. apply Hne.
    destruct (cusps ctx)
      as [|c0 [|c1 [|c2 [|c3 [|c4 [|c5 [|c6 [|c7 [|c8 [|c9 [|c10 [|c11
          [|c12 l]]]]]]]]]]]]]; try discriminate Hlen.
    pose proof (houses_all_miss c0 c1 c2 c3 c4 c5 c6 c7 c8 c9 c10 c11 lon
                  Hmiss) as Heq.
    rewrite Forall_forall in Heq.
    rewrite (Heq _ Hc), (Heq _ Hd). reflexivity.
Qed.

Lemma X12_planet_house_witness :
  exists h, _get_planet_house chart sun = Ok h /\ 1 <= h <= 12.
Proof.
  destruct (X12_planet_house chart sun 100%Q) as (h & H1 & H2 & _).
  - reflexivity.
  - reflexivity.
  - exists h. auto.
Defined.

(** ** Planetary returns *)







(** ** The calculator's planetary periods *)

(** The truncating quotient of a longitude of the circle by the width the
    code writes: a whole number from 0 to 27, and 27 only in the sliver
    that the truncated width leaves at the end of the circle. *)
Lemma nakshatra_quotient (m : Q) :
  (0 <= m)%Q -> (m < 360)%Q ->
  0 <= Py.int (m / 13.333333) <= 27
  /\ (Py.int (m / 13.333333) = 27 <-> (359.999991 <= m)%Q).
Proof.
  intros H0 H1.
  assert (Hw : (0 < 13.333333)%Q) by reflexivity.
  assert (Hq0 : (0 <= m / 13.333333)%Q)
    by (apply Qle_shift_div_l; [exact Hw | lra]).
  assert (Hq1 : (m / 13.333333 < 28)%Q)
    by (apply Qlt_shift_div_r; [exact Hw | lra]).
  rewrite int_nonneg_floor by exact Hq0.
  pose proof (Qfloor_le (m / 13.333333)) as Hf.
  pose proof (Qlt_floor (m / 13.333333)) as Hg.
  assert (Hlo : 0 <= Qfloor (m / 13.333333))
    by (change 0 with (Qfloor 0); apply Qfloor_resp_le; exact Hq0).
  assert (Hhi : Qfloor (m / 13.333333) < 28).
  { rewrite Zlt_Qlt. eapply Qle_lt_trans; [exact Hf | exact Hq1]. }
  split; [lia|]. split.
  - intros E. rewrite E in Hg. change (inject_Z (27 + 1)) with 28%Q in Hg.
    rewrite E in Hf. change (inject_Z 27) with 27%Q in Hf.
    apply (Qmult_le_compat_r _ _ 13.333333) in Hf; [|lra].
    assert (Em : (m / 13.333333 * 13.333333 == m)%Q) by (field; lra).
    rewrite Em in Hf. lra.
  - intros Hm.
    assert (Hq : (27 <= m / 13.333333)%Q)
      by (apply Qle_shift_div_l; [exact Hw | lra]).
    apply Qfloor_resp_le in Hq. change (Qfloor 27) with 27 in Hq. lia.
Qed.

(** X14: [AstrologicalCalculator.calculate_planetary_periods] returns a
    result for every longitude of the Moon, with a lord and its years
    taken from [dasha_sequence].  For a longitude of the circle the
    reported nakshatra number runs from 1 to 28, and it is 28, one more
    than there are nakshatras, exactly from 359.999991 degrees on; up to
    27 the lord is the one the 27-entry table [nakshatra_rulers] of the
    timing engine lists for that nakshatra. *)
Theorem X14_planetary_periods (ctx : NatalContext) (m : Q) :
  longitude_of moon (natal_planets ctx) = Ok m ->
  exists r,
    Calculator.calculate_planetary_periods ctx = Ok r
    /\ Calculator.moon_position r = m
    /\ In (Calculator.birth_dasha_lord r, Calculator.dasha_period_years r)
         dasha_sequence
    /\ ((0 <= m)%Q -> (m < 360)%Q ->
        1 <= Calculator.birth_nakshatra r <= 28
        /\ (Calculator.birth_nakshatra r = 28 <-> (359.999991 <= m)%Q)
        /\ (Calculator.birth_nakshatra r <= 27 ->
            Py.getitem nakshatra_rulers (Calculator.birth_nakshatra r - 1)
            = Ok (Calculator.birth_dasha_lord r))).
Proof.
  intros Hm. unfold Calculator.calculate_planetary_periods.
  rewrite Hm. cbn [Py.bind].
  change (Z.of_nat (length dasha_sequence)) with 9.
  set (n := Py.int (m / 13.333333)).
  pose proof (Z.mod_pos_bound n 9 ltac:(lia)) as Hmod.
  assert (Hget : Py.getitem dasha_sequence (n mod 9)
                 = Ok (nth (Z.to_nat (n mod 9)) dasha_sequence (ketu, 7)))
    by (apply getitem_in_range;
        change (Z.of_nat (length dasha_sequence)) with 9; lia).
  rewrite Hget. cbn [Py.bind].
  eexists. split; [reflexivity|].
  cbn [Calculator.moon_position Calculator.birth_dasha_lord
       Calculator.dasha_period_years Calculator.birth_nakshatra].
  split; [reflexivity|]. split.
  { rewrite <- surjective_pairing. exact (getitem_In _ _ _ Hget). }
  intros H0 H1.
  destruct (nakshatra_quotient m H0 H1) as [Hr H27]. fold n in Hr, H27.
  split; [lia|]. split.
  { rewrite <- H27. lia. }
  intros Hle.
  destruct (ruler_lookup n ltac:(lia)) as (r & y & Hr1 & _ & Hr3 & _).
  replace (n + 1 - 1) with n by lia.
  rewrite Hr1. rewrite Hget in Hr3.
  apply (f_equal (fun x : result (Body * Z) =>
                    match x with
                    | Ok p => Ok (fst p)
                    | _ => Raise IndexError
                    end)) in Hr3.
  symmetry. exact Hr3.
Qed.

Lemma X14_planetary_periods_witness :
  exists r,
    Calculator.calculate_planetary_periods chart = Ok r
    /\ In (Calculator.birth_dasha_lord r, Calculator.dasha_period_years r)
         dasha_sequence.
Proof.
  destruct (X14_planetary_periods chart 69.4533322%Q eq_refl)
    as (r & H1 & _ & H3 & _).
  exists r. auto.
Defined.

(** ** Critical degrees *)

(** The windows of one modality overlap at most in pairs. *)
Lemma critical_windows (name : Body) (s : Sign) (d : Q) :
  (length
     (flat_map (fun crit_deg : Q =>
        if Py.ltb (Qabs (d - crit_deg)) 1
        then [{| Critical.planet := name; Critical.degree := d;
                 Critical.sign := s; Critical.critical_degree := crit_deg |}]
        else [])
        (Critical.critical_degrees (Critical.modality_of s))) <= 2)%nat.
Proof.
  destruct (Critical.modality_of s);
    cbn [Critical.critical_degrees flat_map app];
    repeat match goal with
    | |- context [Py.ltb (Qabs ?x) 1] =>
        let E := fresh "E" in
        destruct (Py.ltb (Qabs x) 1) eqn:E;
        [apply ltb_lt, Qabs_Qlt_condition in E | clear E]
    end;
    cbn [app length]; try lia; exfalso; lra.
Qed.

Lemma critical_hits_spec (name : Body) (longitude : Q) (s : Sign) :
  get_zodiac_sign longitude = Ok s ->
  exists l,
    Critical.critical_hits name longitude = Ok l
    /\ (length l <= 2)%nat
    /\ (forall h, In h l <->
          exists crit,
            In crit (Critical.critical_degrees (Critical.modality_of s))
            /\ (Qabs (Py.fmod longitude 30 - crit) < 1)%Q
            /\ h = {| Critical.planet := name;
                      Critical.degree := Py.fmod longitude 30;
                      Critical.sign := s;
                      Critical.critical_degree := crit |}).
Proof.
  intros Hs. unfold Critical.critical_hits. rewrite Hs. cbn [Py.bind].
  eexists. split; [reflexivity|]. split; [apply critical_windows|].
  intros h. rewrite in_flat_map. split.
  - intros (crit & Hc & Hh).
    destruct (Py.ltb _ 1) eqn:E; [|destruct Hh].
    destruct Hh as [<- | []]. apply ltb_lt in E. exists crit. auto.
  - intros (crit & Hc & Hlt & ->). exists crit. split; [exact Hc|].
    apply ltb_lt in Hlt. rewrite Hlt. left. reflexivity.
Qed.

Lemma critical_loop_spec (planets : list (Body * Q)) :
  Forall (fun p => (0 <= snd p)%Q /\ (snd p < 360)%Q) planets ->
  exists l,
    Critical.critical_loop planets = Ok l
    /\ (length l <= 2 * length planets)%nat
    /\ (forall h, In h l <->
          exists name longitude s crit,
            In (name, longitude) planets
            /\ get_zodiac_sign longitude = Ok s
            /\ In crit (Critical.critical_degrees (Critical.modality_of s))
            /\ (Qabs (Py.fmod longitude 30 - crit) < 1)%Q
            /\ h = {| Critical.planet := name;
                      Critical.degree := Py.fmod longitude 30;
                      Critical.sign := s;
                      Critical.critical_degree := crit |}).
Proof.
  induction planets as [|[name longitude] rest IH]; intros Hall.
  - exists []. split; [reflexivity|]. split; [simpl; lia|].
    intros h. split; [intros [] | intros (? & ? & ? & ? & [] & _)].
  - inversion Hall as [|p ps [H0 H1] Hrest]; subst. cbn [snd] in H0, H1.
    pose proof (get_zodiac_sign_inside _ H0 H1) as Hs.
    destruct (critical_hits_spec name longitude _ Hs) as (hs & Hh & Hlen & Hin).
    destruct (IH Hrest) as (more & Hm & Hlen' & Hin').
    exists (hs ++ more). cbn [Critical.critical_loop].
    rewrite Hh, Hm. cbn [Py.bind]. split; [reflexivity|].
    split; [rewrite length_app; cbn [length]; lia|].
    intros h. rewrite in_app_iff, Hin, Hin'. split.
    + intros [(crit & Hc & Hlt & ->)
             | (n' & l' & s' & crit & Hp & Hs' & Hc & Hlt & ->)].
      * exists name, longitude, (sign_at (Qfloor (longitude / 30))), crit.
        split; [left; reflexivity|]. auto.
      * exists n', l', s', crit. split; [right; exact Hp|]. auto.
    + intros (n' & l' & s' & crit & [Hp | Hp] & Hs' & Hc & Hlt & ->).
      * injection Hp as <- <-. left.
        rewrite Hs in Hs'. injection Hs' as <-.
        exists crit. auto.
      * right. exists n', l', s', crit. auto.
Qed.

(** X15: on a chart whose longitudes are inside the circle,
    [critical_degree_analysis] lists exactly the pairings of a body with
    a critical degree of its sign's modality that lies less than one
    degree from the body's degree in the sign; the list has at most
    twice as many entries as the chart has bodies; and a body between 8
    and 9 degrees of a fixed sign is listed twice, once for each of the
    two critical degrees. *)
Theorem X15_critical_degrees (ctx : NatalContext) :
  Forall (fun p => (0 <= snd p)%Q /\ (snd p < 360)%Q) (natal_planets ctx) ->
  exists l,
    Critical.critical_degree_analysis ctx = Ok l
    /\ (length l <= 2 * length (natal_planets ctx))%nat
    /\ (forall h, In h l <->
          exists name longitude s crit,
            In (name, longitude) (natal_planets ctx)
            /\ get_zodiac_sign longitude = Ok s
            /\ In crit (Critical.critical_degrees (Critical.modality_of s))
            /\ (Qabs (Py.fmod longitude 30 - crit) < 1)%Q
            /\ h = {| Critical.planet := name;
                      Critical.degree := Py.fmod longitude 30;
                      Critical.sign := s;
                      Critical.critical_degree := crit |})
    /\ (forall name longitude s,
          In (name, longitude) (natal_planets ctx) ->
          get_zodiac_sign longitude = Ok s ->
          Critical.modality_of s = Critical.fixed ->
          (8 < Py.fmod longitude 30)%Q -> (Py.fmod longitude 30 < 9)%Q ->
          In {| Critical.planet := name;
                Critical.degree := Py.fmod longitude 30;
                Critical.sign := s;
                Critical.critical_degree := 8 |} l
          /\ In {| Critical.planet := name;
                   Critical.degree := Py.fmod longitude 30;
                   Critical.sign := s;
                   Critical.critical_degree := 9 |} l).
Proof.
  intros Hall.
  destruct (critical_loop_spec _ Hall) as (l & Hl & Hlen & Hin).
  exists l. split; [exact Hl|]. split; [exact Hlen|]. split; [exact Hin|].
  intros name longitude s Hp Hs Hfix H8 H9.
  split; apply Hin.
  - exists name, longitude, s, 8%Q. split; [exact Hp|]. split; [exact Hs|].
    rewrite Hfix. split; [simpl; tauto|].
    split; [apply Qabs_Qlt_condition; lra | reflexivity].
  - exists name, longitude, s, 9%Q. split; [exact Hp|]. split; [exact Hs|].
    rewrite Hfix. split; [simpl; tauto|].
    split; [apply Qabs_Qlt_condition; lra | reflexivity].
Qed.

Lemma X15_critical_degrees_witness :
  exists l,
    Critical.critical_degree_analysis chart = Ok l
    /\ (length l <= 2 * length (natal_planets chart))%nat.
Proof.
  destruct (X15_critical_degrees chart) as (l & H1 & H2 & _).
  - unfold chart, chart_planets. cbn [natal_planets].
    repeat (constructor; [split; vm_compute; congruence|]). constructor.
  - exists l. auto.
Defined.

(** ** Chara dasha *)

(** A body counts for exactly one of the twelve signs. *)
Lemma one_sign_counts (s : Sign) (w : Z) :
  fold_right (fun t acc => (if sign_eqb s t then w else 0) + acc) 0 signs
  = w.
Proof. destruct s; vm_compute; destruct w; reflexivity. Qed.

(** The strength of a sign is the sum of what the bodies in it add, and
    over the twelve signs these sums account for every body once. *)
Lemma jaimini_loop_spec (planets : list (Body * Q)) :
  Forall (fun p => (0 <= snd p)%Q /\ (snd p < 360)%Q) planets ->
  exists f : Sign -> Z,
    (forall sign strength,
        jaimini_loop sign planets strength = Ok (strength + f sign))
    /\ fold_right (fun t acc => f t + acc) 0 signs
       = fold_right (fun p acc => jaimini_points (fst p) + acc) 0 planets.
Proof.
  induction planets as [|[planet longitude] rest IH]; intros Hall.
  - exists (fun _ => 0). split; [|reflexivity].
    intros sign strength. cbn [jaimini_loop]. f_equal. lia.
  - inversion Hall as [|p ps [H0 H1] Hrest]; subst. cbn [snd] in H0, H1.
    destruct (IH Hrest) as (f & Hf & Hsum).
    pose proof (get_zodiac_sign_inside _ H0 H1) as Hs.
    set (s := sign_at (Qfloor (longitude / 30))) in *.
    exists (fun t => (if sign_eqb s t then jaimini_points planet else 0)
                     + f t).
    split.
    + intros sign strength. cbn [jaimini_loop]. rewrite Hs. cbn [Py.bind].
      rewrite Hf. f_equal. destruct (sign_eqb s sign); lia.
    + cbn [fold_right fst]. rewrite <- Hsum.
      pose proof (one_sign_counts s (jaimini_points planet)) as E.
      unfold signs in *. cbn [fold_right] in *. lia.
Qed.

Lemma sign_of_multiple (i : Z) :
  0 <= i < 12 -> get_zodiac_sign (inject_Z (i * 30)) = Ok (sign_at i).
Proof.
  intros Hi.
  assert (H : i = 0 \/ i = 1 \/ i = 2 \/ i = 3 \/ i = 4 \/ i = 5 \/ i = 6
              \/ i = 7 \/ i = 8 \/ i = 9 \/ i = 10 \/ i = 11) by lia.
  repeat (destruct H as [-> | H]; [reflexivity|]). subst i. reflexivity.
Qed.

Lemma chara_loop_spec (ctx : NatalContext) (f : Sign -> Z) :
  (forall sign, _calculate_jaimini_strength ctx sign = Ok (f sign)) ->
  forall indices,
    Forall (fun i => 0 <= i < 12) indices ->
    chara_loop ctx indices
    = Ok (map (fun i => (sign_at i, f (sign_at i))) indices).
Proof.
  intros Hf. induction indices as [|i rest IH]; intros Hall;
    [reflexivity|].
  inversion Hall as [|i' rest' Hi Hrest]; subst.
  cbn [chara_loop map]. rewrite (sign_of_multiple i Hi). cbn [Py.bind].
  rewrite Hf. cbn [Py.bind]. rewrite (IH Hrest). reflexivity.
Qed.

(** X16: on a chart whose longitudes are inside the circle,
    [calculate_chara_dasha] gives one strength for each of the twelve
    signs, in zodiacal order, and the twelve strengths add up to the
    points of all the bodies of the chart: 2 for Jupiter and for Mercury,
    1 for the Sun and for Venus, minus 1 for Mars and for Saturn, whatever
    the signs they are in. *)
Theorem X16_chara_dasha_strengths (ctx : NatalContext) :
  Forall (fun p => (0 <= snd p)%Q /\ (snd p < 360)%Q) (natal_planets ctx) ->
  exists d,
    calculate_chara_dasha ctx = Ok d
    /\ map fst d = signs
    /\ (forall s v, In (s, v) d -> _calculate_jaimini_strength ctx s = Ok v)
    /\ fold_right (fun e acc => snd e + acc) 0 d
       = fold_right (fun p acc => jaimini_points (fst p) + acc) 0
           (natal_planets ctx).
Proof.
  intros Hall.
  destruct (jaimini_loop_spec _ Hall) as (f & Hf & Hsum).
  assert (Hf' : forall sign, _calculate_jaimini_strength ctx sign
                             = Ok (f sign)).
  { intros sign. unfold _calculate_jaimini_strength. rewrite Hf.
    reflexivity. }
  assert (Hidx : Forall (fun i => 0 <= i < 12) (map Z.of_nat (seq 0 12))).
  { apply Forall_forall. intros i Hi. apply in_map_iff in Hi.
    destruct Hi as (k & <- & Hk). apply in_seq in Hk. lia. }
  eexists. split.
  { unfold calculate_chara_dasha. exact (chara_loop_spec ctx f Hf' _ Hidx). }
  split; [reflexivity|]. split.
  - intros s v Hin. apply in_map_iff in Hin.
    destruct Hin as (i & Hi & _). injection Hi as <- <-. apply Hf'.
  - rewrite <- Hsum. reflexivity.
Qed.

Lemma X16_chara_dasha_strengths_witness :
  exists d,
    calculate_chara_dasha chart = Ok d
    /\ map fst d = signs
    /\ fold_right (fun e acc => snd e + acc) 0 d = 4.
Proof.
  destruct (X16_chara_dasha_strengths chart) as (d & H1 & H2 & _ & H4).
  - unfold chart, chart_planets. cbn [natal_planets].
    repeat (constructor; [split; vm_compute; congruence|]). constructor.
  - exists d. split; [exact H1|]. split; [exact H2|].
    rewrite H4. reflexivity.
Defined.

(** ** The two profection routines *)

Lemma int_of_integer (n : Z) : Py.int (inject_Z n) = n.
Proof. unfold Py.int, inject_Z. simpl. apply Z.quot_1_r. Qed.

(** X17: at a whole age the timing engine's
    [calculate_annual_profections] returns a result exactly when the
    calculator's routine of the same name returns one whose ruler has a
    natal position, and the two then report the same age, house, sign and
    ruler; where the calculator reports no position for the ruler, the
    engine raises [KeyError]. *)
Theorem X17_profection_routines_agree (clock : WallClock)
    (ctx : NatalContext) (n : Z) (q : Simplified.Profection) :
  Simplified.calculate_annual_profections ctx n = Ok q ->
  match Simplified.ruler_position q with
  | Some _ =>
      exists p,
        calculate_annual_profections clock ctx (Some (inject_Z n)) = Ok p
        /\ year_age p = Simplified.current_age q
        /\ profected_house p = Simplified.profected_house q
        /\ profected_sign p = Simplified.house_sign q
        /\ time_lord p = Simplified.house_ruler q
  | None =>
      calculate_annual_profections clock ctx (Some (inject_Z n))
      = Raise KeyError
  end.
Proof.
  unfold Simplified.calculate_annual_profections,
    calculate_annual_profections.
  rewrite int_of_integer.
  destruct (Py.getitem (cusps ctx) (n mod 12 + 1 - 1)) as [c| |];
    cbn [Py.bind]; try discriminate.
  destruct (get_zodiac_sign c) as [s| |]; cbn [Py.bind]; try discriminate.
  intros H; injection H as <-. cbn [Simplified.ruler_position].
  destruct (longitude_of (_get_sign_ruler s) (natal_planets ctx))
    as [l|e|] eqn:El; cbn [Py.bind].
  - eexists. split; [reflexivity|]. repeat split; reflexivity.
  - f_equal. clear - El.
    induction (natal_planets ctx) as [|[b x] ps IH]; simpl in El.
    + injection El as <-. reflexivity.
    + destruct (body_eqb b (_get_sign_ruler s)); [discriminate | auto].
  - exfalso. clear - El.
    induction (natal_planets ctx) as [|[b x] ps IH]; simpl in El.
    + discriminate.
    + destruct (body_eqb b (_get_sign_ruler s)); [discriminate | auto].
Qed.

Lemma X17_profection_routines_agree_witness :
  exists p,
    calculate_annual_profections (clock_at 0 1) chart (Some (inject_Z 30))
    = Ok p
    /\ profected_house p = 7.
Proof.
  pose proof (X17_profection_routines_agree (clock_at 0 1) chart 30 _
                eq_refl) as H.
  cbv beta iota in H. destruct H as (p & H1 & _ & H3 & _).
  exists p. split; [exact H1 | exact H3].
Defined.
